(** * TaskFlow backend: authentication gate, auth flow and task CRUD

    A shallow embedding of the Express/TypeScript backend
    (controllers, middleware, routes and the Knex repository) together
    with the properties of its auth + CRUD contract.

    Modelling conventions

    - JavaScript strings are [string]s of ASCII characters:
      [toLowerCase] and [trim] act on the ASCII letters and the ASCII
      white space characters, and a length is a number of characters.
    - Instants ([new Date()], [created_at], [updated_at]) are integers:
      milliseconds since the epoch, the value of [getTime()].  A handler
      reads the server clock ([now], for [new Date()]); the database
      stamps rows with its own ([dbNow], for [db.fn.now()]).  The
      server's local time is UTC plus a fixed offset.
    - A due date is, at run time, the text of a request body or the
      [Date] object the MySQL driver makes of the [due_date] column
      ([DueDate.t]); [saveTask] has a branch for each.
    - A MySQL table is the list of its rows, as a [select] hands them to
      JavaScript, in retrieval order, which for a given table is taken
      to be the same at every read; SQL equality in a [where] clause is
      equality of strings (a collation that identifies more strings is
      not modelled).  How the connection renders a DATE column
      is a setting of knexfile.ts, which is not among the sources: it
      is a component of the database handle ([Repository.dateColumn]).
      Of the schema, the primary keys, the unique index on
      [users.email] and the cascade of the foreign key of
      [tasks.user_id] are modelled.  That an insert or update of a task
      is refused -- the owner is no stored user, the status or priority
      is no value of its enum column, a text is too long, the due date
      is no date -- is not: [Schema.accepts] names those conditions
      where a property needs them.  A failing connection is not
      modelled.
    - Request bodies have their declared TypeScript types.
    - An async handler yields the reply it sent ([Sent]) or the error its
      promise rejected with ([Rejected]); handlers that write to the
      database also yield the new database.
    - Library calls (bcrypt, jsonwebtoken, validator.js) are parameters.
      Of [jwt.sign] one failure is modelled, the one the code's own
      fallback [process.env.JWT_SECRET ?? ''] leads to: jsonwebtoken
      refuses an empty secret.  [JWT_EXPIRES_IN], when set, is taken to
      be a time span it accepts. *)

From Stdlib Require Import String Ascii List ZArith Bool Lia.
From Stdlib Require Import Permutation Sorted.
Import ListNotations.

Local Open Scope string_scope.
Local Open Scope list_scope.
Local Open Scope Z_scope.

(* ================================================================== *)
(** ** JavaScript string and object primitives used by the code         *)
(* ================================================================== *)

Module Js.

Definition isUpper (c : ascii) : bool :=
  let n := nat_of_ascii c in ((65 <=? n) && (n <=? 90))%nat.

Definition lowerChar (c : ascii) : ascii :=
  if isUpper c then ascii_of_nat (nat_of_ascii c + 32) else c.

(** [String.prototype.toLowerCase] *)
Fixpoint toLowerCase (s : string) : string :=
  match s with
  | EmptyString => EmptyString
  | String c r => String (lowerChar c) (toLowerCase r)
  end.

(** White space as [trim] sees it: TAB, LF, VT, FF, CR and SPACE. *)
Definition isWhite (c : ascii) : bool :=
  let n := nat_of_ascii c in (((9 <=? n) && (n <=? 13)) || (n =? 32))%nat.

Fixpoint trimStart (s : string) : string :=
  match s with
  | EmptyString => EmptyString
  | String c r => if isWhite c then trimStart r else s
  end.

Fixpoint trimEnd (s : string) : string :=
  match s with
  | EmptyString => EmptyString
  | String c r =>
      let r' := trimEnd r in
      if isWhite c && String.eqb r' EmptyString then EmptyString
      else String c r'
  end.

(** [String.prototype.trim] *)
Definition trim (s : string) : string := trimEnd (trimStart s).

(** [s.startsWith(p)] *)
Definition startsWith (s p : string) : bool := String.prefix p s.

(** [s.includes(q)] *)
Fixpoint includes (s q : string) : bool :=
  String.prefix q s ||
  match s with
  | EmptyString => false
  | String _ r => includes r q
  end.

(** [s.split(sep)] for a one-character separator. *)
Fixpoint split (s : string) (sep : ascii) : list string :=
  match s with
  | EmptyString => [EmptyString]
  | String c r =>
      if Ascii.eqb c sep then EmptyString :: split r sep
      else match split r sep with
           | [] => [String c EmptyString]
           | h :: t => String c h :: t
           end
  end.

(** Truthiness of a string: only the empty string is falsy. *)
Definition truthy (s : string) : bool := negb (String.eqb s EmptyString).

(** Values held by the properties of the plain objects the handlers
    build and send. *)
Inductive value :=
| VStr (s : string)
| VTime (t : Z)
| VNull.

(** A plain object: its own enumerable properties in creation order. *)
Definition object := list (string * value).

Definition get (o : object) (k : string) : option value :=
  match find (fun kv => String.eqb (fst kv) k) o with
  | Some kv => Some (snd kv)
  | None => None
  end.

Definition hasKey (o : object) (k : string) : bool :=
  existsb (fun kv => String.eqb (fst kv) k) o.

(** [const { k: _omit, ...rest } = o] : the rest object. *)
Definition rest (o : object) (k : string) : object :=
  filter (fun kv => negb (String.eqb (fst kv) k)) o.

(** [Array.prototype.sort(cmp)]: the sort is stable, so for a
    comparator that is a consistent ordering its result is the stable
    insertion sort below. *)
Section Sort.
Context {A : Type} (cmp : A -> A -> Z).

Fixpoint insert (x : A) (l : list A) : list A :=
  match l with
  | [] => [x]
  | y :: ys => if cmp x y <=? 0 then x :: y :: ys else y :: insert x ys
  end.

Fixpoint sort (l : list A) : list A :=
  match l with
  | [] => []
  | x :: xs => insert x (sort xs)
  end.
End Sort.

End Js.

(* ================================================================== *)
(** ** The [Date] operations the code uses                              *)
(* ================================================================== *)

Module JsDate.

Definition msPerDay : Z := 86400000.
Definition msPerMinute : Z := 60000.

(** Day number of a calendar date of the proleptic Gregorian calendar,
    counted from 1970-01-01. *)
Definition daysFromCivil (y m d : Z) : Z :=
  let y' := if m <=? 2 then y - 1 else y in
  let era := y' / 400 in
  let yoe := y' - era * 400 in
  let mp := (m + 9) mod 12 in
  let doy := (153 * mp + 2) / 5 + d - 1 in
  let doe := yoe * 365 + yoe / 4 - yoe / 100 + doy in
  era * 146097 + doe - 719468.

Definition isLeap (y : Z) : bool :=
  ((y mod 4 =? 0) && negb (y mod 100 =? 0)) || (y mod 400 =? 0).

Definition daysInMonth (y m : Z) : Z :=
  if m =? 2 then (if isLeap y then 29 else 28)
  else if (m =? 4) || (m =? 6) || (m =? 9) || (m =? 11) then 30
  else 31.

Definition digit (c : ascii) : option Z :=
  let n := Z.of_nat (nat_of_ascii c) in
  if (48 <=? n) && (n <=? 57) then Some (n - 48) else None.

Definition number (ds : list ascii) : option Z :=
  fold_left (fun acc c =>
               match acc, digit c with
               | Some a, Some d => Some (10 * a + d)
               | _, _ => None
               end) ds (Some 0).

(** The date-only form [YYYY-MM-DD] of the date-time string format. *)
Definition parseDateOnly (s : string) : option (Z * Z * Z) :=
  match list_ascii_of_string s with
  | [y1; y2; y3; y4; dash1; m1; m2; dash2; d1; d2] =>
      if Ascii.eqb dash1 "-" && Ascii.eqb dash2 "-" then
        match number [y1; y2; y3; y4], number [m1; m2], number [d1; d2] with
        | Some y, Some m, Some d =>
            if (1 <=? m) && (m <=? 12) && (1 <=? d) && (d <=? daysInMonth y m)
            then Some (y, m, d) else None
        | _, _, _ => None
        end
      else None
  | _ => None
  end.

(** [new Date(value).getTime()], [None] for an invalid date.  A
    date-only string denotes midnight UTC of that date; what the other
    forms denote is left to [parseOther]. *)
Definition parse (parseOther : string -> option Z) (value : string) : option Z :=
  match parseDateOnly value with
  | Some (y, m, d) => Some (daysFromCivil y m d * msPerDay)
  | None => parseOther value
  end.

(** Calendar date of a day number: the inverse of [daysFromCivil]. *)
Definition civilFromDays (day : Z) : Z * Z * Z :=
  let z := day + 719468 in
  let era := z / 146097 in
  let doe := z - era * 146097 in
  let yoe := (doe - doe / 1460 + doe / 36524 - doe / 146096) / 365 in
  let doy := doe - (365 * yoe + yoe / 4 - yoe / 100) in
  let mp := (5 * doy + 2) / 153 in
  let d := doy - (153 * mp + 2) / 5 + 1 in
  let m := if mp <? 10 then mp + 3 else mp - 9 in
  let y := yoe + era * 400 in
  (if m <=? 2 then y + 1 else y, m, d).

(** [n] written with [width] decimal digits. *)
Fixpoint digits (width : nat) (n : Z) : string :=
  match width with
  | O => EmptyString
  | S w =>
      (digits w (n / 10)
       ++ String (ascii_of_nat (Z.to_nat (48 + n mod 10))) EmptyString)%string
  end.

(** [new Date(t).toISOString()]: the UTC date and time of the instant,
    [YYYY-MM-DDTHH:mm:ss.sssZ] (the year with a sign and six digits
    outside 0..9999). *)
Definition toISOString (t : Z) : string :=
  let '(y, m, d) := civilFromDays (t / msPerDay) in
  let ms := t mod msPerDay in
  let sign := if y <? 0 then "-" else "+" in
  let year :=
    if (0 <=? y) && (y <=? 9999) then digits 4 y
    else (sign ++ digits 6 (Z.abs y))%string in
  (year ++ "-" ++ digits 2 m ++ "-" ++ digits 2 d
   ++ "T" ++ digits 2 (ms / 3600000)
   ++ ":" ++ digits 2 (ms / 60000 mod 60)
   ++ ":" ++ digits 2 (ms / 1000 mod 60)
   ++ "." ++ digits 3 (ms mod 1000) ++ "Z")%string.

(** Day number of the server-local calendar date at instant [now]. *)
Definition localDay (tz now : Z) : Z := (now + tz * msPerMinute) / msPerDay.

(** [new Date(now).setHours(0, 0, 0, 0)]: midnight, local time, of the
    local day of [now]. *)
Definition startOfLocalDay (tz now : Z) : Z :=
  localDay tz now * msPerDay - tz * msPerMinute.

End JsDate.

(* ================================================================== *)
(** ** types/index.ts                                                   *)
(* ================================================================== *)

(** What a task's [dueDate] holds at run time.  The type says
    [string | null]; a task built from a request body holds the text
    sent, a task read from the database holds whatever the driver made
    of the [due_date] column -- by default a [Date] object, given here
    by its time value. *)
Module DueDate.
Inductive t :=
| Text (s : string)
| DateObject (time : Z).
End DueDate.

Module Task.
Record t := mk {
  id : string;
  title : string;
  description : string;
  status : string;
  priority : string;
  dueDate : option DueDate.t;
  createdAt : Z;
  updatedAt : Z;
  userId : string
}.
End Task.

Module JwtPayload.
Record t := mk {
  userId : string;
  email : string;
  iat : option Z;
  exp : option Z
}.
End JwtPayload.

Module User.
Record t := mk {
  id : string;
  email : string;
  name : string;
  passwordHash : string;
  createdAt : Z
}.

(** The object a [User] is at run time: the five properties, in the
    order the object literals of the code list them. *)
Definition toObject (u : t) : Js.object :=
  [ ("id", Js.VStr (id u));
    ("email", Js.VStr (email u));
    ("name", Js.VStr (name u));
    ("passwordHash", Js.VStr (passwordHash u));
    ("createdAt", Js.VTime (createdAt u)) ].
End User.

Module RegisterBody.
Record t := mk { email : string; password : string; name : string }.
End RegisterBody.

Module LoginBody.
Record t := mk { email : string; password : string }.
End LoginBody.

(** [TaskBody] and [Partial<TaskBody>]: an optional property is [None]
    when the key is absent ([undefined]).  [dueDate] is [string | null],
    so [Some None] is an explicit [null].  [extra] holds whatever other
    keys the JSON body carries; no handler reads them. *)
Module TaskBody.
Record t := mk {
  title : option string;
  description : option string;
  status : option string;
  priority : option string;
  dueDate : option (option string);
  extra : Js.object
}.
End TaskBody.

Module ApiResponse.
Record t (T : Type) := mk {
  success : bool;
  data : option T;
  message : option string;
  errors : option (list string)
}.
Arguments mk {T}.
Arguments success {T}.
Arguments data {T}.
Arguments message {T}.
Arguments errors {T}.
End ApiResponse.

Module AuthResponseData.
(** [user] is [Omit<User, 'passwordHash'>]: at run time the rest
    object of a destructuring. *)
Record t := mk { token : string; user : Js.object }.
End AuthResponseData.

(** What the process reads from its environment. *)
Module ProcessEnv.
Record t := mk {
  JWT_SECRET : option string;
  JWT_EXPIRES_IN : option string;
  (** minutes the server's local time is ahead of UTC (negative when
      it is behind), the same all day *)
  tzOffsetMinutes : Z
}.
End ProcessEnv.

(** Result of running an async Express handler. *)
Inductive HttpResult (T : Type) :=
| Sent (status : Z) (body : ApiResponse.t T)
| Rejected (err : string).
Arguments Sent {T}.
Arguments Rejected {T}.

Definition statusOf {T} (r : HttpResult T) : option Z :=
  match r with
  | Sent s _ => Some s
  | Rejected _ => None
  end.

(** [a ?? b] *)
Definition nullish {A} (a : option A) (b : A) : A :=
  match a with
  | Some x => x
  | None => b
  end.

(* ================================================================== *)
(** ** config/repository.ts and the two migrations                      *)
(* ================================================================== *)

Module UserRow.
Record t := mk {
  id : string;
  email : string;
  password : string;
  name : string;
  created_at : Z
}.
End UserRow.

(** A row of [tasks] as a [select] hands it over ([row: any]). *)
Module TaskRow.
Record t := mk {
  id : string;
  user_id : string;
  title : string;
  description : string;
  status : string;
  priority : string;
  due_date : option DueDate.t;
  created_at : Z;
  updated_at : Z
}.
End TaskRow.

Module Repository.

(** The Knex handle [db]: the two tables, and [dateColumn], the
    JavaScript value a read yields for a DATE column into which the
    given text was written -- MySQL's reading of the text as a date,
    then the driver's rendering of that date.  The rendering is set
    where the connection is configured (knexfile.ts): by default a
    [Date] object at midnight of that date, local time; the date as text
    with [dateStrings]. *)
Record Db := mkDb {
  dateColumn : string -> DueDate.t;
  users : list UserRow.t;
  tasks : list TaskRow.t
}.

Definition mapTaskFromDb (row : TaskRow.t) : Task.t :=
  Task.mk (TaskRow.id row) (TaskRow.title row) (TaskRow.description row)
          (TaskRow.status row) (TaskRow.priority row) (TaskRow.due_date row)
          (TaskRow.created_at row) (TaskRow.updated_at row)
          (TaskRow.user_id row).

Definition mapUserFromDb (row : UserRow.t) : User.t :=
  User.mk (UserRow.id row) (UserRow.email row) (UserRow.name row)
          (UserRow.password row) (UserRow.created_at row).

(** [db('users').where({ id }).first()] *)
Definition findUserById (db : Db) (id : string) : option User.t :=
  option_map mapUserFromDb
    (find (fun r => String.eqb (UserRow.id r) id) (users db)).

(** [whereRaw('LOWER(email) = ?', [email.toLowerCase()]).first()] *)
Definition findUserByEmail (db : Db) (email : string) : option User.t :=
  option_map mapUserFromDb
    (find (fun r => String.eqb (Js.toLowerCase (UserRow.email r))
                               (Js.toLowerCase email))
          (users db)).

(** [db('users').insert(...)].  The table has [id] as primary key and
    a unique index on [email]; an insert that breaks either is
    refused by the database and the call rejects. *)
Definition saveUser (db : Db) (now : Z) (user : User.t) : Db + string :=
  if existsb (fun r => String.eqb (UserRow.id r) (User.id user)
                       || String.eqb (UserRow.email r) (User.email user))
             (users db)
  then inr "ER_DUP_ENTRY"
  else inl (mkDb (dateColumn db)
                 (users db ++
                    [UserRow.mk (User.id user) (User.email user)
                                (User.passwordHash user) (User.name user) now])
                 (tasks db)).

(** [db('tasks').where({ user_id: userId }).select('*')] *)
Definition getTasksByUser (db : Db) (userId : string) : list Task.t :=
  map mapTaskFromDb
      (filter (fun r => String.eqb (TaskRow.user_id r) userId) (tasks db)).

(** [db('tasks').where({ id }).first()] *)
Definition findTaskById (db : Db) (id : string) : option Task.t :=
  option_map mapTaskFromDb
    (find (fun r => String.eqb (TaskRow.id r) id) (tasks db)).

(** [formattedDueDate] of [saveTask] for a due date that is a string:
    [task.dueDate.split('T')[0]], and [null] for the empty string,
    which is falsy. *)
Definition formatDueDate (dueDate : option string) : option string :=
  match dueDate with
  | Some s => if Js.truthy s then Some (hd EmptyString (Js.split s "T")) else None
  | None => None
  end.

(** [formattedDueDate] of [saveTask]: the string branch above, and for
    a [Date] object [task.dueDate.toISOString().split('T')[0]]. *)
Definition formattedDueDate (dueDate : option DueDate.t) : option string :=
  match dueDate with
  | Some (DueDate.Text s) => formatDueDate (Some s)
  | Some (DueDate.DateObject time) =>
      Some (hd EmptyString (Js.split (JsDate.toISOString time) "T"))
  | None => None
  end.

(** The [due_date] of the row once [saveTask] has written it, as the
    next read hands it over. *)
Definition writtenDueDate (db : Db) (dueDate : option DueDate.t)
  : option DueDate.t :=
  option_map (dateColumn db) (formattedDueDate dueDate).

(** [where({ id }).update(data)]: every column but [created_at]. *)
Definition updateRow (db : Db) (now : Z) (task : Task.t) (r : TaskRow.t)
  : TaskRow.t :=
  if String.eqb (TaskRow.id r) (Task.id task)
  then TaskRow.mk (Task.id task) (Task.userId task) (Task.title task)
                  (Task.description task) (Task.status task)
                  (Task.priority task) (writtenDueDate db (Task.dueDate task))
                  (TaskRow.created_at r) now
  else r.

Definition saveTask (db : Db) (now : Z) (task : Task.t) : Db :=
  match findTaskById db (Task.id task) with
  | Some _ =>
      mkDb (dateColumn db) (users db) (map (updateRow db now task) (tasks db))
  | None =>
      mkDb (dateColumn db) (users db)
           (tasks db ++
              [TaskRow.mk (Task.id task) (Task.userId task) (Task.title task)
                          (Task.description task) (Task.status task)
                          (Task.priority task)
                          (writtenDueDate db (Task.dueDate task)) now now])
  end.

(** [db('tasks').where({ id }).delete()], with [deleted > 0]. *)
Definition deleteTask (db : Db) (id : string) : Db * bool :=
  (mkDb (dateColumn db) (users db)
        (filter (fun r => negb (String.eqb (TaskRow.id r) id)) (tasks db)),
   existsb (fun r => String.eqb (TaskRow.id r) id) (tasks db)).

End Repository.

(* ================================================================== *)
(** ** controllers/taskController.ts                                    *)
(* ================================================================== *)

(** [req.query]: a parameter is absent, a string, or (when it is
    repeated or written with brackets) an array or a nested object. *)
Module Query.
Inductive value :=
| Str (s : string)
| Arr (items : list string)
| Obj (fields : list (string * string)).

Record t := mk {
  status : option value;
  priority : option value;
  search : option value
}.

(** [v && typeof v === 'string'], returning the string it guards. *)
Definition guard (v : option value) : option string :=
  match v with
  | Some (Str s) => if Js.truthy s then Some s else None
  | Some (Arr _) => None
  | Some (Obj _) => None
  | None => None
  end.
End Query.

Module TaskController.

(** [res.status(404).json({ success: false, message: 'Task not found.' })] *)
Definition notFound {T} : HttpResult T :=
  Sent 404 (ApiResponse.mk false None (Some "Task not found.") None).

(** [new Date(b.createdAt).getTime() - new Date(a.createdAt).getTime()] *)
Definition byCreatedAtDesc (a b : Task.t) : Z :=
  Task.createdAt b - Task.createdAt a.

Definition getTasks (db : Repository.Db) (user : JwtPayload.t) (query : Query.t)
  : HttpResult (list Task.t) :=
  let userId := JwtPayload.userId user in
  let tasks := Repository.getTasksByUser db userId in
  let tasks :=
    match Query.guard (Query.status query) with
    | Some status => filter (fun t => String.eqb (Task.status t) status) tasks
    | None => tasks
    end in
  let tasks :=
    match Query.guard (Query.priority query) with
    | Some priority => filter (fun t => String.eqb (Task.priority t) priority) tasks
    | None => tasks
    end in
  let tasks :=
    match Query.guard (Query.search query) with
    | Some search =>
        let q := Js.toLowerCase search in
        filter (fun t => Js.includes (Js.toLowerCase (Task.title t)) q
                         || Js.includes (Js.toLowerCase (Task.description t)) q)
               tasks
    | None => tasks
    end in
  let tasks := Js.sort byCreatedAtDesc tasks in
  Sent 200 (ApiResponse.mk true (Some tasks) None None).

Definition getTaskById (db : Repository.Db) (user : JwtPayload.t) (id : string)
  : HttpResult Task.t :=
  match Repository.findTaskById db id with
  | None => notFound
  | Some task =>
      if negb (String.eqb (Task.userId task) (JwtPayload.userId user))
      then notFound
      else Sent 200 (ApiResponse.mk true (Some task) None None)
  end.

Definition createTask (db : Repository.Db) (now dbNow : Z) (uuid : string)
           (user : JwtPayload.t) (body : TaskBody.t)
  : Repository.Db * HttpResult Task.t :=
  match TaskBody.title body with
  | None => (db, Rejected "TypeError: Cannot read properties of undefined (reading 'trim')")
  | Some title =>
      let description := nullish (TaskBody.description body) "" in
      let status := nullish (TaskBody.status body) "todo" in
      let priority := nullish (TaskBody.priority body) "medium" in
      let dueDate :=
        option_map DueDate.Text (nullish (TaskBody.dueDate body) None) in
      let newTask :=
        Task.mk uuid (Js.trim title) (Js.trim description) status priority
                dueDate now now (JwtPayload.userId user) in
      (Repository.saveTask db dbNow newTask,
       Sent 201 (ApiResponse.mk true (Some newTask)
                                (Some "Task created successfully.") None))
  end.

(** The object literal [{ ...task, title: ..., updatedAt: ... }]. *)
Definition mergeTask (now : Z) (task : Task.t) (body : TaskBody.t) : Task.t :=
  Task.mk (Task.id task)
          (match TaskBody.title body with
           | Some title => Js.trim title
           | None => Task.title task
           end)
          (match TaskBody.description body with
           | Some description => Js.trim description
           | None => Task.description task
           end)
          (match TaskBody.status body with
           | Some status => status
           | None => Task.status task
           end)
          (match TaskBody.priority body with
           | Some priority => priority
           | None => Task.priority task
           end)
          (match TaskBody.dueDate body with
           | Some dueDate => option_map DueDate.Text dueDate
           | None => Task.dueDate task
           end)
          (Task.createdAt task)
          now
          (Task.userId task).

Definition updateTask (db : Repository.Db) (now dbNow : Z) (user : JwtPayload.t)
           (id : string) (body : TaskBody.t)
  : Repository.Db * HttpResult Task.t :=
  match Repository.findTaskById db id with
  | None => (db, notFound)
  | Some task =>
      if negb (String.eqb (Task.userId task) (JwtPayload.userId user))
      then (db, notFound)
      else
        let updatedTask := mergeTask now task body in
        (Repository.saveTask db dbNow updatedTask,
         Sent 200 (ApiResponse.mk true (Some updatedTask)
                                  (Some "Task updated successfully.") None))
  end.

Definition deleteTask (db : Repository.Db) (user : JwtPayload.t) (id : string)
  : Repository.Db * HttpResult Task.t :=
  match Repository.findTaskById db id with
  | None => (db, notFound)
  | Some task =>
      if negb (String.eqb (Task.userId task) (JwtPayload.userId user))
      then (db, notFound)
      else
        (fst (Repository.deleteTask db (Task.id task)),
         Sent 200 (ApiResponse.mk true None
                                  (Some "Task deleted successfully.") None))
  end.

End TaskController.

(* ================================================================== *)
(** ** controllers/authController.ts                                    *)
(* ================================================================== *)

Module AuthController.

(** Number of salt rounds for bcrypt hashing *)
Definition SALT_ROUNDS : Z := 12.

Section WithLibraries.
(** [bcrypt.hash], [bcrypt.compare] and [jwt.sign]. *)
Variable bcrypt_hash : string -> Z -> string.
Variable bcrypt_compare : string -> string -> bool.
Variable jwt_sign : JwtPayload.t -> string -> string -> string.

(** The token of [jwt.sign(payload, process.env.JWT_SECRET ?? '',
    { expiresIn: process.env.JWT_EXPIRES_IN ?? '7d' })], when it
    returns one. *)
Definition signFor (env : ProcessEnv.t) (payload : JwtPayload.t) : string :=
  jwt_sign payload (nullish (ProcessEnv.JWT_SECRET env) "")
           (nullish (ProcessEnv.JWT_EXPIRES_IN env) "7d").

(** That call: jsonwebtoken refuses an empty secret, and [jwt.sign]
    throws; otherwise it returns the token. *)
Definition sign (env : ProcessEnv.t) (payload : JwtPayload.t) : string + string :=
  if Js.truthy (nullish (ProcessEnv.JWT_SECRET env) "")
  then inl (signFor env payload)
  else inr "secretOrPrivateKey must have a value".

Definition register (env : ProcessEnv.t) (db : Repository.Db) (now dbNow : Z)
           (uuid : string) (body : RegisterBody.t)
  : Repository.Db * HttpResult AuthResponseData.t :=
  let email := RegisterBody.email body in
  let password := RegisterBody.password body in
  let name := RegisterBody.name body in
  match Repository.findUserByEmail db email with
  | Some _ =>
      (db, Sent 409 (ApiResponse.mk false None
             (Some "An account with this email already exists.") None))
  | None =>
      let passwordHash := bcrypt_hash password SALT_ROUNDS in
      let newUser :=
        User.mk uuid (Js.trim (Js.toLowerCase email)) (Js.trim name)
                passwordHash now in
      match Repository.saveUser db dbNow newUser with
      | inr err => (db, Rejected err)
      | inl db' =>
          let payload :=
            JwtPayload.mk (User.id newUser) (User.email newUser) None None in
          match sign env payload with
          | inr err => (db', Rejected err)
          | inl token =>
              let safeUser := Js.rest (User.toObject newUser) "passwordHash" in
              (db', Sent 201 (ApiResponse.mk true
                      (Some (AuthResponseData.mk token safeUser))
                      (Some "Account created successfully.") None))
          end
      end
  end.

Definition login (env : ProcessEnv.t) (db : Repository.Db) (body : LoginBody.t)
  : HttpResult AuthResponseData.t :=
  let email := LoginBody.email body in
  let password := LoginBody.password body in
  match Repository.findUserByEmail db email with
  | None =>
      Sent 401 (ApiResponse.mk false None
                  (Some "Invalid email or password.") None)
  | Some user =>
      if negb (bcrypt_compare password (User.passwordHash user))
      then Sent 401 (ApiResponse.mk false None
                       (Some "Invalid email or password.") None)
      else
        let payload :=
          JwtPayload.mk (User.id user) (User.email user) None None in
        match sign env payload with
        | inr err => Rejected err
        | inl token =>
            let safeUser := Js.rest (User.toObject user) "passwordHash" in
            Sent 200 (ApiResponse.mk true
                        (Some (AuthResponseData.mk token safeUser))
                        (Some "Login successful.") None)
        end
  end.

End WithLibraries.

Definition getMe (db : Repository.Db) (user : JwtPayload.t)
  : HttpResult Js.object :=
  match Repository.findUserById db (JwtPayload.userId user) with
  | None => Sent 404 (ApiResponse.mk false None (Some "User not found.") None)
  | Some user =>
      let safeUser := Js.rest (User.toObject user) "passwordHash" in
      Sent 200 (ApiResponse.mk true (Some safeUser) None None)
  end.

End AuthController.

(* ================================================================== *)
(** ** middleware/auth.ts and middleware/validate.ts                    *)
(* ================================================================== *)

Module Middleware.

(** What [jwt.verify] does: it returns the decoded payload, or throws
    [TokenExpiredError], or throws another error
    ([JsonWebTokenError], [NotBeforeError]). *)
Inductive VerifyResult :=
| Decoded (payload : JwtPayload.t)
| ThrowsTokenExpiredError
| ThrowsOtherError.

(** A middleware either calls [next()] (here with the [req.user] it
    attached) or ends the request with a reply. *)
Inductive GateResult :=
| Next (user : JwtPayload.t)
| Reply (status : Z) (body : ApiResponse.t unit).

(** [authHeader.split(' ')[1]] *)
Definition tokenOf (authHeader : string) : option string :=
  nth_error (Js.split authHeader " ") 1.

Section WithJwt.
(** [jwt.verify(token, secret)]; the token may be [undefined]. *)
Variable jwt_verify : option string -> string -> VerifyResult.

Definition authenticate (env : ProcessEnv.t) (db : Repository.Db)
           (authorization : option string) : GateResult :=
  let noToken :=
    Reply 401 (ApiResponse.mk false None
                 (Some "Access denied. No token provided.") None) in
  match authorization with
  | None => noToken
  | Some authHeader =>
      if negb (Js.truthy authHeader)
         || negb (Js.startsWith authHeader "Bearer ")
      then noToken
      else
        let token := tokenOf authHeader in
        let secret := nullish (ProcessEnv.JWT_SECRET env) "" in
        match jwt_verify token secret with
        | Decoded decoded =>
            match Repository.findUserById db (JwtPayload.userId decoded) with
            | None =>
                Reply 401 (ApiResponse.mk false None
                             (Some "User account no longer exists.") None)
            | Some _ => Next decoded
            end
        | ThrowsTokenExpiredError =>
            Reply 401 (ApiResponse.mk false None
                         (Some "Token has expired.") None)
        | ThrowsOtherError =>
            Reply 401 (ApiResponse.mk false None (Some "Invalid token.") None)
        end
  end.
End WithJwt.

(** [validate], given the messages of [validationResult(req)]: a 422
    reply when there are any, otherwise [next()]. *)
Definition validate {T} (errors : list string) : option (HttpResult T) :=
  match errors with
  | [] => None
  | _ :: _ =>
      Some (Sent 422 (ApiResponse.mk false None
                        (Some "Validation failed.") (Some errors)))
  end.

End Middleware.

(* ================================================================== *)
(** ** routes/auth.ts and routes/tasks.ts: validation chains            *)
(* ================================================================== *)

Module Routes.

(** [isIn(values)] *)
Definition isIn (v : string) (values : list string) : bool :=
  existsb (String.eqb v) values.

(** One link of a chain: the message when the check fails. *)
Definition check (ok : bool) (msg : string) : list string :=
  if ok then [] else [msg].

Definition statusErrors (status : option string) : list string :=
  match status with
  | None => []
  | Some v => check (isIn v ["todo"; "in-progress"; "done"])
                    "Status must be todo, in-progress, or done."
  end.

Definition priorityErrors (priority : option string) : list string :=
  match priority with
  | None => []
  | Some v => check (isIn v ["low"; "medium"; "high"])
                    "Priority must be low, medium, or high."
  end.

Section WithValidators.
(** validator.js: [isISO8601]; and the date forms [JsDate.parse]
    leaves open. *)
Variable isISO8601 : string -> bool.
Variable parseOther : string -> option Z.

(** The custom validator: does it throw? *)
Definition dueDateInPast (env : ProcessEnv.t) (now : Z) (value : string) : bool :=
  Js.truthy value &&
  match JsDate.parse parseOther value with
  | Some t => t <? JsDate.startOfLocalDay (ProcessEnv.tzOffsetMinutes env) now
  | None => false
  end.

(** [body('dueDate').optional({ nullable: true }).isISO8601()
      .withMessage(...).custom(...)] *)
Definition dueDateErrors (env : ProcessEnv.t) (now : Z)
           (dueDate : option (option string)) : list string :=
  match dueDate with
  | None => []
  | Some None => []
  | Some (Some value) =>
      check (isISO8601 value) "Due date must be a valid ISO 8601 date."
      ++ check (negb (dueDateInPast env now value))
               "Due date cannot be in the past."
  end.

(** [router.post('/', [...], validate, createTask)] *)
Definition postTask (env : ProcessEnv.t) (db : Repository.Db) (now dbNow : Z)
           (uuid : string) (user : JwtPayload.t) (body : TaskBody.t)
  : Repository.Db * HttpResult Task.t :=
  let title := Js.trim (nullish (TaskBody.title body) "") in
  let errors :=
    check (Js.truthy title) "Task title is required."
    ++ statusErrors (TaskBody.status body)
    ++ priorityErrors (TaskBody.priority body)
    ++ dueDateErrors env now (TaskBody.dueDate body) in
  match Middleware.validate errors with
  | Some reply => (db, reply)
  | None =>
      TaskController.createTask db now dbNow uuid user
        (TaskBody.mk (Some title) (TaskBody.description body)
                     (TaskBody.status body) (TaskBody.priority body)
                     (TaskBody.dueDate body) (TaskBody.extra body))
  end.

(** [router.patch('/:id', [...], validate, updateTask)] *)
Definition patchTask (env : ProcessEnv.t) (db : Repository.Db) (now dbNow : Z)
           (user : JwtPayload.t) (id : string) (body : TaskBody.t)
  : Repository.Db * HttpResult Task.t :=
  let title := option_map Js.trim (TaskBody.title body) in
  let errors :=
    match title with
    | None => []
    | Some v => check (Js.truthy v) "Title cannot be empty."
    end
    ++ statusErrors (TaskBody.status body)
    ++ priorityErrors (TaskBody.priority body)
    ++ dueDateErrors env now (TaskBody.dueDate body) in
  match Middleware.validate errors with
  | Some reply => (db, reply)
  | None =>
      TaskController.updateTask db now dbNow user id
        (TaskBody.mk title (TaskBody.description body)
                     (TaskBody.status body) (TaskBody.priority body)
                     (TaskBody.dueDate body) (TaskBody.extra body))
  end.
End WithValidators.

Section AuthRoutes.
(** validator.js: [isEmail]; bcrypt and jsonwebtoken as in the
    controller. *)
Variable isEmail : string -> bool.
Variable bcrypt_hash : string -> Z -> string.
Variable jwt_sign : JwtPayload.t -> string -> string -> string.

(** [router.post('/register', [...], validate, register)] *)
Definition postRegister (env : ProcessEnv.t) (db : Repository.Db)
           (now dbNow : Z) (uuid : string) (body : RegisterBody.t)
  : Repository.Db * HttpResult AuthResponseData.t :=
  let name := Js.trim (RegisterBody.name body) in
  let errors :=
    check (isEmail (RegisterBody.email body))
          "A valid email address is required."
    ++ check (8 <=? Z.of_nat (String.length (RegisterBody.password body)))
             "Password must be at least 8 characters."
    ++ check (Js.truthy name) "Full name is required." in
  match Middleware.validate errors with
  | Some reply => (db, reply)
  | None =>
      AuthController.register bcrypt_hash jwt_sign env db now dbNow uuid
        (RegisterBody.mk (RegisterBody.email body)
                         (RegisterBody.password body) name)
  end.
End AuthRoutes.

End Routes.

(* ================================================================== *)
(** ** The contract, in the words of the specification                  *)
(* ================================================================== *)

Module Spec.

(** The filters of [List]: each one supplied or not. *)
Record Filters := mkFilters {
  status : option string;
  priority : option string;
  search : option string
}.

(** A filter value as [getTasks] takes it: the empty string is falsy
    and counts as not supplied. *)
Definition nonEmpty (v : option string) : option string :=
  match v with
  | Some s => if Js.truthy s then Some s else None
  | None => None
  end.

Definition supplied (f : Filters) : Filters :=
  mkFilters (nonEmpty (status f)) (nonEmpty (priority f)) (nonEmpty (search f)).

(** The request that supplies exactly these filters. *)
Definition queryOf (f : Filters) : Query.t :=
  Query.mk (option_map Query.Str (status f))
           (option_map Query.Str (priority f))
           (option_map Query.Str (search f)).

(** [q] occurs in [text], letter case ignored. *)
Definition containsIgnoringCase (text q : string) : Prop :=
  exists before after : string,
    Js.toLowerCase text = (before ++ Js.toLowerCase q ++ after)%string.

(** A task satisfies every supplied filter. *)
Definition satisfies (f : Filters) (t : Task.t) : Prop :=
  (forall s, status f = Some s -> Task.status t = s) /\
  (forall p, priority f = Some p -> Task.priority t = p) /\
  (forall q, search f = Some q ->
             containsIgnoringCase (Task.title t) q \/
             containsIgnoringCase (Task.description t) q).

(** A task the requester owns and that satisfies the filters. *)
Definition wanted (requester : string) (f : Filters) (t : Task.t) : Prop :=
  Task.userId t = requester /\ satisfies f t.

(** [out] lists [l] by [createdAt], most recent first, and tasks with
    the same [createdAt] stand in [out] as they stand in [l]. *)
Definition newestFirstStable (out l : list Task.t) : Prop :=
  StronglySorted (fun a b => Task.createdAt a >= Task.createdAt b) out /\
  forall c : Z,
    filter (fun t => Task.createdAt t =? c) out =
    filter (fun t => Task.createdAt t =? c) l.

(** [picked] is what remains of [l] when exactly the elements with
    property [P] are kept, in their order. *)
Inductive Selects {A : Type} (P : A -> Prop) : list A -> list A -> Prop :=
| Selects_nil : Selects P [] []
| Selects_keep x l picked :
    P x -> Selects P l picked -> Selects P (x :: l) (x :: picked)
| Selects_drop x l picked :
    ~ P x -> Selects P l picked -> Selects P (x :: l) picked.

(** The two predicates above, as tests. *)
Definition satisfiesb (f : Filters) (t : Task.t) : bool :=
  match status f with
  | Some s => String.eqb (Task.status t) s
  | None => true
  end
  && match priority f with
     | Some p => String.eqb (Task.priority t) p
     | None => true
     end
  && match search f with
     | Some q =>
         Js.includes (Js.toLowerCase (Task.title t)) (Js.toLowerCase q)
         || Js.includes (Js.toLowerCase (Task.description t)) (Js.toLowerCase q)
     | None => true
     end.

Definition wantedb (requester : string) (f : Filters) (t : Task.t) : bool :=
  String.eqb (Task.userId t) requester && satisfiesb f t.

(** A header of exactly the form [Bearer <token>]: the prefix, then one
    token, nothing else. *)
Definition exactBearer (header : string) : Prop :=
  exists token : string,
    header = ("Bearer " ++ token)%string /\
    token <> EmptyString /\
    Js.includes token " " = false.

(** Removal of a user row; the foreign key of [tasks.user_id] is
    declared [ON DELETE CASCADE]. *)
Definition deleteUser (db : Repository.Db) (id : string) : Repository.Db :=
  Repository.mkDb
    (Repository.dateColumn db)
    (filter (fun r => negb (String.eqb (UserRow.id r) id)) (Repository.users db))
    (filter (fun r => negb (String.eqb (TaskRow.user_id r) id)) (Repository.tasks db)).

(** The body [{ status: "done" }]. *)
Definition statusDone : TaskBody.t :=
  TaskBody.mk None None (Some "done") None None [].

End Spec.

(** The user objects a reply of Register or Login carries. *)
Definition usersSentByAuth (r : HttpResult AuthResponseData.t) : list Js.object :=
  match r with
  | Sent _ body =>
      match ApiResponse.data body with
      | Some d => [AuthResponseData.user d]
      | None => []
      end
  | Rejected _ => []
  end.

(** The user objects a reply of GetProfile carries. *)
Definition usersSentByMe (r : HttpResult Js.object) : list Js.object :=
  match r with
  | Sent _ body =>
      match ApiResponse.data body with
      | Some o => [o]
      | None => []
      end
  | Rejected _ => []
  end.

(** A user object as the API may show it: no [passwordHash] key, and
    exactly the four public ones. *)
Definition publicUser (o : Js.object) : Prop :=
  Js.hasKey o "passwordHash" = false /\
  Js.get o "passwordHash" = None /\
  map fst o = ["id"; "email"; "name"; "createdAt"].

(** A 401 reply of the gate: [success: false] and a message. *)
Definition deny (message : string) : Middleware.GateResult :=
  Middleware.Reply 401 (ApiResponse.mk false None (Some message) None).

(* ================================================================== *)
(** ** Sample data and stand-ins for the libraries                      *)
(* ================================================================== *)

Module Sample.

Definition env : ProcessEnv.t := ProcessEnv.mk (Some "s3cret") None 0.

(** A server five hours behind UTC. *)
Definition envNewYork : ProcessEnv.t := ProcessEnv.mk (Some "s3cret") None (-300).

(** A server five and a half hours ahead of UTC. *)
Definition envKolkata : ProcessEnv.t := ProcessEnv.mk (Some "s3cret") None 330.

(** A server without [JWT_SECRET]. *)
Definition envNoSecret : ProcessEnv.t := ProcessEnv.mk None None 0.

(** The MySQL drivers' default rendering of a DATE column: a [Date]
    object at midnight of that date, local time of the server, here
    [tz] minutes ahead of UTC.  (Text that is no date is left as text;
    the samples write none.) *)
Definition mysqlDate (tz : Z) (text : string) : DueDate.t :=
  match JsDate.parseDateOnly text with
  | Some (y, m, d) =>
      DueDate.DateObject
        (JsDate.daysFromCivil y m d * JsDate.msPerDay - tz * JsDate.msPerMinute)
  | None => DueDate.Text text
  end.

Definition bcrypt_hash (password : string) (rounds : Z) : string :=
  ("$2b$12$" ++ password)%string.

Definition bcrypt_compare (password hash : string) : bool :=
  String.eqb hash ("$2b$12$" ++ password)%string.

Definition jwt_sign (payload : JwtPayload.t) (secret expiresIn : string) : string :=
  ("jwt." ++ JwtPayload.userId payload)%string.

Definition alice : JwtPayload.t :=
  JwtPayload.mk "u-alice" "alice@x.com" (Some 1000) (Some 2000).

Definition jwt_verify (token : option string) (secret : string)
  : Middleware.VerifyResult :=
  match token with
  | Some "jwt.u-alice" => Middleware.Decoded alice
  | Some "jwt.old" => Middleware.ThrowsTokenExpiredError
  | _ => Middleware.ThrowsOtherError
  end.

Definition isEmail (s : string) : bool :=
  Js.includes s "@" && negb (Js.includes s " ").

Definition isISO8601 (s : string) : bool :=
  match JsDate.parseDateOnly s with
  | Some _ => true
  | None => false
  end.

Definition parseOther (s : string) : option Z := None.

(** 2030-01-15T00:00:00Z: the due date 2030-01-15 as a server at UTC
    reads it. *)
Definition jan15 : DueDate.t := DueDate.DateObject 1894665600000.

(** 2030-01-14T18:30:00Z, midnight of 2030-01-15 in Kolkata; midnight
    of 2030-01-14 and of 2030-01-13 there. *)
Definition jan15Kolkata : DueDate.t := DueDate.DateObject 1894645800000.
Definition jan14Kolkata : DueDate.t := DueDate.DateObject 1894559400000.
Definition jan13Kolkata : DueDate.t := DueDate.DateObject 1894473000000.

(** A server at UTC with the driver's default rendering of dates. *)
Definition db : Repository.Db :=
  Repository.mkDb
    (mysqlDate 0)
    [ UserRow.mk "u-alice" "alice@x.com" "$2b$12$password123" "Alice" 100;
      UserRow.mk "u-bob" "bob@x.com" "$2b$12$hunter2hunter2" "Bob" 200 ]
    [ TaskRow.mk "t1" "u-bob" "Pay rent" "" "todo" "high" None 300 300;
      TaskRow.mk "t2" "u-alice" "Buy milk" "foo bar" "done" "high"
                 (Some jan15) 400 400;
      TaskRow.mk "t3" "u-alice" "Read FOO report" "" "done" "high" None 500 500;
      TaskRow.mk "t4" "u-alice" "Call mum" "" "todo" "low" None 400 450;
      TaskRow.mk "t5" "u-alice" "Food shopping" "" "done" "high" None 400 400 ].

(** The same users on the server in Kolkata, with one task of Alice
    that is due on 2030-01-15. *)
Definition dbKolkata : Repository.Db :=
  Repository.mkDb
    (mysqlDate 330)
    (Repository.users db)
    [ TaskRow.mk "t2" "u-alice" "Buy milk" "foo bar" "todo" "high"
                 (Some jan15Kolkata) 400 400 ].

(** 2024-12-31T15:00:00Z, that is 10:00 on 2024-12-31 in New York. *)
Definition tenAmNewYork : Z := 1735657200000.

End Sample.

(* ================================================================== *)
(** ** Well-formedness of the tables, as the schema and the routes keep it *)
(* ================================================================== *)

Module Schema.

(** [table.uuid('id').primary()] on [tasks]. *)
Definition uniqueTaskIds (db : Repository.Db) : Prop :=
  NoDup (map TaskRow.id (Repository.tasks db)).

(** [table.uuid('id').primary()] and [table.string('email').unique()]
    on [users]. *)
Definition uniqueUsers (db : Repository.Db) : Prop :=
  NoDup (map UserRow.id (Repository.users db)) /\
  NoDup (map UserRow.email (Repository.users db)).

(** An address as [register] writes it: lowercase and trimmed. *)
Definition normalised (email : string) : Prop :=
  Js.toLowerCase email = email /\ Js.trim email = email.

Definition statusValues : list string := ["todo"; "in-progress"; "done"].
Definition priorityValues : list string := ["low"; "medium"; "high"].

(** A task row as the validation chains of the task routes let it
    through. *)
Definition validRow (r : TaskRow.t) : Prop :=
  TaskRow.title r <> EmptyString /\
  Js.trim (TaskRow.title r) = TaskRow.title r /\
  In (TaskRow.status r) statusValues /\
  In (TaskRow.priority r) priorityValues.

(** A task the [tasks] table accepts from [saveTask]: its owner is a
    stored user (the foreign key of [user_id]), its status and priority
    are values of their enum columns, id, title and description fit
    [uuid('id')], [string('title', 500)] and [text('description')], and
    the due date [saveTask] writes, if any, is a calendar date. *)
Definition accepts (db : Repository.Db) (task : Task.t) : Prop :=
  (exists owner, Repository.findUserById db (Task.userId task) = Some owner)
  /\ In (Task.status task) statusValues
  /\ In (Task.priority task) priorityValues
  /\ (Z.of_nat (String.length (Task.id task)) <=? 36) = true
  /\ (Z.of_nat (String.length (Task.title task)) <=? 500) = true
  /\ (Z.of_nat (String.length (Task.description task)) <=? 65535) = true
  /\ match Repository.formattedDueDate (Task.dueDate task) with
     | Some text => JsDate.parseDateOnly text <> None
     | None => True
     end.

(** A due date as [saveTask] writes it: absent, or a non-empty text
    without the letter T. *)
Definition dateOnly (dueDate : option string) : Prop :=
  match dueDate with
  | None => True
  | Some s => s <> EmptyString /\ Js.includes s "T" = false
  end.

End Schema.

(* ================================================================== *)
(** ** config/store.ts: the in-memory store                             *)
(* ================================================================== *)

Module Store.

(** A JavaScript [Map] with string keys: its entries in insertion
    order, each key once. *)
Section JsMap.
Context {V : Type}.

(** [m.get(k)] *)
Definition mapGet (m : list (string * V)) (k : string) : option V :=
  option_map snd (find (fun kv => String.eqb (fst kv) k) m).

(** [m.set(k, v)]: an existing key keeps its place. *)
Fixpoint mapSet (m : list (string * V)) (k : string) (v : V) : list (string * V) :=
  match m with
  | [] => [(k, v)]
  | (k', v') :: rest =>
      if String.eqb k' k then (k, v) :: rest
      else (k', v') :: mapSet rest k v
  end.

(** [m.delete(k)], with its result. *)
Definition mapDelete (m : list (string * V)) (k : string)
  : list (string * V) * bool :=
  (filter (fun kv => negb (String.eqb (fst kv) k)) m,
   existsb (fun kv => String.eqb (fst kv) k) m).

(** [Array.from(m.values())] *)
Definition mapValues (m : list (string * V)) : list V := map snd m.
End JsMap.

Record t := mk {
  users : list (string * User.t);
  tasks : list (string * Task.t)
}.

Definition empty : t := mk [] [].

Definition findUserById (s : t) (id : string) : option User.t :=
  mapGet (users s) id.

Definition findUserByEmail (s : t) (email : string) : option User.t :=
  find (fun u => String.eqb (Js.toLowerCase (User.email u))
                            (Js.toLowerCase email))
       (mapValues (users s)).

Definition saveUser (s : t) (user : User.t) : t :=
  mk (mapSet (users s) (User.id user) user) (tasks s).

Definition getTasksByUser (s : t) (userId : string) : list Task.t :=
  filter (fun t => String.eqb (Task.userId t) userId) (mapValues (tasks s)).

Definition findTaskById (s : t) (id : string) : option Task.t :=
  mapGet (tasks s) id.

Definition saveTask (s : t) (task : Task.t) : t :=
  mk (users s) (mapSet (tasks s) (Task.id task) task).

Definition deleteTask (s : t) (id : string) : t * bool :=
  (mk (users s) (fst (mapDelete (tasks s) id)), snd (mapDelete (tasks s) id)).

End Store.

(* ================================================================== *)
(** ** The routers, with the gate in front of the handlers              *)
(* ================================================================== *)

Module Router.

(** What a route behind [authenticate] yields: the gate's refusal, or
    what the handler did. *)
Inductive Gated (T : Type) :=
| Refused (status : Z) (body : ApiResponse.t unit)
| Handled (result : T).
Arguments Refused {T}.
Arguments Handled {T}.

(** The five task routes. *)
Inductive TaskRequest :=
| ListTasks (query : Query.t)
| GetTask (id : string)
| CreateTask (body : TaskBody.t)
| UpdateTask (id : string) (body : TaskBody.t)
| DeleteTask (id : string).

Inductive TaskReply :=
| ListReply (result : HttpResult (list Task.t))
| ItemReply (result : HttpResult Task.t).

(** The tasks a reply carries in its [data]. *)
Definition tasksSent (r : Gated TaskReply) : list Task.t :=
  match r with
  | Handled (ListReply (Sent _ body)) => nullish (ApiResponse.data body) []
  | Handled (ItemReply (Sent _ body)) =>
      match ApiResponse.data body with
      | Some t => [t]
      | None => []
      end
  | _ => []
  end.

Section WithLibraries.
Variable isEmail : string -> bool.
Variable isISO8601 : string -> bool.
Variable parseOther : string -> option Z.
Variable bcrypt_compare : string -> string -> bool.
Variable jwt_sign : JwtPayload.t -> string -> string -> string.
Variable jwt_verify : option string -> string -> Middleware.VerifyResult.

(** [router.post('/login', [...], validate, login)] *)
Definition postLogin (env : ProcessEnv.t) (db : Repository.Db)
           (body : LoginBody.t) : HttpResult AuthResponseData.t :=
  let errors :=
    Routes.check (isEmail (LoginBody.email body))
                 "A valid email address is required."
    ++ Routes.check (Js.truthy (LoginBody.password body))
                    "Password is required." in
  match Middleware.validate errors with
  | Some reply => reply
  | None => AuthController.login bcrypt_compare jwt_sign env db body
  end.

(** [router.get('/me', authenticate, getMe)] *)
Definition getMe (env : ProcessEnv.t) (db : Repository.Db)
           (authorization : option string) : Gated (HttpResult Js.object) :=
  match Middleware.authenticate jwt_verify env db authorization with
  | Middleware.Reply status body => Refused status body
  | Middleware.Next user => Handled (AuthController.getMe db user)
  end.

(** routes/tasks.ts: [router.use(authenticate)], then the route. *)
Definition tasks (env : ProcessEnv.t) (db : Repository.Db) (now dbNow : Z)
           (uuid : string) (authorization : option string) (req : TaskRequest)
  : Repository.Db * Gated TaskReply :=
  match Middleware.authenticate jwt_verify env db authorization with
  | Middleware.Reply status body => (db, Refused status body)
  | Middleware.Next user =>
      match req with
      | ListTasks query =>
          (db, Handled (ListReply (TaskController.getTasks db user query)))
      | GetTask id =>
          (db, Handled (ItemReply (TaskController.getTaskById db user id)))
      | CreateTask body =>
          let result :=
            Routes.postTask isISO8601 parseOther env db now dbNow uuid user body in
          (fst result, Handled (ItemReply (snd result)))
      | UpdateTask id body =>
          let result :=
            Routes.patchTask isISO8601 parseOther env db now dbNow user id body in
          (fst result, Handled (ItemReply (snd result)))
      | DeleteTask id =>
          let result := TaskController.deleteTask db user id in
          (fst result, Handled (ItemReply (snd result)))
      end
  end.

End WithLibraries.

End Router.

(* ================================================================== *)
(** ** The React client: what it sends and what it keeps                *)
(* ================================================================== *)

Module Client.

(** [TaskFilters]: [status] and [priority] hold a value or ['all']. *)
Record TaskFilters := mkFilters {
  status : string;
  priority : string;
  search : string
}.

(** Dashboard.tsx *)
Definition DEFAULT_FILTERS : TaskFilters := mkFilters "all" "all" "".

(** hooks/useTasks.ts, [useTasks]: the [params] object of the request. *)
Definition useTasksParams (filters : TaskFilters) : Spec.Filters :=
  Spec.mkFilters
    (if negb (String.eqb (status filters) "all") then Some (status filters) else None)
    (if negb (String.eqb (priority filters) "all") then Some (priority filters) else None)
    (if Js.truthy (search filters) then Some (search filters) else None).

(** Dashboard.tsx: the computed stats. *)
Record Stats := mkStats { total : nat; todo : nat; inProgress : nat; done : nat }.

Definition stats (allTasks : list Task.t) : Stats :=
  mkStats
    (List.length allTasks)
    (List.length (filter (fun t => String.eqb (Task.status t) "todo") allTasks))
    (List.length (filter (fun t => String.eqb (Task.status t) "in-progress") allTasks))
    (List.length (filter (fun t => String.eqb (Task.status t) "done") allTasks)).

(** [TaskFormData] *)
Record TaskFormData := mkForm {
  formTitle : string;
  formDescription : string;
  formStatus : string;
  formPriority : string;
  formDueDate : string
}.

(** TaskModal.tsx, [validate]: the entries of [newErrors]. *)
Definition newErrors (parseOther : string -> option Z) (env : ProcessEnv.t)
           (now : Z) (form : TaskFormData) : list (string * string) :=
  (if negb (Js.truthy (Js.trim (formTitle form)))
   then [("title", "Title is required.")] else [])
  ++ (if Routes.dueDateInPast parseOther env now (formDueDate form)
      then [("dueDate", "Due date cannot be in the past.")] else []).

(** [Object.keys(newErrors).length === 0] *)
Definition validate (parseOther : string -> option Z) (env : ProcessEnv.t)
           (now : Z) (form : TaskFormData) : bool :=
  Nat.eqb (List.length (newErrors parseOther env now form)) 0.

(** TaskModal.tsx, [handleSubmit]: the payload sent. *)
Definition payload (form : TaskFormData) : TaskBody.t :=
  TaskBody.mk (Some (Js.trim (formTitle form)))
              (Some (Js.trim (formDescription form)))
              (Some (formStatus form))
              (Some (formPriority form))
              (Some (if Js.truthy (formDueDate form)
                     then Some (formDueDate form) else None))
              [].

(** TaskCard.tsx, [handleToggleDone]: the status sent. *)
Definition nextStatus (status : string) : string :=
  if String.eqb status "done" then "todo" else "done".

(** The body [{ status: nextStatus }] of the quick toggle. *)
Definition toggleBody (task : Task.t) : TaskBody.t :=
  TaskBody.mk None None (Some (nextStatus (Task.status task))) None None [].

(** What the browser holds: the auth store and [localStorage], as the
    code itself reads and writes it (the entry that the store's
    [persist] middleware keeps for itself is left out). *)
Record Browser := mkBrowser {
  user : option Js.object;
  token : option string;
  isLoading : bool;
  localStorage : list (string * string)
}.

(** store/authStore.ts, [login] and [register], once the reply [res] of
    the API call has arrived. *)
Definition signedIn (b : Browser) (res : ApiResponse.t AuthResponseData.t)
  : Browser :=
  match ApiResponse.success res, ApiResponse.data res with
  | true, Some d =>
      mkBrowser (Some (AuthResponseData.user d))
                (Some (AuthResponseData.token d))
                false
                (Store.mapSet (localStorage b) "token" (AuthResponseData.token d))
  | _, _ => mkBrowser (user b) (token b) true (localStorage b)
  end.

(** store/authStore.ts, [logout] *)
Definition logout (b : Browser) : Browser :=
  mkBrowser None None (isLoading b)
            (fst (Store.mapDelete (localStorage b) "token")).

(** services/api.ts, the request interceptor: the [Authorization]
    header it attaches, if any. *)
Definition authorizationHeader (b : Browser) : option string :=
  match Store.mapGet (localStorage b) "token" with
  | Some t => if Js.truthy t then Some ("Bearer " ++ t)%string else None
  | None => None
  end.

(** services/api.ts, the response interceptor, on an error reply with
    the given status. *)
Definition onErrorStatus (b : Browser) (status : Z) : Browser :=
  if status =? 401
  then mkBrowser (user b) (token b) (isLoading b)
         (fst (Store.mapDelete
                 (fst (Store.mapDelete (localStorage b) "token")) "user"))
  else b.

(** ProtectedRoute.tsx: are the children rendered? *)
Definition protectedRouteShows (b : Browser) : bool :=
  match token b with
  | Some t => Js.truthy t
  | None => false
  end.

End Client.

(* ================================================================== *)
(** ** Values the properties below speak of                             *)
(* ================================================================== *)

(** The task [createTask] builds from a body with a title, saves and
    answers with. *)
Definition newTask (now : Z) (uuid : string) (user : JwtPayload.t)
           (title : string) (body : TaskBody.t) : Task.t :=
  Task.mk uuid (Js.trim title)
          (Js.trim (nullish (TaskBody.description body) ""))
          (nullish (TaskBody.status body) "todo")
          (nullish (TaskBody.priority body) "medium")
          (option_map DueDate.Text (nullish (TaskBody.dueDate body) None))
          now now (JwtPayload.userId user).

(** That task as it is read once stored. *)
Definition createdTask (db : Repository.Db) (dbNow : Z) (uuid : string)
           (user : JwtPayload.t) (title : string) (body : TaskBody.t) : Task.t :=
  Task.mk uuid (Js.trim title)
          (Js.trim (nullish (TaskBody.description body) ""))
          (nullish (TaskBody.status body) "todo")
          (nullish (TaskBody.priority body) "medium")
          (option_map (Repository.dateColumn db)
             (Repository.formatDueDate (nullish (TaskBody.dueDate body) None)))
          dbNow dbNow (JwtPayload.userId user).

(** A handler that did not answer 200 or 201 left the database as it
    was. *)
Definition failsCleanly {T} (db : Repository.Db)
           (r : Repository.Db * HttpResult T) : Prop :=
  match snd r with
  | Sent 200 _ => True
  | Sent 201 _ => True
  | _ => fst r = db
  end.

(** The users table as [register] and the schema keep it: ids and
    addresses distinct, every address lowercase and trimmed. *)
Definition usersWellFormed (db : Repository.Db) : Prop :=
  Schema.uniqueUsers db /\
  forall r, In r (Repository.users db) -> Schema.normalised (UserRow.email r).

(* ================================================================== *)
(** * Properties                                                        *)
(* ================================================================== *)

(** ** Strings *)

Lemma lowerChar_idempotent (c : ascii) :
  Js.lowerChar (Js.lowerChar c) = Js.lowerChar c.
Proof.
  destruct c as [[] [] [] [] [] [] [] []]; reflexivity.
Qed.

Lemma toLowerCase_idempotent (s : string) :
  Js.toLowerCase (Js.toLowerCase s) = Js.toLowerCase s.
Proof.
  induction s as [|c r IH]; simpl.
  - reflexivity.
  - now rewrite lowerChar_idempotent, IH.
Qed.

Lemma prefix_iff (p s : string) :
  String.prefix p s = true <-> exists r, s = (p ++ r)%string.
Proof.
  revert s; induction p as [|c p IH]; intros s; simpl.
  - split; [intros _; now exists s | intros _; destruct s; reflexivity].
  - destruct s as [|d s]; simpl.
    + split; [discriminate | intros [r Hr]; discriminate].
    + destruct (ascii_dec c d) as [->|Hne].
      * rewrite IH. split; intros [r Hr]; exists r; congruence.
      * split; [discriminate | intros [r Hr]; congruence].
Qed.

Lemma includes_iff (s q : string) :
  Js.includes s q = true <->
  exists before after, s = (before ++ q ++ after)%string.
Proof.
  induction s as [|c r IH]; cbn [Js.includes].
  - rewrite orb_false_r, prefix_iff. split.
    + intros [x Hx]. now exists EmptyString, x.
    + intros [b [a H]]. destruct b; [now exists a | discriminate].
  - rewrite orb_true_iff, IH, prefix_iff. split.
    + intros [[x Hx] | [b [a H]]].
      * now exists EmptyString, x.
      * exists (String c b), a. simpl. now rewrite H.
    + intros [b [a H]]. destruct b as [|d b]; simpl in H.
      * left. now exists a.
      * right. exists b, a. congruence.
Qed.

Lemma includes_empty (s : string) : Js.includes s EmptyString = true.
Proof. destruct s; reflexivity. Qed.

Lemma truthy_false_iff (s : string) : Js.truthy s = false <-> s = EmptyString.
Proof.
  unfold Js.truthy. rewrite negb_false_iff. apply String.eqb_eq.
Qed.

Lemma truthy_true_iff (s : string) : Js.truthy s = true <-> s <> EmptyString.
Proof.
  unfold Js.truthy. rewrite negb_true_iff. apply String.eqb_neq.
Qed.

(** ** Task access control *)

(** C1.  GetTask, UpdateTask and DeleteTask, when the task does not
    exist or belongs to somebody else, all answer with one and the same
    reply: status 404 (not 403), [success: false], the message
    ['Task not found.'] and no [data], so that no field of the task is
    sent; the database is left as it was. *)
Theorem task_by_id_hidden_from_non_owner
        (db : Repository.Db) (now dbNow : Z) (user : JwtPayload.t)
        (id : string) (body : TaskBody.t) :
  (Repository.findTaskById db id = None \/
   exists task, Repository.findTaskById db id = Some task /\
                Task.userId task <> JwtPayload.userId user) ->
  let reply : HttpResult Task.t :=
    Sent 404 (ApiResponse.mk false None (Some "Task not found.") None) in
  TaskController.getTaskById db user id = reply /\
  TaskController.updateTask db now dbNow user id body = (db, reply) /\
  TaskController.deleteTask db user id = (db, reply) /\
  statusOf reply <> Some 403.
Proof.
  intros H reply.
  unfold TaskController.getTaskById, TaskController.updateTask,
    TaskController.deleteTask.
  destruct H as [-> | [task [-> Hne]]].
  - repeat split; try reflexivity. discriminate.
  - apply String.eqb_neq in Hne. rewrite Hne. simpl.
    repeat split; try reflexivity. discriminate.
Qed.

Lemma task_by_id_hidden_from_non_owner_witness :
  TaskController.getTaskById Sample.db Sample.alice "t1"
  = Sent 404 (ApiResponse.mk false None (Some "Task not found.") None)
  /\ TaskController.getTaskById Sample.db Sample.alice "no-such-task"
     = Sent 404 (ApiResponse.mk false None (Some "Task not found.") None).
Proof.
  split.
  - apply (task_by_id_hidden_from_non_owner
             Sample.db 0 0 Sample.alice "t1" Spec.statusDone).
    right. eexists. split; [reflexivity | discriminate].
  - apply (task_by_id_hidden_from_non_owner
             Sample.db 0 0 Sample.alice "no-such-task" Spec.statusDone).
    left. reflexivity.
Defined.

(** ** Registration *)

Section Registration.
Variable isEmail : string -> bool.
Variable bcrypt_hash : string -> Z -> string.
Variable jwt_sign : JwtPayload.t -> string -> string -> string.

Let register := AuthController.register bcrypt_hash jwt_sign.
Let postRegister := Routes.postRegister isEmail bcrypt_hash jwt_sign.

(** The lookup sees an address through [toLowerCase] only. *)
Lemma findUserByEmail_case (db : Repository.Db) (e1 e2 : string) :
  Js.toLowerCase e2 = Js.toLowerCase e1 ->
  Repository.findUserByEmail db e2 = Repository.findUserByEmail db e1.
Proof.
  intros H. unfold Repository.findUserByEmail. now rewrite H.
Qed.

Lemma find_app_none {A} (p : A -> bool) (l : list A) (x : A) :
  find p l = None -> find p (l ++ [x]) = if p x then Some x else None.
Proof.
  induction l as [|y l IH]; simpl; [reflexivity|].
  destruct (p y); [discriminate | exact IH].
Qed.

(** What a successful registration did. *)
Lemma register_success env db now dbNow uuid body db' reply :
  register env db now dbNow uuid body = (db', Sent 201 reply) ->
  let user := User.mk uuid (Js.trim (Js.toLowerCase (RegisterBody.email body)))
                      (Js.trim (RegisterBody.name body))
                      (bcrypt_hash (RegisterBody.password body)
                                   AuthController.SALT_ROUNDS) now in
  Repository.findUserByEmail db (RegisterBody.email body) = None
  /\ Repository.saveUser db dbNow user = inl db'
  /\ Repository.users db'
     = Repository.users db
       ++ [UserRow.mk uuid (User.email user) (User.passwordHash user)
                      (User.name user) dbNow]
  /\ Repository.tasks db' = Repository.tasks db
  /\ Js.truthy (nullish (ProcessEnv.JWT_SECRET env) "") = true.
Proof.
  unfold register, AuthController.register, AuthController.sign.
  intros H. cbv zeta.
  destruct (Repository.findUserByEmail db (RegisterBody.email body));
    [inversion H|].
  destruct (Repository.saveUser db dbNow _) as [d|e] eqn:Hs; [|inversion H].
  destruct (Js.truthy _) eqn:Hsecret; inversion H; subst.
  split; [reflexivity|]. split; [reflexivity|].
  unfold Repository.saveUser in Hs.
  destruct (existsb _ _); inversion Hs. repeat split.
Qed.

(** A registration that succeeded is found again under its address. *)
Lemma register_then_found env db now dbNow uuid body db' reply :
  register env db now dbNow uuid body = (db', Sent 201 reply) ->
  Js.trim (Js.toLowerCase (RegisterBody.email body))
  = Js.toLowerCase (RegisterBody.email body) ->
  exists u, Repository.findUserByEmail db' (RegisterBody.email body) = Some u.
Proof.
  intros H Hpad.
  destruct (register_success _ _ _ _ _ _ _ _ H) as [Hnone [_ [Husers _]]].
  cbn [User.email] in Husers.
  unfold Repository.findUserByEmail in *. rewrite Husers.
  destruct (find _ (Repository.users db)) eqn:Hf; [discriminate|].
  rewrite (find_app_none _ _ _ Hf). cbn [UserRow.email].
  rewrite Hpad, toLowerCase_idempotent, String.eqb_refl.
  eexists. reflexivity.
Qed.

(** Registering again with the address in another letter case: 409,
    and nothing is written. *)
Lemma register_case_variant_conflict
      env db now dbNow uuid body db' reply now2 dbNow2 uuid2 body2 :
  register env db now dbNow uuid body = (db', Sent 201 reply) ->
  Js.trim (Js.toLowerCase (RegisterBody.email body))
  = Js.toLowerCase (RegisterBody.email body) ->
  Js.toLowerCase (RegisterBody.email body2)
  = Js.toLowerCase (RegisterBody.email body) ->
  register env db' now2 dbNow2 uuid2 body2
  = (db', Sent 409 (ApiResponse.mk false None
             (Some "An account with this email already exists.") None)).
Proof.
  intros H Hpad Hcase.
  destruct (register_then_found _ _ _ _ _ _ _ _ H Hpad) as [u Hu].
  unfold register, AuthController.register.
  now rewrite (findUserByEmail_case _ _ _ Hcase), Hu.
Qed.

(** A stored address that is trimmed does not begin with a space, so
    the lookup of an address with a leading space never finds it. *)
Lemma lowerChar_space (c : ascii) :
  Js.lowerChar c = " "%char -> c = " "%char.
Proof.
  destruct c as [[] [] [] [] [] [] [] []]; intros H;
    first [reflexivity | discriminate H].
Qed.

Lemma trimStart_length (s : string) :
  (String.length (Js.trimStart s) <= String.length s)%nat.
Proof.
  induction s as [|c rest IH]; simpl; [lia|].
  destruct (Js.isWhite c); simpl; lia.
Qed.

Lemma findUserByEmail_leading_space (db : Repository.Db) (e : string) :
  (forall r, In r (Repository.users db) ->
             Js.trimStart (UserRow.email r) = UserRow.email r) ->
  Repository.findUserByEmail db (String " " e) = None.
Proof.
  intros Htrim. unfold Repository.findUserByEmail.
  induction (Repository.users db) as [|r l IH]; [reflexivity|].
  cbn [find]. cbn [Js.toLowerCase] in *.
  assert (Hr := Htrim r (or_introl eq_refl)).
  destruct (String.eqb_spec (Js.toLowerCase (UserRow.email r))
              (String (Js.lowerChar " ") (Js.toLowerCase e))) as [E|_].
  - exfalso. destruct (UserRow.email r) as [|c rest]; [discriminate E|].
    cbn [Js.toLowerCase] in E. injection E as Hc _.
    change (Js.lowerChar " ") with " "%char in Hc.
    apply lowerChar_space in Hc. subst c.
    cbn [Js.trimStart] in Hr. change (Js.isWhite " ") with true in Hr.
    cbv iota in Hr.
    pose proof (trimStart_length rest) as Hlen.
    rewrite Hr in Hlen. simpl in Hlen. lia.
  - apply IH. intros r' Hin. apply Htrim. now right.
Qed.

(** Were an address with a leading space to reach the handler, it would
    not be answered with 409 either, whatever is stored: the lookup
    does not trim, so over a table of trimmed addresses it finds
    nothing. *)
Lemma register_leading_space_never_conflict
      env db now dbNow uuid (e password name : string) :
  (forall r, In r (Repository.users db) ->
             Js.trimStart (UserRow.email r) = UserRow.email r) ->
  statusOf (snd (register env db now dbNow uuid
                   (RegisterBody.mk (String " " e) password name)))
  <> Some 409.
Proof.
  intros Htrim. unfold register, AuthController.register.
  cbn [RegisterBody.email].
  rewrite (findUserByEmail_leading_space db e Htrim).
  destruct (Repository.saveUser db dbNow _); [|cbn; discriminate].
  destruct (AuthController.sign _ _ _); cbn; discriminate.
Qed.

(** A request the validation chain of POST /auth/register refuses for
    its address is answered 422 and writes nothing. *)
Lemma postRegister_refused_address env db now dbNow uuid body :
  isEmail (RegisterBody.email body) = false ->
  exists errors,
    postRegister env db now dbNow uuid body
    = (db, Sent 422 (ApiResponse.mk false None (Some "Validation failed.")
                       (Some errors)))
    /\ In "A valid email address is required." errors.
Proof.
  intros H. unfold postRegister, Routes.postRegister. rewrite H.
  cbn [Routes.check app Middleware.validate].
  eexists. split; [reflexivity | now left].
Qed.

(** Nor does the route answer 409 to an address with a leading space,
    whatever [isEmail] makes of it. *)
Lemma postRegister_leading_space_never_conflict
      env db now dbNow uuid (e password name : string) :
  (forall r, In r (Repository.users db) ->
             Js.trimStart (UserRow.email r) = UserRow.email r) ->
  statusOf (snd (postRegister env db now dbNow uuid
                   (RegisterBody.mk (String " " e) password name)))
  <> Some 409.
Proof.
  intros Htrim. unfold postRegister, Routes.postRegister.
  destruct (_ ++ _ ++ _) as [|m errors]; cbn [Middleware.validate].
  - cbn [RegisterBody.email RegisterBody.password].
    now apply register_leading_space_never_conflict.
  - cbn. discriminate.
Qed.

(** C2, as the code has it.  After a registration that succeeded with
    an address without surrounding white space, registering an address
    that differs from it by letter case only is answered 409 ['An
    account with this email already exists.'] and nothing is written --
    by the handler, and by the route unless the validation chain
    answers 422 first, also writing nothing.  An address the chain's
    [isEmail] check refuses, as it refuses one with surrounding white
    space, is answered 422 and never compared with the stored
    accounts. *)
Theorem register_case_variant_is_a_conflict
        (env : ProcessEnv.t) (db db1 : Repository.Db) (now dbNow : Z)
        (uuid : string) (first : RegisterBody.t)
        (reply : ApiResponse.t AuthResponseData.t)
        (now2 dbNow2 : Z) (uuid2 : string) (second : RegisterBody.t) :
  register env db now dbNow uuid first = (db1, Sent 201 reply) ->
  Js.trim (Js.toLowerCase (RegisterBody.email first))
  = Js.toLowerCase (RegisterBody.email first) ->
  Js.toLowerCase (RegisterBody.email second)
  = Js.toLowerCase (RegisterBody.email first) ->
  let conflict : HttpResult AuthResponseData.t :=
    Sent 409 (ApiResponse.mk false None
                (Some "An account with this email already exists.") None) in
  register env db1 now2 dbNow2 uuid2 second = (db1, conflict)
  /\ (postRegister env db1 now2 dbNow2 uuid2 second = (db1, conflict)
      \/ exists errors,
           postRegister env db1 now2 dbNow2 uuid2 second
           = (db1, Sent 422 (ApiResponse.mk false None
                               (Some "Validation failed.") (Some errors))))
  /\ (forall padded,
        isEmail (RegisterBody.email padded) = false ->
        exists errors,
          postRegister env db1 now2 dbNow2 uuid2 padded
          = (db1, Sent 422 (ApiResponse.mk false None
                              (Some "Validation failed.") (Some errors)))
          /\ In "A valid email address is required." errors).
Proof.
  intros Hreg Hpad Hcase conflict.
  destruct (register_then_found _ _ _ _ _ _ _ _ Hreg Hpad) as [u Hu].
  assert (Hconflict : forall body,
            RegisterBody.email body = RegisterBody.email second ->
            register env db1 now2 dbNow2 uuid2 body = (db1, conflict)).
  { intros body E. unfold register, AuthController.register.
    now rewrite E, (findUserByEmail_case _ _ _ Hcase), Hu. }
  split; [now apply Hconflict|]. split.
  - unfold postRegister, Routes.postRegister.
    destruct (_ ++ _ ++ _) as [|e errors]; cbn [Middleware.validate].
    + left. now apply Hconflict.
    + right. eexists. reflexivity.
  - intros padded H. now apply postRegister_refused_address.
Qed.

End Registration.

Lemma register_case_variant_is_a_conflict_witness :
  let first := RegisterBody.mk "carol@x.com" "correct horse" "Carol" in
  let second := RegisterBody.mk "Carol@X.COM" "battery staple" "Carol" in
  let db1 := fst (AuthController.register Sample.bcrypt_hash Sample.jwt_sign
                    Sample.env Sample.db 900 901 "u-carol" first) in
  AuthController.register Sample.bcrypt_hash Sample.jwt_sign Sample.env
    db1 950 951 "u-carol-2" second
  = (db1, Sent 409 (ApiResponse.mk false None
                      (Some "An account with this email already exists.") None))
  /\ List.length (Repository.users db1) = 3%nat.
Proof.
  intros first second db1. split; [|reflexivity].
  refine (proj1 (register_case_variant_is_a_conflict
                   Sample.isEmail Sample.bcrypt_hash Sample.jwt_sign
                   Sample.env Sample.db db1 900 901 "u-carol" first _
                   950 951 "u-carol-2" second eq_refl eq_refl eq_refl)).
Defined.

(** C2, as the specification words it, fails for surrounding white
    space.  ["carol@x.com"] is registered; [" carol@x.com"], which is
    the same address once trimmed and lowercased, is then answered 422
    by the validation chain of the route, not 409: [isEmail] refuses an
    address with a space in it. *)
Lemma padded_duplicate_registration_is_not_a_conflict :
  ~ (forall (isEmail : string -> bool) (bcrypt_hash : string -> Z -> string)
            (jwt_sign : JwtPayload.t -> string -> string -> string)
            (env : ProcessEnv.t) (db db1 : Repository.Db) (now dbNow : Z)
            (uuid : string) (first : RegisterBody.t)
            (reply : ApiResponse.t AuthResponseData.t)
            (now2 dbNow2 : Z) (uuid2 : string) (second : RegisterBody.t),
        Routes.postRegister isEmail bcrypt_hash jwt_sign env db now dbNow uuid first
        = (db1, Sent 201 reply) ->
        Js.trim (Js.toLowerCase (RegisterBody.email second))
        = Js.trim (Js.toLowerCase (RegisterBody.email first)) ->
        Routes.postRegister isEmail bcrypt_hash jwt_sign env db1 now2 dbNow2
                            uuid2 second
        = (db1, Sent 409 (ApiResponse.mk false None
                            (Some "An account with this email already exists.")
                            None))).
Proof.
  intros claim.
  pose (first := RegisterBody.mk "carol@x.com" "correct horse" "Carol").
  pose (second := RegisterBody.mk " carol@x.com" "correct horse" "Carol").
  specialize (claim Sample.isEmail Sample.bcrypt_hash Sample.jwt_sign Sample.env
                    Sample.db
                    (fst (Routes.postRegister Sample.isEmail Sample.bcrypt_hash
                            Sample.jwt_sign Sample.env Sample.db 900 901
                            "u-carol" first))
                    900 901 "u-carol" first _ 950 951 "u-carol-2" second
                    eq_refl eq_refl).
  assert (Hsent : statusOf
                    (snd (Routes.postRegister Sample.isEmail Sample.bcrypt_hash
                            Sample.jwt_sign Sample.env
                            (fst (Routes.postRegister Sample.isEmail
                                    Sample.bcrypt_hash Sample.jwt_sign Sample.env
                                    Sample.db 900 901 "u-carol" first))
                            950 951 "u-carol-2" second))
                  = Some 422) by reflexivity.
  rewrite claim in Hsent. discriminate Hsent.
Qed.

(** ** The user projection of the responses *)

Lemma safeUser_public (u : User.t) :
  publicUser (Js.rest (User.toObject u) "passwordHash").
Proof.
  repeat split.
Qed.

(** C3.  Whatever the request and whatever the stored users, the user
    object in a reply of Register, Login and GetProfile has no
    [passwordHash] property. *)
Theorem user_replies_omit_passwordHash
        (bcrypt_hash : string -> Z -> string)
        (bcrypt_compare : string -> string -> bool)
        (jwt_sign : JwtPayload.t -> string -> string -> string)
        (env : ProcessEnv.t) (db : Repository.Db) (now dbNow : Z)
        (uuid : string) (rbody : RegisterBody.t) (lbody : LoginBody.t)
        (requester : JwtPayload.t) :
  Forall publicUser
    (usersSentByAuth
       (snd (AuthController.register bcrypt_hash jwt_sign env db now dbNow uuid rbody)))
  /\ Forall publicUser
       (usersSentByAuth
          (AuthController.login bcrypt_compare jwt_sign env db lbody))
  /\ Forall publicUser
       (usersSentByMe (AuthController.getMe db requester)).
Proof.
  repeat apply conj.
  - unfold AuthController.register.
    destruct (Repository.findUserByEmail db _); [constructor|].
    destruct (Repository.saveUser db dbNow _); [|constructor].
    destruct (AuthController.sign _ _ _); [|constructor].
    cbn [snd usersSentByAuth ApiResponse.data AuthResponseData.user].
    constructor; [apply safeUser_public | constructor].
  - unfold AuthController.login.
    destruct (Repository.findUserByEmail db _) as [u|]; [|constructor].
    destruct (bcrypt_compare _ _); cbn [negb]; [|constructor].
    destruct (AuthController.sign _ _ _); [|constructor].
    cbn [usersSentByAuth ApiResponse.data AuthResponseData.user].
    constructor; [apply safeUser_public | constructor].
  - unfold AuthController.getMe.
    destruct (Repository.findUserById db _) as [u|]; [|constructor].
    cbn [usersSentByMe ApiResponse.data].
    constructor; [apply safeUser_public | constructor].
Qed.

(** The replies do carry a user object when they succeed. *)
Example login_sends_public_user :
  usersSentByAuth
    (AuthController.login Sample.bcrypt_compare Sample.jwt_sign Sample.env
       Sample.db (LoginBody.mk "Alice@X.com" "password123"))
  = [[("id", Js.VStr "u-alice"); ("email", Js.VStr "alice@x.com");
      ("name", Js.VStr "Alice"); ("createdAt", Js.VTime 100)]].
Proof. reflexivity. Qed.

Example getMe_sends_public_user :
  usersSentByMe (AuthController.getMe Sample.db Sample.alice)
  = [[("id", Js.VStr "u-alice"); ("email", Js.VStr "alice@x.com");
      ("name", Js.VStr "Alice"); ("createdAt", Js.VTime 100)]].
Proof. reflexivity. Qed.

(** ** The authorization gate *)

Section Gate.
Variable jwt_verify : option string -> string -> Middleware.VerifyResult.

Let authenticate := Middleware.authenticate jwt_verify.

Lemma startsWith_truthy (h p : string) :
  p <> EmptyString -> Js.startsWith h p = true -> Js.truthy h = true.
Proof.
  intros Hp H. apply truthy_true_iff. intros ->.
  destruct p; [now apply Hp | discriminate].
Qed.

(** Past the format check the verdict is that of [jwt.verify] on the
    token, then of the user lookup. *)
Lemma authenticate_after_format_check env db h :
  Js.startsWith h "Bearer " = true ->
  authenticate env db (Some h) =
  match jwt_verify (Middleware.tokenOf h)
                   (nullish (ProcessEnv.JWT_SECRET env) "") with
  | Middleware.Decoded decoded =>
      match Repository.findUserById db (JwtPayload.userId decoded) with
      | None => deny "User account no longer exists."
      | Some _ => Middleware.Next decoded
      end
  | Middleware.ThrowsTokenExpiredError => deny "Token has expired."
  | Middleware.ThrowsOtherError => deny "Invalid token."
  end.
Proof.
  intros H. unfold authenticate, Middleware.authenticate.
  rewrite H, (startsWith_truthy h "Bearer "); [reflexivity | discriminate | exact H].
Qed.

Lemma findUserById_deleted (db : Repository.Db) (id : string) :
  Repository.findUserById (Spec.deleteUser db id) id = None.
Proof.
  unfold Repository.findUserById, Spec.deleteUser. cbn [Repository.users].
  induction (Repository.users db) as [|r l IH]; [reflexivity|].
  cbn [filter]. destruct (String.eqb (UserRow.id r) id) eqn:E; cbn [negb].
  - exact IH.
  - cbn [find]. now rewrite E.
Qed.

(** C4.  For a header that passes the format check, the gate tells its
    failures apart: [TokenExpiredError] from [jwt.verify] gives
    ['Token has expired.'], any other error ['Invalid token.'], and a
    verified token whose subject is not found
    ['User account no longer exists.'] -- so a token that verifies is
    let through while its user exists and meets the subject-gone reply,
    not the invalid-token one, once the user is deleted.  Each is a 401
    reply and [next()] is not called. *)
Theorem authenticate_failure_modes
        (env : ProcessEnv.t) (db : Repository.Db) (h : string) :
  Js.startsWith h "Bearer " = true ->
  let verdict := jwt_verify (Middleware.tokenOf h)
                            (nullish (ProcessEnv.JWT_SECRET env) "") in
  (verdict = Middleware.ThrowsTokenExpiredError ->
   authenticate env db (Some h) = deny "Token has expired.") /\
  (verdict = Middleware.ThrowsOtherError ->
   authenticate env db (Some h) = deny "Invalid token.") /\
  (forall decoded, verdict = Middleware.Decoded decoded ->
     (Repository.findUserById db (JwtPayload.userId decoded) = None ->
      authenticate env db (Some h) = deny "User account no longer exists.") /\
     (Repository.findUserById db (JwtPayload.userId decoded) <> None ->
      authenticate env db (Some h) = Middleware.Next decoded) /\
     authenticate env (Spec.deleteUser db (JwtPayload.userId decoded)) (Some h)
     = deny "User account no longer exists.").
Proof.
  intros H verdict. subst verdict.
  repeat apply conj.
  - intros Hv. now rewrite authenticate_after_format_check, Hv.
  - intros Hv. now rewrite authenticate_after_format_check, Hv.
  - intros decoded Hv. repeat apply conj.
    + intros Hu. now rewrite authenticate_after_format_check, Hv, Hu.
    + intros Hu. rewrite authenticate_after_format_check, Hv by exact H.
      destruct (Repository.findUserById db _); [reflexivity | now elim Hu].
    + now rewrite authenticate_after_format_check, Hv, findUserById_deleted.
Qed.

(** C5, as the code has it.  The gate answers 401
    ['Access denied. No token provided.'] exactly when the header is
    absent or does not start with ['Bearer '].  What follows the prefix
    is not examined by the format check. *)
Theorem authenticate_no_token_iff
        (env : ProcessEnv.t) (db : Repository.Db) (authorization : option string) :
  authenticate env db authorization = deny "Access denied. No token provided."
  <->
  (authorization = None \/
   exists h, authorization = Some h /\ Js.startsWith h "Bearer " = false).
Proof.
  split.
  - intros Hd. destruct authorization as [h|]; [right | now left].
    exists h. split; [reflexivity|].
    destruct (Js.startsWith h "Bearer ") eqn:E; [|reflexivity].
    rewrite (authenticate_after_format_check _ _ _ E) in Hd.
    destruct (jwt_verify _ _); try discriminate.
    destruct (Repository.findUserById db _); discriminate.
  - intros [-> | [h [-> E]]]; [reflexivity|].
    unfold authenticate, Middleware.authenticate.
    rewrite E, orb_true_r. reflexivity.
Qed.

End Gate.

Lemma authenticate_failure_modes_witness :
  Middleware.authenticate Sample.jwt_verify Sample.env Sample.db
    (Some "Bearer jwt.old") = deny "Token has expired."
  /\ Middleware.authenticate Sample.jwt_verify Sample.env Sample.db
       (Some "Bearer garbage") = deny "Invalid token."
  /\ Middleware.authenticate Sample.jwt_verify Sample.env Sample.db
       (Some "Bearer jwt.u-alice") = Middleware.Next Sample.alice
  /\ Middleware.authenticate Sample.jwt_verify Sample.env
       (Spec.deleteUser Sample.db "u-alice")
       (Some "Bearer jwt.u-alice") = deny "User account no longer exists.".
Proof.
  destruct (authenticate_failure_modes Sample.jwt_verify Sample.env Sample.db
              "Bearer jwt.old" eq_refl) as [Hexpired _].
  destruct (authenticate_failure_modes Sample.jwt_verify Sample.env Sample.db
              "Bearer garbage" eq_refl) as [_ [Hinvalid _]].
  destruct (authenticate_failure_modes Sample.jwt_verify Sample.env Sample.db
              "Bearer jwt.u-alice" eq_refl) as [_ [_ Hsubject]].
  destruct (Hsubject Sample.alice eq_refl) as [_ [Hlive Hgone]].
  repeat apply conj.
  - apply Hexpired. reflexivity.
  - apply Hinvalid. reflexivity.
  - apply Hlive. discriminate.
  - exact Hgone.
Defined.

(** C5, as the specification words it, fails: ["Bearer abc def"] is not
    of the form [Bearer <token>], yet it passes the format check, and
    with a valid first token the request is let through. *)
Lemma bearer_with_trailing_text_passes_format_check :
  ~ (forall (jwt_verify : option string -> string -> Middleware.VerifyResult)
            (env : ProcessEnv.t) (db : Repository.Db) (h : string),
        ~ Spec.exactBearer h ->
        Middleware.authenticate jwt_verify env db (Some h)
        = deny "Access denied. No token provided.").
Proof.
  intros claim.
  specialize (claim Sample.jwt_verify Sample.env Sample.db
                    "Bearer jwt.u-alice and more").
  assert (Hpass : Middleware.authenticate Sample.jwt_verify Sample.env Sample.db
                    (Some "Bearer jwt.u-alice and more")
                  = Middleware.Next Sample.alice) by reflexivity.
  rewrite Hpass in claim.
  assert (Hnot : ~ Spec.exactBearer "Bearer jwt.u-alice and more").
  { intros [token [Heq [_ Hsp]]]. simpl in Heq.
    inversion Heq; subst token. discriminate Hsp. }
  specialize (claim Hnot). discriminate claim.
Qed.

(** ** Sorting *)

Section StableSort.
Context {A : Type} (key : A -> Z).

(** The comparator [(a, b) => key(b) - key(a)]. *)
Let cmp (a b : A) : Z := key b - key a.
Let newerOrSame (a b : A) : Prop := key a >= key b.

Lemma insert_Forall (P : A -> Prop) (x : A) (l : list A) :
  P x -> Forall P l -> Forall P (Js.insert cmp x l).
Proof.
  intros Hx Hl. induction Hl as [|y ys Hy Hys IH]; simpl.
  - constructor; [exact Hx | constructor].
  - destruct (cmp x y <=? 0); repeat (constructor; try assumption).
Qed.

Lemma insert_sorted (x : A) (l : list A) :
  StronglySorted newerOrSame l -> StronglySorted newerOrSame (Js.insert cmp x l).
Proof.
  induction 1 as [|y ys Hs IH Hall]; simpl.
  - constructor; constructor.
  - destruct (Z.leb_spec (cmp x y) 0) as [Hle|Hgt]; unfold cmp in *.
    + constructor; [constructor; assumption|].
      constructor; [unfold newerOrSame; lia|].
      eapply Forall_impl; [|exact Hall].
      unfold newerOrSame. intros z Hz. lia.
    + constructor; [exact IH|].
      apply insert_Forall; [unfold newerOrSame; lia | exact Hall].
Qed.

Lemma sort_sorted (l : list A) : StronglySorted newerOrSame (Js.sort cmp l).
Proof.
  induction l as [|x xs IH]; simpl; [constructor | now apply insert_sorted].
Qed.

Lemma insert_perm (x : A) (l : list A) : Permutation (Js.insert cmp x l) (x :: l).
Proof.
  induction l as [|y ys IH]; simpl; [reflexivity|].
  destruct (cmp x y <=? 0); [reflexivity|].
  rewrite IH. apply perm_swap.
Qed.

Lemma sort_perm (l : list A) : Permutation (Js.sort cmp l) l.
Proof.
  induction l as [|x xs IH]; simpl; [reflexivity|].
  now rewrite insert_perm, IH.
Qed.

(** Stability: an element is inserted ahead of all those with its key. *)
Lemma insert_same_key (c : Z) (x : A) (l : list A) :
  filter (fun t => key t =? c) (Js.insert cmp x l)
  = filter (fun t => key t =? c) (x :: l).
Proof.
  induction l as [|y ys IH]; [reflexivity|].
  cbn [Js.insert].
  destruct (Z.leb_spec (cmp x y) 0) as [Hle|Hgt]; [reflexivity|].
  unfold cmp in Hgt. cbn [filter] in *. rewrite IH.
  destruct (Z.eqb_spec (key x) c) as [Hx|Hx];
    destruct (Z.eqb_spec (key y) c) as [Hy|Hy]; try reflexivity.
  lia.
Qed.

Lemma sort_same_key (c : Z) (l : list A) :
  filter (fun t => key t =? c) (Js.sort cmp l) = filter (fun t => key t =? c) l.
Proof.
  induction l as [|x xs IH]; [reflexivity|].
  cbn [Js.sort]. rewrite insert_same_key. cbn [filter]. now rewrite IH.
Qed.

End StableSort.

(** ** Filters *)

Lemma filter_all {A} (p : A -> bool) (l : list A) :
  (forall x, p x = true) -> filter p l = l.
Proof.
  intros H. induction l as [|x xs IH]; simpl; [reflexivity|].
  now rewrite H, IH.
Qed.

Lemma filter_twice {A} (p q : A -> bool) (l : list A) :
  filter p (filter q l) = filter (fun x => q x && p x) l.
Proof.
  induction l as [|x xs IH]; simpl; [reflexivity|].
  destruct (q x); simpl; [destruct (p x)|]; now rewrite IH.
Qed.

Lemma filter_of_map {A B} (m : A -> B) (p : B -> bool) (l : list A) :
  filter p (map m l) = map m (filter (fun x => p (m x)) l).
Proof.
  induction l as [|x xs IH]; simpl; [reflexivity|].
  destruct (p (m x)); simpl; now rewrite IH.
Qed.

Lemma Selects_filter {A} (P : A -> Prop) (p : A -> bool) (l : list A) :
  (forall x, p x = true <-> P x) -> Spec.Selects P l (filter p l).
Proof.
  intros H. induction l as [|x xs IH]; simpl; [constructor|].
  destruct (p x) eqn:E.
  - apply Spec.Selects_keep; [now apply H | exact IH].
  - apply Spec.Selects_drop; [|exact IH].
    intros HP. apply H in HP. congruence.
Qed.

Lemma Selects_unique {A} (P : A -> Prop) (l s1 s2 : list A) :
  Spec.Selects P l s1 -> Spec.Selects P l s2 -> s1 = s2.
Proof.
  intros H1. revert s2.
  induction H1 as [|x l s1 Hx _ IH|x l s1 Hx _ IH]; intros s2 H2;
    inversion H2; subst; try reflexivity; try contradiction.
  - f_equal. now apply IH.
  - now apply IH.
Qed.

(** ** Listing tasks *)

Lemma containsIgnoringCase_iff (text q : string) :
  Js.includes (Js.toLowerCase text) (Js.toLowerCase q) = true
  <-> Spec.containsIgnoringCase text q.
Proof. apply includes_iff. Qed.

Lemma satisfiesb_iff (f : Spec.Filters) (t : Task.t) :
  Spec.satisfiesb f t = true <-> Spec.satisfies f t.
Proof.
  unfold Spec.satisfiesb, Spec.satisfies.
  rewrite !andb_true_iff.
  destruct f as [s p q]; cbn [Spec.status Spec.priority Spec.search].
  split.
  - intros [[Hs Hp] Hq]. repeat apply conj.
    + intros s' E. subst s. now apply String.eqb_eq.
    + intros p' E. subst p. now apply String.eqb_eq.
    + intros q' E. subst q. apply orb_true_iff in Hq.
      destruct Hq as [Hq|Hq]; [left | right];
        now apply containsIgnoringCase_iff.
  - intros [Hs [Hp Hq]]. repeat apply conj.
    + destruct s as [s|]; [|reflexivity].
      apply String.eqb_eq. now apply Hs.
    + destruct p as [p|]; [|reflexivity].
      apply String.eqb_eq. now apply Hp.
    + destruct q as [q|]; [|reflexivity].
      apply orb_true_iff.
      destruct (Hq q eq_refl) as [H|H]; [left | right];
        now apply containsIgnoringCase_iff.
Qed.

Lemma wantedb_iff (requester : string) (f : Spec.Filters) (t : Task.t) :
  Spec.wantedb requester f t = true <-> Spec.wanted requester f t.
Proof.
  unfold Spec.wantedb, Spec.wanted.
  now rewrite andb_true_iff, String.eqb_eq, satisfiesb_iff.
Qed.

(** One guarded [tasks = tasks.filter(...)] step of [getTasks]. *)
Lemma guarded_filter (o : option string) (p : string -> Task.t -> bool)
      (l : list Task.t) :
  (o = Some EmptyString -> forall t, p EmptyString t = true) ->
  match Query.guard (option_map Query.Str o) with
  | Some v => filter (p v) l
  | None => l
  end
  = filter (fun t => match o with Some v => p v t | None => true end) l.
Proof.
  intros Hempty. destruct o as [v|]; cbn [option_map Query.guard].
  - destruct (Js.truthy v) eqn:E; [reflexivity|].
    apply truthy_false_iff in E. subst v.
    symmetry. apply filter_all. now apply Hempty.
  - symmetry. now apply filter_all.
Qed.

Lemma getTasksByUser_filter (db : Repository.Db) (userId : string) :
  Repository.getTasksByUser db userId
  = filter (fun t => String.eqb (Task.userId t) userId)
           (map Repository.mapTaskFromDb (Repository.tasks db)).
Proof.
  unfold Repository.getTasksByUser. now rewrite filter_of_map.
Qed.

(** What [getTasks] computes, in one expression. *)
Lemma getTasks_eq (db : Repository.Db) (user : JwtPayload.t) (f : Spec.Filters) :
  Spec.status f <> Some EmptyString ->
  Spec.priority f <> Some EmptyString ->
  TaskController.getTasks db user (Spec.queryOf f)
  = Sent 200 (ApiResponse.mk true
       (Some (Js.sort TaskController.byCreatedAtDesc
                (filter (Spec.wantedb (JwtPayload.userId user) f)
                        (map Repository.mapTaskFromDb (Repository.tasks db)))))
       None None).
Proof.
  intros Hs Hp. unfold TaskController.getTasks, Spec.queryOf.
  cbn [Query.status Query.priority Query.search].
  rewrite (guarded_filter (Spec.status f)
             (fun v t => String.eqb (Task.status t) v))
    by (intros E; contradiction).
  rewrite (guarded_filter (Spec.priority f)
             (fun v t => String.eqb (Task.priority t) v))
    by (intros E; contradiction).
  rewrite (guarded_filter (Spec.search f)
             (fun v t =>
                Js.includes (Js.toLowerCase (Task.title t)) (Js.toLowerCase v)
                || Js.includes (Js.toLowerCase (Task.description t))
                               (Js.toLowerCase v)))
    by (intros _ t; cbn [Js.toLowerCase]; now rewrite includes_empty).
  rewrite getTasksByUser_filter, !filter_twice.
  do 4 f_equal. apply filter_ext. intros t.
  unfold Spec.wantedb, Spec.satisfiesb. now rewrite !andb_assoc.
Qed.

Lemma guard_supplied (v : option string) :
  Query.guard (option_map Query.Str (Spec.nonEmpty v))
  = Query.guard (option_map Query.Str v).
Proof.
  destruct v as [s|]; [|reflexivity]. cbn [Spec.nonEmpty option_map Query.guard].
  destruct (Js.truthy s) eqn:E; cbn [option_map Query.guard];
    [now rewrite E | reflexivity].
Qed.

(** An empty filter value and none at all get the same answer. *)
Lemma getTasks_supplied (db : Repository.Db) (user : JwtPayload.t) (f : Spec.Filters) :
  TaskController.getTasks db user (Spec.queryOf f)
  = TaskController.getTasks db user (Spec.queryOf (Spec.supplied f)).
Proof.
  unfold TaskController.getTasks, Spec.queryOf, Spec.supplied.
  cbn [Query.status Query.priority Query.search
       Spec.status Spec.priority Spec.search].
  now rewrite !guard_supplied.
Qed.

Lemma nonEmpty_not_empty (v : option string) :
  Spec.nonEmpty v <> Some EmptyString.
Proof.
  destruct v as [s|]; cbn [Spec.nonEmpty]; [|discriminate].
  destruct (Js.truthy s) eqn:E; [|discriminate].
  intros H. inversion H. subst s. discriminate E.
Qed.

(** C6, as the code has it.  For every requester and every choice of
    filters, ListTasks answers 200 with exactly the tasks of the table
    that the requester owns and that satisfy every supplied filter --
    status equal, priority equal, search text found in the title or in
    the description whatever the letter case -- where an empty value
    counts as not supplied; they are ordered by [createdAt], most recent
    first, tasks created at the same instant keeping their retrieval
    order. *)
Theorem getTasks_supplied_filters_newest_first
        (db : Repository.Db) (user : JwtPayload.t) (f : Spec.Filters) :
  exists selected out : list Task.t,
    Spec.Selects (Spec.wanted (JwtPayload.userId user) (Spec.supplied f))
                 (map Repository.mapTaskFromDb (Repository.tasks db)) selected
    /\ Spec.newestFirstStable out selected
    /\ Permutation out selected
    /\ TaskController.getTasks db user (Spec.queryOf f)
       = Sent 200 (ApiResponse.mk true (Some out) None None).
Proof.
  exists (filter (Spec.wantedb (JwtPayload.userId user) (Spec.supplied f))
                 (map Repository.mapTaskFromDb (Repository.tasks db))).
  exists (Js.sort TaskController.byCreatedAtDesc
            (filter (Spec.wantedb (JwtPayload.userId user) (Spec.supplied f))
                    (map Repository.mapTaskFromDb (Repository.tasks db)))).
  split; [|split; [split|split]].
  - apply Selects_filter. intros t. apply wantedb_iff.
  - apply (sort_sorted Task.createdAt).
  - intros c. apply (sort_same_key Task.createdAt).
  - apply (sort_perm Task.createdAt).
  - rewrite getTasks_supplied. apply getTasks_eq; apply nonEmpty_not_empty.
Qed.

(** C6, as the specification words it, fails for an empty value.  The
    request [GET /tasks?status=] supplies the status filter with the
    empty string; none of Alice's four tasks has that status, yet all
    four are returned. *)
Lemma empty_status_parameter_selects_everything :
  ~ (forall (db : Repository.Db) (user : JwtPayload.t) (f : Spec.Filters),
        exists selected out : list Task.t,
          Spec.Selects (Spec.wanted (JwtPayload.userId user) f)
                       (map Repository.mapTaskFromDb (Repository.tasks db))
                       selected
          /\ Spec.newestFirstStable out selected
          /\ Permutation out selected
          /\ TaskController.getTasks db user (Spec.queryOf f)
             = Sent 200 (ApiResponse.mk true (Some out) None None)).
Proof.
  intros claim.
  pose (f := Spec.mkFilters (Some EmptyString) None None).
  destruct (claim Sample.db Sample.alice f)
    as [selected [out [Hselected [_ [Hperm Hout]]]]].
  pose proof (Selects_filter
                (Spec.wanted (JwtPayload.userId Sample.alice) f)
                (Spec.wantedb (JwtPayload.userId Sample.alice) f)
                (map Repository.mapTaskFromDb (Repository.tasks Sample.db))
                (fun t => wantedb_iff _ f t)) as Hnone.
  assert (E : filter (Spec.wantedb (JwtPayload.userId Sample.alice) f)
                     (map Repository.mapTaskFromDb (Repository.tasks Sample.db))
              = []) by reflexivity.
  rewrite E in Hnone.
  rewrite (Selects_unique _ _ _ _ Hselected Hnone) in Hperm.
  apply Permutation_sym, Permutation_nil in Hperm. subst out.
  vm_compute in Hout. discriminate Hout.
Qed.

(** The sample request [status=done&priority=high&search=foo]: three of
    Alice's tasks match; [t3] is the newest, [t2] and [t5] were created
    at the same instant and stay in table order. *)
Example getTasks_sample :
  match TaskController.getTasks Sample.db Sample.alice
          (Query.mk (Some (Query.Str "done")) (Some (Query.Str "high"))
                    (Some (Query.Str "foo"))) with
  | Sent 200 body => option_map (map Task.id) (ApiResponse.data body)
  | _ => None
  end = Some ["t3"; "t2"; "t5"].
Proof. reflexivity. Qed.

(** C10.  A [status], [priority] or [search] parameter that is not a
    string (an array, a nested object) is ignored: the reply is the one
    the request would get without that parameter, and it is a 200. *)
Theorem getTasks_ignores_non_string_parameter
        (db : Repository.Db) (user : JwtPayload.t) (q : Query.t) (v : Query.value) :
  (forall s, v <> Query.Str s) ->
  TaskController.getTasks db user
    (Query.mk (Some v) (Query.priority q) (Query.search q))
  = TaskController.getTasks db user
      (Query.mk None (Query.priority q) (Query.search q))
  /\ TaskController.getTasks db user
       (Query.mk (Query.status q) (Some v) (Query.search q))
     = TaskController.getTasks db user
         (Query.mk (Query.status q) None (Query.search q))
  /\ TaskController.getTasks db user
       (Query.mk (Query.status q) (Query.priority q) (Some v))
     = TaskController.getTasks db user
         (Query.mk (Query.status q) (Query.priority q) None)
  /\ statusOf (TaskController.getTasks db user
                 (Query.mk (Some v) (Some v) (Some v))) = Some 200.
Proof.
  intros Hv.
  assert (Hg : Query.guard (Some v) = None).
  { destruct v as [s| |]; [now elim (Hv s) | reflexivity | reflexivity]. }
  unfold TaskController.getTasks.
  cbn [Query.status Query.priority Query.search].
  rewrite Hg. repeat split.
Qed.

Lemma getTasks_ignores_non_string_parameter_witness :
  TaskController.getTasks Sample.db Sample.alice
    (Query.mk (Some (Query.Arr ["done"; "todo"])) None None)
  = TaskController.getTasks Sample.db Sample.alice (Query.mk None None None).
Proof.
  apply (getTasks_ignores_non_string_parameter Sample.db Sample.alice
           (Query.mk None None None) (Query.Arr ["done"; "todo"])).
  discriminate.
Defined.

(** ** Updating a task *)

Lemma find_map_stable {A} (p : A -> bool) (g : A -> A) (l : list A) :
  (forall x, p (g x) = p x) -> find p (map g l) = option_map g (find p l).
Proof.
  intros H. induction l as [|x xs IH]; simpl; [reflexivity|].
  rewrite H. destruct (p x); [reflexivity | exact IH].
Qed.

Lemma findTaskById_id (db : Repository.Db) (id : string) (task : Task.t) :
  Repository.findTaskById db id = Some task -> Task.id task = id.
Proof.
  unfold Repository.findTaskById.
  destruct (find _ _) as [r|] eqn:E; [|discriminate].
  intros H. inversion H; subst. apply find_some in E.
  now apply String.eqb_eq.
Qed.

(** Reading back a task that [saveTask] wrote over an existing row. *)
Lemma saveTask_read_back (db : Repository.Db) (dbNow : Z) (task old : Task.t) :
  Repository.findTaskById db (Task.id task) = Some old ->
  Repository.findTaskById (Repository.saveTask db dbNow task) (Task.id task)
  = Some (Task.mk (Task.id task) (Task.title task) (Task.description task)
                  (Task.status task) (Task.priority task)
                  (Repository.writtenDueDate db (Task.dueDate task))
                  (Task.createdAt old) dbNow (Task.userId task)).
Proof.
  intros Hold. unfold Repository.saveTask. rewrite Hold.
  unfold Repository.findTaskById in *. cbn [Repository.tasks].
  rewrite find_map_stable.
  - destruct (find _ (Repository.tasks db)) as [r|] eqn:E; [|discriminate].
    inversion Hold; subst old. apply find_some in E. destruct E as [_ E].
    cbn [option_map]. unfold Repository.updateRow. rewrite E. reflexivity.
  - intros r. unfold Repository.updateRow.
    destruct (String.eqb (TaskRow.id r) (Task.id task)) eqn:E;
      [cbn [TaskRow.id]; now rewrite String.eqb_refl | exact E].
Qed.

Lemma updateTask_owned (db : Repository.Db) (now dbNow : Z) (user : JwtPayload.t)
      (id : string) (body : TaskBody.t) (task : Task.t) :
  Repository.findTaskById db id = Some task ->
  Task.userId task = JwtPayload.userId user ->
  TaskController.updateTask db now dbNow user id body
  = (Repository.saveTask db dbNow (TaskController.mergeTask now task body),
     Sent 200 (ApiResponse.mk true (Some (TaskController.mergeTask now task body))
                 (Some "Task updated successfully.") None)).
Proof.
  intros Hfind Hown. unfold TaskController.updateTask.
  now rewrite Hfind, Hown, String.eqb_refl.
Qed.

(** What a successful UpdateTask keeps.  [id], [userId] and [createdAt]
    are those of the stored task whatever the body holds, and
    [updatedAt] is the time of the call, in the task returned and in the
    row stored.  With the body [{ status: "done" }] the task returned is
    the old one with [status] ["done"] and the new [updatedAt]; the row
    stored has the same columns, except that its due date is the old one
    written anew by [saveTask]. *)
Lemma updateTask_frame
      (db : Repository.Db) (now dbNow : Z) (user : JwtPayload.t)
      (id : string) (body : TaskBody.t) (task : Task.t) :
  Repository.findTaskById db id = Some task ->
  Task.userId task = JwtPayload.userId user ->
  exists (updated stored : Task.t) (db' : Repository.Db),
    TaskController.updateTask db now dbNow user id body
    = (db', Sent 200 (ApiResponse.mk true (Some updated)
                        (Some "Task updated successfully.") None))
    /\ Repository.findTaskById db' id = Some stored
    /\ (Task.id updated = Task.id task
        /\ Task.userId updated = Task.userId task
        /\ Task.createdAt updated = Task.createdAt task
        /\ Task.updatedAt updated = now)
    /\ (Task.id stored = Task.id task
        /\ Task.userId stored = Task.userId task
        /\ Task.createdAt stored = Task.createdAt task
        /\ Task.updatedAt stored = dbNow)
    /\ (forall extra,
          body = TaskBody.mk None None (Some "done") None None extra ->
          updated = Task.mk (Task.id task) (Task.title task)
                            (Task.description task) "done" (Task.priority task)
                            (Task.dueDate task) (Task.createdAt task) now
                            (Task.userId task)
          /\ stored = Task.mk (Task.id task) (Task.title task)
                              (Task.description task) "done" (Task.priority task)
                              (Repository.writtenDueDate db (Task.dueDate task))
                              (Task.createdAt task) dbNow (Task.userId task)).
Proof.
  intros Hfind Hown.
  pose proof (findTaskById_id _ _ _ Hfind) as Hid. subst id.
  pose proof (saveTask_read_back db dbNow
                (TaskController.mergeTask now task body) task Hfind) as Hback.
  eexists (TaskController.mergeTask now task body), _, _.
  split; [now apply updateTask_owned|].
  split; [exact Hback|].
  split; [repeat apply conj; reflexivity|].
  split; [repeat apply conj; reflexivity|].
  intros extra ->. repeat apply conj; reflexivity.
Qed.

(** What a successful UpdateTask overwrites: exactly the fields the body
    holds -- [title] and [description] with the trimmed text, [status],
    [priority] and [dueDate] with the value given -- in the task it
    returns.  The row stored has these columns, its due date being the
    returned one as [saveTask] writes it; a body with [dueDate: null]
    leaves the task without due date, in the reply and in the row. *)
Lemma updateTask_partial_merge
      (db : Repository.Db) (now dbNow : Z) (user : JwtPayload.t)
      (id : string) (body : TaskBody.t) (task : Task.t) :
  Repository.findTaskById db id = Some task ->
  Task.userId task = JwtPayload.userId user ->
  exists (updated stored : Task.t) (db' : Repository.Db),
    TaskController.updateTask db now dbNow user id body
    = (db', Sent 200 (ApiResponse.mk true (Some updated)
                        (Some "Task updated successfully.") None))
    /\ Repository.findTaskById db' id = Some stored
    /\ (TaskBody.title body = None -> Task.title updated = Task.title task)
    /\ (forall v, TaskBody.title body = Some v -> Task.title updated = Js.trim v)
    /\ (TaskBody.description body = None ->
        Task.description updated = Task.description task)
    /\ (forall v, TaskBody.description body = Some v ->
                  Task.description updated = Js.trim v)
    /\ (TaskBody.status body = None -> Task.status updated = Task.status task)
    /\ (forall v, TaskBody.status body = Some v -> Task.status updated = v)
    /\ (TaskBody.priority body = None ->
        Task.priority updated = Task.priority task)
    /\ (forall v, TaskBody.priority body = Some v -> Task.priority updated = v)
    /\ (TaskBody.dueDate body = None -> Task.dueDate updated = Task.dueDate task)
    /\ (forall v, TaskBody.dueDate body = Some v ->
                  Task.dueDate updated = option_map DueDate.Text v)
    /\ (TaskBody.dueDate body = Some None ->
        Task.dueDate updated = None /\ Task.dueDate stored = None)
    /\ Task.title stored = Task.title updated
    /\ Task.description stored = Task.description updated
    /\ Task.status stored = Task.status updated
    /\ Task.priority stored = Task.priority updated
    /\ Task.dueDate stored = Repository.writtenDueDate db (Task.dueDate updated).
Proof.
  intros Hfind Hown.
  pose proof (findTaskById_id _ _ _ Hfind) as Hid. subst id.
  pose proof (saveTask_read_back db dbNow
                (TaskController.mergeTask now task body) task Hfind) as Hback.
  eexists (TaskController.mergeTask now task body), _, _.
  split; [now apply updateTask_owned|].
  split; [exact Hback|].
  unfold TaskController.mergeTask.
  cbn [Task.title Task.description Task.status Task.priority Task.dueDate].
  repeat apply conj; try reflexivity;
    try (intros v E; now rewrite E); try (intros E; now rewrite E).
Qed.

(** An update that clears the due date and replaces the title, run: the
    title is the trimmed text, the due date is gone, the rest stays, in
    the reply and in the table. *)
Example updateTask_sample :
  let body := TaskBody.mk (Some "  Buy oat milk ") None None None (Some None) [] in
  let result := TaskController.updateTask Sample.db 900 901 Sample.alice "t2" body in
  snd result
  = Sent 200 (ApiResponse.mk true
       (Some (Task.mk "t2" "Buy oat milk" "foo bar" "done" "high" None
                      400 900 "u-alice"))
       (Some "Task updated successfully.") None)
  /\ Repository.findTaskById (fst result) "t2"
     = Some (Task.mk "t2" "Buy oat milk" "foo bar" "done" "high" None
                     400 901 "u-alice").
Proof. split; reflexivity. Qed.

(** ** The due date of a task that is updated *)

(** The UTC day of midnight local time of a day: the day before when
    the server is ahead of UTC, the day itself when it is at UTC or
    behind.  [toISOString] gives the UTC date, so a [Date] that the
    driver made of a calendar date goes back into the table a day early
    on every server ahead of UTC. *)
Lemma utc_day_of_local_midnight (tz day : Z) :
  (0 < tz <= 1440 ->
   (day * JsDate.msPerDay - tz * JsDate.msPerMinute) / JsDate.msPerDay = day - 1)
  /\ (-1440 < tz <= 0 ->
      (day * JsDate.msPerDay - tz * JsDate.msPerMinute) / JsDate.msPerDay = day).
Proof.
  unfold JsDate.msPerDay, JsDate.msPerMinute. split; intros H; symmetry.
  - apply (Z.div_unique _ 86400000 (day - 1) (86400000 - tz * 60000)); lia.
  - apply (Z.div_unique _ 86400000 day (- tz * 60000)); lia.
Qed.

(** C7.  A server five and a half hours ahead of UTC, the MySQL driver
    rendering dates as it does by default.  Alice's task [t2] is due on
    2030-01-15, which the driver hands over as midnight local time,
    2030-01-14T18:30:00Z.  UpdateTask with the body [{ status: "done" }]
    answers 200 with the task as it should be -- [status] ["done"],
    [updatedAt] refreshed, every other field as before -- and the row it
    stores keeps [id], [userId], [createdAt], title, description and
    priority; but the due date of that row is now 2030-01-14.
    [saveTask] wrote the [Date] back through [toISOString], whose date
    is the UTC one.  The PATCH route stores the same. *)
Theorem updateTask_status_done_moves_stored_dueDate (now dbNow : Z) :
  let db := Sample.dbKolkata in
  let result :=
    TaskController.updateTask db now dbNow Sample.alice "t2" Spec.statusDone in
  Repository.dateColumn db "2030-01-15" = Sample.jan15Kolkata
  /\ Repository.dateColumn db "2030-01-14" = Sample.jan14Kolkata
  /\ Repository.findTaskById db "t2"
     = Some (Task.mk "t2" "Buy milk" "foo bar" "todo" "high"
                     (Some Sample.jan15Kolkata) 400 400 "u-alice")
  /\ snd result
     = Sent 200 (ApiResponse.mk true
          (Some (Task.mk "t2" "Buy milk" "foo bar" "done" "high"
                         (Some Sample.jan15Kolkata) 400 now "u-alice"))
          (Some "Task updated successfully.") None)
  /\ Repository.formattedDueDate (Some Sample.jan15Kolkata) = Some "2030-01-14"
  /\ Repository.findTaskById (fst result) "t2"
     = Some (Task.mk "t2" "Buy milk" "foo bar" "done" "high"
                     (Some Sample.jan14Kolkata) 400 dbNow "u-alice")
  /\ Sample.jan14Kolkata <> Sample.jan15Kolkata
  /\ fst (Routes.patchTask Sample.isISO8601 Sample.parseOther Sample.envKolkata
            db now dbNow Sample.alice "t2" Spec.statusDone)
     = fst result.
Proof.
  cbv zeta. repeat apply conj; try reflexivity. discriminate.
Qed.

(** C8.  On the same server, UpdateTask with a body that has no
    [dueDate] key -- here a new title only -- does not leave the due
    date of the stored task as it was: the task was due on 2030-01-15
    and is due on 2030-01-14 afterwards, and on 2030-01-13 after the
    same update once more.  The fields the body holds are overwritten
    and the other text fields are kept; an explicit [dueDate: null]
    clears the due date, and a due date given as text is stored as the
    date before its T. *)
Theorem updateTask_absent_dueDate_moves_stored_dueDate (now dbNow : Z) :
  let db := Sample.dbKolkata in
  let body := TaskBody.mk (Some "Buy oat milk") None None None None [] in
  let once := fst (TaskController.updateTask db now dbNow Sample.alice "t2" body) in
  let twice :=
    fst (TaskController.updateTask once now dbNow Sample.alice "t2" body) in
  let cleared :=
    fst (TaskController.updateTask db now dbNow Sample.alice "t2"
           (TaskBody.mk None None None None (Some None) [])) in
  let given :=
    fst (TaskController.updateTask db now dbNow Sample.alice "t2"
           (TaskBody.mk None None None None
                        (Some (Some "2030-03-01T09:00:00.000Z")) [])) in
  TaskBody.dueDate body = None
  /\ option_map Task.dueDate (Repository.findTaskById db "t2")
     = Some (Some Sample.jan15Kolkata)
  /\ Repository.findTaskById once "t2"
     = Some (Task.mk "t2" "Buy oat milk" "foo bar" "todo" "high"
                     (Some Sample.jan14Kolkata) 400 dbNow "u-alice")
  /\ option_map Task.dueDate (Repository.findTaskById twice "t2")
     = Some (Some Sample.jan13Kolkata)
  /\ option_map Task.dueDate (Repository.findTaskById cleared "t2")
     = Some None
  /\ option_map Task.dueDate (Repository.findTaskById given "t2")
     = Some (Some (Repository.dateColumn db "2030-03-01")).
Proof.
  cbv zeta. repeat apply conj; reflexivity.
Qed.

(** ** The due-date validator *)

Section DueDate.
Variable isISO8601 : string -> bool.
Variable parseOther : string -> option Z.

Lemma parseDateOnly_truthy (value : string) (ymd : Z * Z * Z) :
  JsDate.parseDateOnly value = Some ymd -> Js.truthy value = true.
Proof.
  destruct value; [discriminate | reflexivity].
Qed.

(** On a date-only string the validator compares midnight UTC of that
    date with midnight local time of the current day. *)
Lemma dueDateInPast_date_only (env : ProcessEnv.t) (now : Z) (value : string)
      (y m d : Z) :
  JsDate.parseDateOnly value = Some (y, m, d) ->
  Routes.dueDateInPast parseOther env now value
  = (JsDate.daysFromCivil y m d * JsDate.msPerDay
     <? JsDate.startOfLocalDay (ProcessEnv.tzOffsetMinutes env) now).
Proof.
  intros H. unfold Routes.dueDateInPast, JsDate.parse.
  now rewrite (parseDateOnly_truthy _ _ H), H.
Qed.

(** Server at UTC or ahead of it (by less than a day): a date-only due
    date is refused exactly when it is before the local current date. *)
Lemma dueDateInPast_ahead_of_utc (env : ProcessEnv.t) (now : Z) (value : string)
      (y m d : Z) :
  0 <= ProcessEnv.tzOffsetMinutes env < 1440 ->
  JsDate.parseDateOnly value = Some (y, m, d) ->
  Routes.dueDateInPast parseOther env now value = true
  <-> JsDate.daysFromCivil y m d
      < JsDate.localDay (ProcessEnv.tzOffsetMinutes env) now.
Proof.
  intros Htz H. rewrite (dueDateInPast_date_only _ _ _ _ _ _ H), Z.ltb_lt.
  unfold JsDate.startOfLocalDay, JsDate.msPerDay, JsDate.msPerMinute.
  lia.
Qed.

(** Server behind UTC: the current local date itself is refused. *)
Lemma dueDateInPast_today_behind_utc (env : ProcessEnv.t) (now : Z)
      (value : string) (y m d : Z) :
  ProcessEnv.tzOffsetMinutes env < 0 ->
  JsDate.parseDateOnly value = Some (y, m, d) ->
  JsDate.daysFromCivil y m d = JsDate.localDay (ProcessEnv.tzOffsetMinutes env) now ->
  Routes.dueDateInPast parseOther env now value = true.
Proof.
  intros Htz H Htoday.
  rewrite (dueDateInPast_date_only _ _ _ _ _ _ H), Z.ltb_lt, Htoday.
  unfold JsDate.startOfLocalDay, JsDate.msPerMinute. lia.
Qed.

(** C9.  A server five hours behind UTC, at 10:00 local time on
    2024-12-31, is sent the due date ["2024-12-31"], the current local
    date.  CreateTask and UpdateTask both answer 422 with
    ['Due date cannot be in the past.'] and write nothing: the validator
    reads the string as midnight UTC, which lies before local
    midnight. *)
Theorem dueDate_today_refused_behind_utc
        (db : Repository.Db) (dbNow : Z) (uuid id : string) (user : JwtPayload.t) :
  let env := Sample.envNewYork in
  let now := Sample.tenAmNewYork in
  let create := TaskBody.mk (Some "Buy milk") None None None
                            (Some (Some "2024-12-31")) [] in
  let update := TaskBody.mk None None None None (Some (Some "2024-12-31")) [] in
  JsDate.parseDateOnly "2024-12-31" = Some (2024, 12, 31)
  /\ JsDate.localDay (ProcessEnv.tzOffsetMinutes env) now
     = JsDate.daysFromCivil 2024 12 31
  /\ (exists errors,
        Routes.postTask isISO8601 parseOther env db now dbNow uuid user create
        = (db, Sent 422 (ApiResponse.mk false None (Some "Validation failed.")
                           (Some errors)))
        /\ In "Due date cannot be in the past." errors)
  /\ (exists errors,
        Routes.patchTask isISO8601 parseOther env db now dbNow user id update
        = (db, Sent 422 (ApiResponse.mk false None (Some "Validation failed.")
                           (Some errors)))
        /\ In "Due date cannot be in the past." errors).
Proof.
  cbv zeta.
  assert (Hparse : JsDate.parseDateOnly "2024-12-31" = Some (2024, 12, 31))
    by reflexivity.
  assert (Htoday : JsDate.localDay (ProcessEnv.tzOffsetMinutes Sample.envNewYork)
                     Sample.tenAmNewYork = JsDate.daysFromCivil 2024 12 31)
    by reflexivity.
  assert (Hpast : Routes.dueDateInPast parseOther Sample.envNewYork
                    Sample.tenAmNewYork "2024-12-31" = true).
  { apply (dueDateInPast_today_behind_utc _ _ _ 2024 12 31);
      [reflexivity | exact Hparse | now rewrite Htoday]. }
  split; [exact Hparse|]. split; [exact Htoday|].
  unfold Routes.postTask, Routes.patchTask, Routes.dueDateErrors.
  cbn [TaskBody.title TaskBody.status TaskBody.priority TaskBody.dueDate
       nullish option_map Routes.statusErrors Routes.priorityErrors].
  rewrite Hpast. cbn [negb Routes.check].
  split.
  - destruct (isISO8601 "2024-12-31"); cbn;
      eexists; (split; [reflexivity | vm_compute; tauto]).
  - destruct (isISO8601 "2024-12-31"); cbn;
      eexists; (split; [reflexivity | vm_compute; tauto]).
Qed.

End DueDate.

(** With the server at UTC the same request, and one for a later date,
    are accepted, and one for the day before is refused. *)
Example dueDate_at_utc :
  let errorsFor v :=
    Routes.dueDateErrors Sample.isISO8601 Sample.parseOther Sample.env
                         Sample.tenAmNewYork (Some (Some v)) in
  errorsFor "2024-12-31" = []
  /\ errorsFor "2025-01-01" = []
  /\ errorsFor "2024-12-30" = ["Due date cannot be in the past."].
Proof. repeat split. Qed.

(** ** The ordering requirement determines the answer *)

Section OrderDetermined.
Context {A : Type} (key : A -> Z).

Let newerOrSame (a b : A) : Prop := key a >= key b.
Let withKey (c : Z) (l : list A) : list A := filter (fun t => key t =? c) l.

Lemma withKey_head (x : A) (l : list A) :
  withKey (key x) (x :: l) = x :: withKey (key x) l.
Proof.
  unfold withKey. cbn [filter]. now rewrite Z.eqb_refl.
Qed.

Lemma withKey_in (c : Z) (x : A) (l : list A) :
  In x (withKey c l) -> In x l /\ key x = c.
Proof.
  unfold withKey. rewrite filter_In, Z.eqb_eq. tauto.
Qed.

Lemma heads_agree (x y : A) (r1 r2 : list A) :
  StronglySorted newerOrSame (x :: r1) ->
  StronglySorted newerOrSame (y :: r2) ->
  (forall c, withKey c (x :: r1) = withKey c (y :: r2)) ->
  x = y.
Proof.
  intros S1 S2 H.
  apply StronglySorted_inv in S1. destruct S1 as [_ F1].
  apply StronglySorted_inv in S2. destruct S2 as [_ F2].
  rewrite Forall_forall in F1, F2.
  pose proof (H (key x)) as Hx. rewrite withKey_head in Hx.
  pose proof (H (key y)) as Hy. rewrite withKey_head in Hy.
  destruct (Z.eq_dec (key y) (key x)) as [E|NE].
  - rewrite <- E, withKey_head in Hx. congruence.
  - exfalso.
    assert (In x r2) as Hin2.
    { assert (In x (withKey (key x) (y :: r2))) as Hin
        by (rewrite <- Hx; now left).
      apply withKey_in in Hin. destruct Hin as [[->|Hin] _];
        [now elim NE | exact Hin]. }
    assert (In y r1) as Hin1.
    { assert (In y (withKey (key y) (x :: r1))) as Hin
        by (rewrite Hy; now left).
      apply withKey_in in Hin. destruct Hin as [[->|Hin] _];
        [now elim NE | exact Hin]. }
    apply F2 in Hin2. apply F1 in Hin1. unfold newerOrSame in *. lia.
Qed.

Lemma sorted_classes_determine (o1 o2 : list A) :
  StronglySorted newerOrSame o1 ->
  StronglySorted newerOrSame o2 ->
  (forall c, withKey c o1 = withKey c o2) ->
  o1 = o2.
Proof.
  revert o2. induction o1 as [|x r1 IH]; intros [|y r2] S1 S2 H.
  - reflexivity.
  - specialize (H (key y)). rewrite withKey_head in H. discriminate.
  - specialize (H (key x)). rewrite withKey_head in H. discriminate.
  - assert (x = y) by (eapply heads_agree; eassumption). subst y.
    f_equal. apply IH.
    + now apply StronglySorted_inv in S1.
    + now apply StronglySorted_inv in S2.
    + intros c. specialize (H c). unfold withKey in *. cbn [filter] in H.
      destruct (key x =? c); [now inversion H | exact H].
Qed.

End OrderDetermined.

(** Two answers that both meet the ordering requirement for the same
    selection are the same list. *)
Lemma newestFirstStable_unique (out1 out2 l : list Task.t) :
  Spec.newestFirstStable out1 l -> Spec.newestFirstStable out2 l -> out1 = out2.
Proof.
  intros [S1 H1] [S2 H2].
  apply (sorted_classes_determine Task.createdAt); try assumption.
  intros c. now rewrite H1, H2.
Qed.

(** ** Two remarks on the routes and the guards *)

(** Through the PATCH route a request for a task of somebody else (or
    for none) is answered by the validation reply or by the not-found
    reply; neither carries data and nothing is written. *)
Lemma patchTask_hidden_from_non_owner
      (isISO8601 : string -> bool) (parseOther : string -> option Z)
      (env : ProcessEnv.t) (db : Repository.Db) (now dbNow : Z)
      (user : JwtPayload.t) (id : string) (body : TaskBody.t) :
  (Repository.findTaskById db id = None \/
   exists task, Repository.findTaskById db id = Some task /\
                Task.userId task <> JwtPayload.userId user) ->
  exists reply,
    Routes.patchTask isISO8601 parseOther env db now dbNow user id body
    = (db, reply)
    /\ (reply = Sent 404 (ApiResponse.mk false None (Some "Task not found.") None)
        \/ exists errors,
             reply = Sent 422 (ApiResponse.mk false None
                                 (Some "Validation failed.") (Some errors))).
Proof.
  intros H. unfold Routes.patchTask.
  destruct (_ ++ _ ++ _ ++ _) as [|e errors]; cbn [Middleware.validate].
  - eexists. split; [|left; reflexivity].
    unfold TaskController.updateTask.
    destruct H as [-> | [task [-> Hne]]]; [reflexivity|].
    apply String.eqb_neq in Hne. now rewrite Hne.
  - eexists. split; [reflexivity | right; eexists; reflexivity].
Qed.

(** An empty [status], [priority] or [search] parameter is falsy, and
    [getTasks] treats it as absent. *)
Lemma getTasks_empty_parameter_ignored
      (db : Repository.Db) (user : JwtPayload.t) (q : Query.t) :
  TaskController.getTasks db user
    (Query.mk (Some (Query.Str EmptyString)) (Query.priority q) (Query.search q))
  = TaskController.getTasks db user
      (Query.mk None (Query.priority q) (Query.search q))
  /\ TaskController.getTasks db user
       (Query.mk (Query.status q) (Some (Query.Str EmptyString)) (Query.search q))
     = TaskController.getTasks db user
         (Query.mk (Query.status q) None (Query.search q))
  /\ TaskController.getTasks db user
       (Query.mk (Query.status q) (Query.priority q) (Some (Query.Str EmptyString)))
     = TaskController.getTasks db user
         (Query.mk (Query.status q) (Query.priority q) None).
Proof.
  repeat split.
Qed.

(* ================================================================== *)
(** * Further properties of the code                                    *)
(* ================================================================== *)

(** ** More on strings *)

Lemma trimEnd_idempotent (s : string) : Js.trimEnd (Js.trimEnd s) = Js.trimEnd s.
Proof.
  induction s as [|c r IH]; [reflexivity|].
  cbn [Js.trimEnd].
  destruct (Js.isWhite c && String.eqb (Js.trimEnd r) EmptyString) eqn:E;
    [reflexivity|].
  cbn [Js.trimEnd]. now rewrite IH, E.
Qed.

Lemma trimStart_shape (s : string) :
  Js.trimStart s = EmptyString \/
  exists c r, Js.trimStart s = String c r /\ Js.isWhite c = false.
Proof.
  induction s as [|c r IH]; [now left|].
  cbn [Js.trimStart]. destruct (Js.isWhite c) eqn:E; [exact IH|].
  right. now exists c, r.
Qed.

Lemma trim_shape (s : string) :
  Js.trim s = EmptyString \/
  exists c r, Js.trim s = String c (Js.trimEnd r) /\ Js.isWhite c = false.
Proof.
  unfold Js.trim.
  destruct (trimStart_shape s) as [-> | [c [r [-> Hc]]]]; [now left|].
  right. exists c, r. cbn [Js.trimEnd]. now rewrite Hc.
Qed.

Lemma trim_idempotent (s : string) : Js.trim (Js.trim s) = Js.trim s.
Proof.
  destruct (trim_shape s) as [-> | [c [r [-> Hc]]]]; [reflexivity|].
  unfold Js.trim. cbn [Js.trimStart]. rewrite Hc.
  cbn [Js.trimEnd]. now rewrite trimEnd_idempotent, Hc.
Qed.

Lemma isWhite_lowerChar (c : ascii) : Js.isWhite (Js.lowerChar c) = Js.isWhite c.
Proof.
  destruct c as [[] [] [] [] [] [] [] []]; reflexivity.
Qed.

Lemma toLowerCase_empty (s : string) :
  String.eqb (Js.toLowerCase s) EmptyString = String.eqb s EmptyString.
Proof. destruct s; reflexivity. Qed.

Lemma toLowerCase_trimStart (s : string) :
  Js.toLowerCase (Js.trimStart s) = Js.trimStart (Js.toLowerCase s).
Proof.
  induction s as [|c r IH]; [reflexivity|].
  cbn [Js.trimStart Js.toLowerCase]. rewrite isWhite_lowerChar.
  destruct (Js.isWhite c); [exact IH | reflexivity].
Qed.

Lemma toLowerCase_trimEnd (s : string) :
  Js.toLowerCase (Js.trimEnd s) = Js.trimEnd (Js.toLowerCase s).
Proof.
  induction s as [|c r IH]; [reflexivity|].
  cbn [Js.trimEnd Js.toLowerCase].
  rewrite isWhite_lowerChar, <- IH, toLowerCase_empty.
  destruct (Js.isWhite c && String.eqb (Js.trimEnd r) EmptyString); reflexivity.
Qed.

Lemma toLowerCase_trim (s : string) :
  Js.toLowerCase (Js.trim s) = Js.trim (Js.toLowerCase s).
Proof.
  unfold Js.trim. now rewrite toLowerCase_trimEnd, toLowerCase_trimStart.
Qed.

(** What [register] stores is lowercase and trimmed. *)
Lemma stored_address_normalised (email : string) :
  Schema.normalised (Js.trim (Js.toLowerCase email)).
Proof.
  split.
  - now rewrite toLowerCase_trim, toLowerCase_idempotent.
  - apply trim_idempotent.
Qed.

(** The text before the first separator holds no separator. *)
Lemma split_head_clean (s : string) (sep : ascii) :
  Js.includes (hd EmptyString (Js.split s sep)) (String sep EmptyString) = false.
Proof.
  induction s as [|c r IH]; [reflexivity|].
  cbn [Js.split]. destruct (Ascii.eqb_spec c sep) as [->|Hne]; [reflexivity|].
  destruct (Js.split r sep) as [|h t]; cbn [hd] in *.
  - cbn. destruct (ascii_dec sep c) as [E|_]; [now elim Hne | reflexivity].
  - cbn [Js.includes]. rewrite IH, orb_false_r. cbn.
    destruct (ascii_dec sep c) as [E|_]; [now elim Hne | reflexivity].
Qed.

(** A text without the separator is its own only segment. *)
Lemma split_without_separator (s : string) (sep : ascii) :
  Js.includes s (String sep EmptyString) = false -> Js.split s sep = [s].
Proof.
  induction s as [|c r IH]; [reflexivity|].
  cbn [Js.includes]. intros H. apply orb_false_iff in H. destruct H as [Hp Hr].
  cbn [Js.split]. destruct (Ascii.eqb_spec c sep) as [->|Hne].
  - cbn in Hp. destruct (ascii_dec sep sep) as [_|N]; [|now elim N].
    destruct r; discriminate Hp.
  - now rewrite (IH Hr).
Qed.

(** ** The repository *)

Lemma split_at_separator (day rest : string) (sep : ascii) :
  Js.includes day (String sep EmptyString) = false ->
  Js.split (day ++ String sep rest)%string sep = day :: Js.split rest sep.
Proof.
  induction day as [|c r IH]; intros H.
  - cbn. now rewrite Ascii.eqb_refl.
  - cbn [Js.includes] in H. apply orb_false_iff in H. destruct H as [Hp Hr].
    cbn [append Js.split]. destruct (Ascii.eqb_spec c sep) as [->|Hne].
    + cbn in Hp. destruct (ascii_dec sep sep) as [_|N]; [|now elim N].
      destruct r; discriminate Hp.
    + now rewrite (IH Hr).
Qed.


(** X1.  The [due_date] that [saveTask] writes is the date part of the
    text it is given: it never contains a T, a date-time text is cut at
    its first T, a text that already is a date is kept, and an empty
    text or [null] gives NULL. *)
Theorem formatDueDate_date_part :
  (forall d s, Repository.formatDueDate d = Some s ->
               Js.includes s "T" = false)
  /\ (forall d, Schema.dateOnly d -> Repository.formatDueDate d = d)
  /\ (forall day rest,
        day <> EmptyString -> Js.includes day "T" = false ->
        Repository.formatDueDate (Some (day ++ String "T" rest)%string) = Some day)
  /\ Repository.formatDueDate (Some EmptyString) = None
  /\ Repository.formatDueDate None = None.
Proof.
  repeat apply conj; try reflexivity.
  - intros [text|] s; cbn [Repository.formatDueDate]; [|discriminate].
    destruct (Js.truthy text); [|discriminate].
    intros H. inversion H. apply split_head_clean.
  - intros [text|] H; [|reflexivity].
    destruct H as [Hne Hclean]. cbn [Repository.formatDueDate].
    apply truthy_true_iff in Hne. rewrite Hne.
    now rewrite (split_without_separator _ _ Hclean).
  - intros day rest Hne Hclean. cbn [Repository.formatDueDate].
    assert (Ht : Js.truthy (day ++ String "T" rest)%string = true).
    { apply truthy_true_iff. destruct day; [now elim Hne | discriminate]. }
    now rewrite Ht, (split_at_separator _ _ _ Hclean).
Qed.

Lemma formatDueDate_date_part_witness :
  Repository.formatDueDate (Some "2030-01-15T09:30:00.000Z") = Some "2030-01-15"
  /\ Repository.formatDueDate (Some "2030-01-15") = Some "2030-01-15".
Proof.
  destruct formatDueDate_date_part as [_ [Hkeep [Hcut _]]].
  split.
  - apply (Hcut "2030-01-15" "09:30:00.000Z"); [discriminate | reflexivity].
  - apply (Hkeep (Some "2030-01-15")). split; [discriminate | reflexivity].
Defined.

Lemma find_none_not_in {A} (key : A -> string) (k : string) (l : list A) :
  find (fun r => String.eqb (key r) k) l = None -> ~ In k (map key l).
Proof.
  induction l as [|r l IH]; cbn [find map]; [intros _ []|].
  destruct (String.eqb_spec (key r) k) as [E|NE]; [discriminate|].
  intros H [E|Hin]; [now elim NE | now apply IH].
Qed.

Lemma updateRow_id (db : Repository.Db) (now : Z) (task : Task.t) (r : TaskRow.t) :
  TaskRow.id (Repository.updateRow db now task r) = TaskRow.id r.
Proof.
  unfold Repository.updateRow.
  destruct (String.eqb_spec (TaskRow.id r) (Task.id task)) as [E|_];
    [now rewrite E | reflexivity].
Qed.

(** [Schema.accepts] of a given task, by evaluation. *)
Ltac accepted :=
  split; [eexists; reflexivity|];
  split; [vm_compute; tauto|];
  split; [vm_compute; tauto|];
  split; [reflexivity|];
  split; [reflexivity|];
  split; [reflexivity|];
  first [exact I | vm_compute; discriminate].

Lemma saveTask_fresh_lookup (db : Repository.Db) (dbNow : Z) (task : Task.t) :
  Repository.findTaskById db (Task.id task) = None ->
  Repository.findTaskById (Repository.saveTask db dbNow task) (Task.id task)
  = Some (Task.mk (Task.id task) (Task.title task) (Task.description task)
                  (Task.status task) (Task.priority task)
                  (Repository.writtenDueDate db (Task.dueDate task))
                  dbNow dbNow (Task.userId task)).
Proof.
  intros Hold. unfold Repository.saveTask. rewrite Hold.
  unfold Repository.findTaskById in *. cbn [Repository.tasks].
  destruct (find _ (Repository.tasks db)) eqn:Hf; [discriminate|].
  rewrite (find_app_none _ _ _ Hf). cbn [TaskRow.id].
  now rewrite String.eqb_refl.
Qed.

(** X2.  [saveTask] then [findTaskById], for a task the table accepts:
    the task comes back with the text columns it was given and
    [updatedAt] the database time; [createdAt] is the database time for
    a new id and the stored one for an id that exists.  The due date
    that comes back is not the one given but the connection's rendering
    of the date text [saveTask] wrote: none for [null] and for the
    empty string, else the rendering of the text before the first T of
    a string, or of the UTC date of a [Date] object. *)
Theorem saveTask_then_find (db : Repository.Db) (dbNow : Z) (task : Task.t) :
  Schema.accepts db task ->
  Repository.findTaskById (Repository.saveTask db dbNow task) (Task.id task)
  = Some (Task.mk (Task.id task) (Task.title task) (Task.description task)
                  (Task.status task) (Task.priority task)
                  (match Task.dueDate task with
                   | None => None
                   | Some (DueDate.Text text) =>
                       if Js.truthy text
                       then Some (Repository.dateColumn db
                                    (hd EmptyString (Js.split text "T")))
                       else None
                   | Some (DueDate.DateObject time) =>
                       Some (Repository.dateColumn db
                               (hd EmptyString
                                   (Js.split (JsDate.toISOString time) "T")))
                   end)
                  (match Repository.findTaskById db (Task.id task) with
                   | Some old => Task.createdAt old
                   | None => dbNow
                   end)
                  dbNow (Task.userId task)).
Proof.
  intros _.
  assert (Hdue : Repository.writtenDueDate db (Task.dueDate task)
                 = match Task.dueDate task with
                   | None => None
                   | Some (DueDate.Text text) =>
                       if Js.truthy text
                       then Some (Repository.dateColumn db
                                    (hd EmptyString (Js.split text "T")))
                       else None
                   | Some (DueDate.DateObject time) =>
                       Some (Repository.dateColumn db
                               (hd EmptyString
                                   (Js.split (JsDate.toISOString time) "T")))
                   end).
  { unfold Repository.writtenDueDate.
    destruct (Task.dueDate task) as [[text|time]|]; try reflexivity.
    cbn [Repository.formattedDueDate Repository.formatDueDate].
    destruct (Js.truthy text); reflexivity. }
  rewrite <- Hdue.
  destruct (Repository.findTaskById db (Task.id task)) as [old|] eqn:Hold.
  - now apply saveTask_read_back.
  - now apply saveTask_fresh_lookup.
Qed.

Lemma saveTask_then_find_witness :
  Repository.findTaskById
    (Repository.saveTask Sample.db 901
       (Task.mk "t2" "Buy oat milk" "" "done" "low"
                (Some (DueDate.Text "2030-01-15T09:30:00.000Z")) 0 0 "u-alice"))
    "t2"
  = Some (Task.mk "t2" "Buy oat milk" "" "done" "low" (Some Sample.jan15)
                  400 901 "u-alice").
Proof.
  apply (saveTask_then_find Sample.db 901
           (Task.mk "t2" "Buy oat milk" "" "done" "low"
                    (Some (DueDate.Text "2030-01-15T09:30:00.000Z")) 0 0 "u-alice")).
  accepted.
Defined.

(** X3.  [saveTask] touches one id only: every other task is found as
    before, and the users are as before. *)
Theorem saveTask_other_ids
        (db : Repository.Db) (dbNow : Z) (task : Task.t) (id : string) :
  id <> Task.id task ->
  Repository.findTaskById (Repository.saveTask db dbNow task) id
  = Repository.findTaskById db id
  /\ Repository.users (Repository.saveTask db dbNow task) = Repository.users db.
Proof.
  intros Hne. unfold Repository.saveTask.
  destruct (Repository.findTaskById db (Task.id task)) as [old|] eqn:Hold;
    (split; [|reflexivity]); unfold Repository.findTaskById;
    cbn [Repository.tasks]; f_equal.
  - induction (Repository.tasks db) as [|r l IH]; [reflexivity|].
    cbn [map find]. rewrite updateRow_id.
    destruct (String.eqb_spec (TaskRow.id r) id) as [E|NE]; [|exact IH].
    unfold Repository.updateRow.
    destruct (String.eqb_spec (TaskRow.id r) (Task.id task)) as [E'|_];
      [congruence | reflexivity].
  - induction (Repository.tasks db) as [|r l IH]; cbn [app find].
    + cbn [TaskRow.id].
      destruct (String.eqb_spec (Task.id task) id) as [E|_];
        [now elim Hne | reflexivity].
    + destruct (String.eqb (TaskRow.id r) id); [reflexivity | exact IH].
Qed.

Lemma saveTask_other_ids_witness :
  Repository.findTaskById
    (Repository.saveTask Sample.db 900
       (Task.mk "t2" "Buy oat milk" "" "done" "low" None 0 0 "u-alice")) "t1"
  = Repository.findTaskById Sample.db "t1".
Proof.
  apply (saveTask_other_ids Sample.db 900
           (Task.mk "t2" "Buy oat milk" "" "done" "low" None 0 0 "u-alice") "t1").
  discriminate.
Defined.

(** X4.  [saveTask] keeps the ids of the tasks table distinct. *)
Theorem saveTask_keeps_ids_unique
        (db : Repository.Db) (dbNow : Z) (task : Task.t) :
  Schema.uniqueTaskIds db ->
  Schema.uniqueTaskIds (Repository.saveTask db dbNow task).
Proof.
  unfold Schema.uniqueTaskIds, Repository.saveTask. intros Hu.
  destruct (Repository.findTaskById db (Task.id task)) as [old|] eqn:Hold;
    cbn [Repository.tasks].
  - rewrite map_map.
    rewrite (map_ext _ TaskRow.id (updateRow_id db dbNow task)). exact Hu.
  - rewrite map_app. cbn [map TaskRow.id].
    apply NoDup_app_remove_l with (l := []). cbn [app].
    apply Permutation_NoDup with (l := Task.id task :: map TaskRow.id (Repository.tasks db)).
    + apply Permutation_cons_append.
    + constructor; [|exact Hu].
      apply find_none_not_in. unfold Repository.findTaskById in Hold.
      destruct (find _ _); [discriminate | reflexivity].
Qed.

Lemma saveTask_keeps_ids_unique_witness :
  Schema.uniqueTaskIds
    (Repository.saveTask Sample.db 900
       (Task.mk "t9" "New" "" "todo" "low" None 0 0 "u-bob")).
Proof.
  apply (saveTask_keeps_ids_unique Sample.db 900
           (Task.mk "t9" "New" "" "todo" "low" None 0 0 "u-bob")).
  unfold Schema.uniqueTaskIds. cbn.
  repeat (constructor; [cbn; intuition discriminate|]). constructor.
Defined.

Lemma find_filter_out {A} (key : A -> string) (k : string) (l : list A) :
  find (fun r => String.eqb (key r) k)
       (filter (fun r => negb (String.eqb (key r) k)) l) = None.
Proof.
  induction l as [|r l IH]; [reflexivity|].
  cbn [filter]. destruct (String.eqb (key r) k) eqn:E; cbn [negb]; [exact IH|].
  cbn [find]. now rewrite E.
Qed.

Lemma find_filter_other {A} (key : A -> string) (k k' : string) (l : list A) :
  k' <> k ->
  find (fun r => String.eqb (key r) k')
       (filter (fun r => negb (String.eqb (key r) k)) l)
  = find (fun r => String.eqb (key r) k') l.
Proof.
  intros Hne. induction l as [|r l IH]; [reflexivity|].
  cbn [filter find].
  destruct (String.eqb_spec (key r) k) as [E|NE]; cbn [negb].
  - destruct (String.eqb_spec (key r) k') as [E'|_]; [congruence | exact IH].
  - cbn [find]. destruct (String.eqb (key r) k'); [reflexivity | exact IH].
Qed.

Lemma existsb_find {A} (p : A -> bool) (l : list A) :
  existsb p l = true <-> find p l <> None.
Proof.
  induction l as [|r l IH]; cbn [existsb find].
  - split; [discriminate | intros H; now elim H].
  - destruct (p r); cbn [orb]; [split; [discriminate | reflexivity] | exact IH].
Qed.

(** X5.  [deleteTask] of the repository: afterwards the id is not found,
    the flag tells whether it was there, the other tasks are found as
    before and the users are untouched; the ids stay distinct. *)
Theorem repository_deleteTask (db : Repository.Db) (id : string) :
  let db' := fst (Repository.deleteTask db id) in
  Repository.findTaskById db' id = None
  /\ (snd (Repository.deleteTask db id) = true
      <-> Repository.findTaskById db id <> None)
  /\ (forall other, other <> id ->
        Repository.findTaskById db' other = Repository.findTaskById db other)
  /\ Repository.users db' = Repository.users db
  /\ (Schema.uniqueTaskIds db -> Schema.uniqueTaskIds db').
Proof.
  cbv zeta. unfold Repository.deleteTask, Repository.findTaskById.
  cbn [fst snd Repository.tasks Repository.users].
  split; [|split; [|split; [|split]]].
  - now rewrite find_filter_out.
  - rewrite existsb_find. destruct (find _ _); cbn; split; congruence.
  - intros other Hne. now rewrite find_filter_other.
  - reflexivity.
  - unfold Schema.uniqueTaskIds. cbn [Repository.tasks].
    induction (Repository.tasks db) as [|r l IH]; [trivial|].
    cbn [map filter]. intros Hu. inversion Hu as [|? ? Hnotin Hrest]; subst.
    destruct (negb _); [|now apply IH].
    cbn [map]. constructor; [|now apply IH].
    intros Hin. apply Hnotin. apply in_map_iff in Hin.
    destruct Hin as [x [Hx Hin]]. apply filter_In in Hin.
    apply in_map_iff. exists x. tauto.
Qed.

Lemma repository_deleteTask_witness :
  Repository.findTaskById (fst (Repository.deleteTask Sample.db "t2")) "t2" = None
  /\ snd (Repository.deleteTask Sample.db "t2") = true
  /\ Repository.findTaskById (fst (Repository.deleteTask Sample.db "t2")) "t3"
     = Repository.findTaskById Sample.db "t3".
Proof.
  destruct (repository_deleteTask Sample.db "t2") as [Hgone [Hflag [Hother _]]].
  repeat apply conj.
  - exact Hgone.
  - apply Hflag. discriminate.
  - apply Hother. discriminate.
Defined.

(** ** The task handlers *)

(** X6.  A task created under a fresh id, when the table accepts it,
    is then read by its owner as it was stored -- title and description
    trimmed, status [todo] and priority [medium] unless given, both
    timestamps the database time, the due date as the connection
    renders the date part of the text sent -- and is not found by
    anybody else.  The 201 reply carries the task with the server's
    clock and the due date as sent. *)
Theorem createTask_then_get
        (db : Repository.Db) (now dbNow : Z) (uuid : string)
        (user : JwtPayload.t) (body : TaskBody.t) (title : string) :
  TaskBody.title body = Some title ->
  Repository.findTaskById db uuid = None ->
  Schema.accepts db (newTask now uuid user title body) ->
  let result := TaskController.createTask db now dbNow uuid user body in
  snd result
  = Sent 201 (ApiResponse.mk true
       (Some (newTask now uuid user title body))
       (Some "Task created successfully.") None)
  /\ TaskController.getTaskById (fst result) user uuid
     = Sent 200 (ApiResponse.mk true
          (Some (createdTask db dbNow uuid user title body)) None None)
  /\ (forall other,
        JwtPayload.userId other <> JwtPayload.userId user ->
        TaskController.getTaskById (fst result) other uuid
        = Sent 404 (ApiResponse.mk false None (Some "Task not found.") None)).
Proof.
  intros Htitle Hfresh _. cbv zeta.
  unfold TaskController.createTask. rewrite Htitle. cbn [fst snd].
  split; [reflexivity|].
  unfold TaskController.getTaskById.
  match goal with
  | |- context [Repository.saveTask db dbNow ?t] =>
      pose proof (saveTask_fresh_lookup db dbNow t Hfresh) as Hlook
  end.
  cbn [Task.id Task.title Task.description Task.status Task.priority
       Task.dueDate Task.userId] in Hlook.
  rewrite Hlook. cbn [Task.userId].
  assert (Hdue : Repository.writtenDueDate db
                   (option_map DueDate.Text (nullish (TaskBody.dueDate body) None))
                 = option_map (Repository.dateColumn db)
                     (Repository.formatDueDate
                        (nullish (TaskBody.dueDate body) None))).
  { unfold Repository.writtenDueDate.
    destruct (nullish (TaskBody.dueDate body) None); reflexivity. }
  rewrite Hdue. fold (createdTask db dbNow uuid user title body).
  split.
  - now rewrite String.eqb_refl.
  - intros other Hne. apply not_eq_sym in Hne.
    apply String.eqb_neq in Hne. now rewrite Hne.
Qed.

Lemma createTask_then_get_witness :
  let body := TaskBody.mk (Some "  Buy milk ") None None None
                          (Some (Some "2030-01-15T08:00:00Z")) [] in
  TaskController.getTaskById
    (fst (TaskController.createTask Sample.db 900 901 "t9" Sample.alice body))
    Sample.alice "t9"
  = Sent 200 (ApiResponse.mk true
       (Some (Task.mk "t9" "Buy milk" "" "todo" "medium" (Some Sample.jan15)
                      901 901 "u-alice")) None None).
Proof.
  intros body.
  refine (proj1 (proj2 (createTask_then_get Sample.db 900 901 "t9" Sample.alice
                          body "  Buy milk " eq_refl eq_refl _))).
  accepted.
Defined.

Lemma getTasksByUser_app (db : Repository.Db) (row : TaskRow.t) (u : string) :
  Repository.getTasksByUser
    (Repository.mkDb (Repository.dateColumn db) (Repository.users db)
                     (Repository.tasks db ++ [row])) u
  = Repository.getTasksByUser db u
    ++ (if String.eqb (TaskRow.user_id row) u
        then [Repository.mapTaskFromDb row] else []).
Proof.
  unfold Repository.getTasksByUser. cbn [Repository.tasks].
  rewrite filter_app, map_app. cbn [filter].
  destruct (String.eqb (TaskRow.user_id row) u); reflexivity.
Qed.

(** The tasks of a user after a task was created under a fresh id. *)
Lemma createTask_owner_list
      (db : Repository.Db) (now dbNow : Z) (uuid : string)
      (user : JwtPayload.t) (body : TaskBody.t) (title : string) (u : string) :
  TaskBody.title body = Some title ->
  Repository.findTaskById db uuid = None ->
  Repository.getTasksByUser
    (fst (TaskController.createTask db now dbNow uuid user body)) u
  = Repository.getTasksByUser db u
    ++ (if String.eqb (JwtPayload.userId user) u
        then [createdTask db dbNow uuid user title body] else []).
Proof.
  intros Htitle Hfresh.
  unfold TaskController.createTask. rewrite Htitle. cbn [fst].
  unfold Repository.saveTask. cbn [Task.id]. rewrite Hfresh.
  rewrite getTasksByUser_app.
  cbn [TaskRow.user_id Task.userId Task.title Task.description Task.status
       Task.priority Task.dueDate].
  destruct (String.eqb (JwtPayload.userId user) u); [|reflexivity].
  unfold createdTask, Repository.mapTaskFromDb, Repository.writtenDueDate.
  cbn [TaskRow.id TaskRow.user_id TaskRow.title TaskRow.description
       TaskRow.status TaskRow.priority TaskRow.due_date TaskRow.created_at
       TaskRow.updated_at].
  destruct (nullish (TaskBody.dueDate body) None); reflexivity.
Qed.

(** X7.  Creating a task under a fresh id, when the table accepts it,
    adds that one task to the tasks of its owner and changes nobody
    else's: ListTasks of the owner then is ListTasks before with the
    new task put in by its [createdAt], and for an owner without tasks
    it is that one task. *)
Theorem createTask_extends_owner_list
        (db : Repository.Db) (now dbNow : Z) (uuid : string)
        (user : JwtPayload.t) (body : TaskBody.t) (title : string) :
  TaskBody.title body = Some title ->
  Repository.findTaskById db uuid = None ->
  Schema.accepts db (newTask now uuid user title body) ->
  let db' := fst (TaskController.createTask db now dbNow uuid user body) in
  let created := createdTask db dbNow uuid user title body in
  Permutation (Repository.getTasksByUser db' (JwtPayload.userId user))
              (created :: Repository.getTasksByUser db (JwtPayload.userId user))
  /\ (forall u, u <> JwtPayload.userId user ->
        Repository.getTasksByUser db' u = Repository.getTasksByUser db u)
  /\ (forall before after,
        TaskController.getTasks db user (Query.mk None None None)
        = Sent 200 (ApiResponse.mk true (Some before) None None) ->
        TaskController.getTasks db' user (Query.mk None None None)
        = Sent 200 (ApiResponse.mk true (Some after) None None) ->
        Permutation after (created :: before)
        /\ StronglySorted (fun a b => Task.createdAt a >= Task.createdAt b) after)
  /\ (Repository.getTasksByUser db (JwtPayload.userId user) = [] ->
      TaskController.getTasks db' user (Query.mk None None None)
      = Sent 200 (ApiResponse.mk true (Some [created]) None None)).
Proof.
  intros Htitle Hfresh _. cbv zeta.
  assert (Hown : Repository.getTasksByUser
                   (fst (TaskController.createTask db now dbNow uuid user body))
                   (JwtPayload.userId user)
                 = Repository.getTasksByUser db (JwtPayload.userId user)
                   ++ [createdTask db dbNow uuid user title body]).
  { rewrite (createTask_owner_list _ _ _ _ _ _ title _ Htitle Hfresh).
    now rewrite String.eqb_refl. }
  split; [|split; [|split]].
  - rewrite Hown. apply Permutation_sym, Permutation_cons_append.
  - intros u Hne.
    rewrite (createTask_owner_list _ _ _ _ _ _ title _ Htitle Hfresh).
    apply not_eq_sym in Hne. apply String.eqb_neq in Hne.
    now rewrite Hne, app_nil_r.
  - intros before after. unfold TaskController.getTasks.
    cbn [Query.status Query.priority Query.search Query.guard].
    rewrite Hown. intros Hb Ha. inversion Hb; subst before.
    inversion Ha; subst after. split.
    + rewrite (sort_perm Task.createdAt).
      rewrite <- (Permutation_cons_append _ (createdTask db dbNow uuid user title body)).
      apply perm_skip. symmetry. apply (sort_perm Task.createdAt).
    + apply (sort_sorted Task.createdAt).
  - intros Hnone. unfold TaskController.getTasks.
    cbn [Query.status Query.priority Query.search Query.guard].
    rewrite Hown, Hnone. reflexivity.
Qed.

Lemma createTask_extends_owner_list_witness :
  let body := TaskBody.mk (Some "Buy milk") None None None None [] in
  let db := fst (Repository.deleteTask Sample.db "t1") in
  TaskController.getTasks
    (fst (TaskController.createTask db 900 901 "t9"
            (JwtPayload.mk "u-bob" "bob@x.com" None None) body))
    (JwtPayload.mk "u-bob" "bob@x.com" None None) (Query.mk None None None)
  = Sent 200 (ApiResponse.mk true
       (Some [Task.mk "t9" "Buy milk" "" "todo" "medium" None 901 901 "u-bob"])
       None None).
Proof.
  intros body db.
  refine (proj2 (proj2 (proj2
            (createTask_extends_owner_list db 900 901 "t9"
               (JwtPayload.mk "u-bob" "bob@x.com" None None) body "Buy milk"
               eq_refl eq_refl _))) eq_refl).
  accepted.
Defined.

Lemma unique_first {A} (key : A -> string) (k : string) (l : list A) (r0 r : A) :
  NoDup (map key l) ->
  find (fun x => String.eqb (key x) k) l = Some r0 ->
  In r l -> key r = k -> r = r0.
Proof.
  induction l as [|x l IH]; cbn [map find]; [intros _ H; discriminate H|].
  intros Hu Hf Hin Hk. inversion Hu as [|? ? Hnotin Hrest]; subst.
  destruct (String.eqb_spec (key x) (key r)) as [E|NE].
  - inversion Hf; subst r0. destruct Hin as [->|Hin]; [reflexivity|].
    exfalso. apply Hnotin. rewrite E. now apply in_map.
  - destruct Hin as [->|Hin]; [now elim NE|]. now apply IH.
Qed.

Lemma filter_map_unchanged {A} (p : A -> bool) (g : A -> A) (l : list A) :
  (forall r, In r l -> g r = r \/ (p r = false /\ p (g r) = false)) ->
  filter p (map g l) = filter p l.
Proof.
  induction l as [|x l IH]; intros H; [reflexivity|].
  cbn [map filter]. rewrite IH by (intros r Hr; apply H; now right).
  destruct (H x (or_introl eq_refl)) as [-> | [-> ->]]; reflexivity.
Qed.

Lemma filter_filter_unchanged {A} (p q : A -> bool) (l : list A) :
  (forall r, In r l -> q r = false -> p r = false) ->
  filter p (filter q l) = filter p l.
Proof.
  induction l as [|x l IH]; intros H; [reflexivity|].
  cbn [filter]. rewrite <- IH by (intros r Hr; apply H; now right).
  destruct (q x) eqn:Eq; cbn [filter]; [reflexivity|].
  now rewrite (H x (or_introl eq_refl) Eq).
Qed.

(** The stored row behind a task that was found. *)
Lemma findTaskById_row (db : Repository.Db) (id : string) (task : Task.t) :
  Repository.findTaskById db id = Some task ->
  exists r0,
    find (fun r => String.eqb (TaskRow.id r) id) (Repository.tasks db) = Some r0
    /\ task = Repository.mapTaskFromDb r0.
Proof.
  unfold Repository.findTaskById.
  destruct (find _ _) as [r0|]; [|discriminate].
  intros H. inversion H. now exists r0.
Qed.

(** With distinct ids, saving over or deleting a task of one user
    leaves the tasks of every other user as they were. *)
Lemma owner_write_isolated (db : Repository.Db) (dbNow : Z) (id owner u : string)
      (task new : Task.t) :
  Schema.uniqueTaskIds db ->
  Repository.findTaskById db id = Some task ->
  Task.userId task = owner -> u <> owner ->
  Task.id new = id -> Task.userId new = owner ->
  Repository.getTasksByUser (Repository.saveTask db dbNow new) u
  = Repository.getTasksByUser db u
  /\ Repository.getTasksByUser (fst (Repository.deleteTask db id)) u
     = Repository.getTasksByUser db u.
Proof.
  intros Hu Hfind Hown Hne Hid Hnew.
  destruct (findTaskById_row _ _ _ Hfind) as [r0 [Hr0 ->]].
  cbn [Repository.mapTaskFromDb Task.userId] in Hown.
  assert (Hother : forall r, In r (Repository.tasks db) -> TaskRow.id r = id ->
                             String.eqb (TaskRow.user_id r) u = false).
  { intros r Hin Hk.
    rewrite (unique_first TaskRow.id id _ r0 r Hu Hr0 Hin Hk), Hown.
    apply String.eqb_neq. now apply not_eq_sym. }
  split.
  - unfold Repository.saveTask. rewrite Hid, Hfind.
    unfold Repository.getTasksByUser. cbn [Repository.tasks]. f_equal.
    apply filter_map_unchanged. intros r Hin.
    unfold Repository.updateRow. rewrite Hid.
    destruct (String.eqb_spec (TaskRow.id r) id) as [E|_]; [right | now left].
    split; [now apply Hother|]. cbn [TaskRow.user_id]. rewrite Hnew.
    apply String.eqb_neq. now apply not_eq_sym.
  - unfold Repository.deleteTask, Repository.getTasksByUser.
    cbn [fst Repository.tasks]. f_equal.
    apply filter_filter_unchanged. intros r Hin Hq.
    apply negb_false_iff, String.eqb_eq in Hq. now apply Hother.
Qed.


(** X8.  With distinct task ids, UpdateTask and DeleteTask by one user
    leave the tasks of every other user as they were, whatever the id
    and the body. *)
Theorem update_and_delete_are_isolated
        (db : Repository.Db) (now dbNow : Z) (user : JwtPayload.t)
        (id : string) (body : TaskBody.t) (u : string) :
  Schema.uniqueTaskIds db ->
  u <> JwtPayload.userId user ->
  Repository.getTasksByUser
    (fst (TaskController.updateTask db now dbNow user id body)) u
  = Repository.getTasksByUser db u
  /\ Repository.getTasksByUser
       (fst (TaskController.deleteTask db user id)) u
     = Repository.getTasksByUser db u.
Proof.
  intros Hu Hne.
  unfold TaskController.updateTask, TaskController.deleteTask.
  destruct (Repository.findTaskById db id) as [task|] eqn:Hfind;
    [|split; reflexivity].
  destruct (String.eqb_spec (Task.userId task) (JwtPayload.userId user))
    as [Hown|_]; cbn [negb]; [|split; reflexivity].
  pose proof (findTaskById_id _ _ _ Hfind) as Hid.
  cbn [fst]. rewrite Hid.
  apply (owner_write_isolated db dbNow id (JwtPayload.userId user) u task
           (TaskController.mergeTask now task body) Hu Hfind Hown Hne Hid Hown).
Qed.

Lemma update_and_delete_are_isolated_witness :
  Repository.getTasksByUser
    (fst (TaskController.updateTask Sample.db 900 901 Sample.alice "t2"
            Spec.statusDone)) "u-bob"
  = Repository.getTasksByUser Sample.db "u-bob"
  /\ Repository.getTasksByUser
       (fst (TaskController.deleteTask Sample.db Sample.alice "t2")) "u-bob"
     = Repository.getTasksByUser Sample.db "u-bob".
Proof.
  apply (update_and_delete_are_isolated Sample.db 900 901 Sample.alice "t2"
           Spec.statusDone "u-bob").
  - unfold Schema.uniqueTaskIds. cbn.
    repeat (constructor; [cbn; intuition discriminate|]). constructor.
  - discriminate.
Defined.

(** X9.  After its owner deleted a task (reply 200), the task is gone:
    GetTask answers 404, a second DeleteTask answers 404 and changes
    nothing, and the other tasks are found as before. *)
Theorem deleteTask_then_gone
        (db : Repository.Db) (user : JwtPayload.t) (id : string) (task : Task.t) :
  Repository.findTaskById db id = Some task ->
  Task.userId task = JwtPayload.userId user ->
  let result := TaskController.deleteTask db user id in
  let notFound : HttpResult Task.t :=
    Sent 404 (ApiResponse.mk false None (Some "Task not found.") None) in
  snd result
  = Sent 200 (ApiResponse.mk true None (Some "Task deleted successfully.") None)
  /\ TaskController.getTaskById (fst result) user id = notFound
  /\ TaskController.deleteTask (fst result) user id = (fst result, notFound)
  /\ (forall other, other <> id ->
        Repository.findTaskById (fst result) other
        = Repository.findTaskById db other).
Proof.
  intros Hfind Hown. cbv zeta.
  pose proof (findTaskById_id _ _ _ Hfind) as Hid.
  assert (Hres : TaskController.deleteTask db user id
                 = (fst (Repository.deleteTask db id),
                    Sent 200 (ApiResponse.mk true None
                                (Some "Task deleted successfully.") None))).
  { unfold TaskController.deleteTask.
    now rewrite Hfind, Hown, String.eqb_refl, Hid. }
  rewrite Hres. cbn [fst snd].
  assert (Hgone : Repository.findTaskById
                    (fst (Repository.deleteTask db id)) id = None).
  { unfold Repository.deleteTask, Repository.findTaskById.
    cbn [fst Repository.tasks]. now rewrite find_filter_out. }
  split; [reflexivity|]. split; [|split].
  - unfold TaskController.getTaskById. now rewrite Hgone.
  - unfold TaskController.deleteTask. now rewrite Hgone.
  - intros other Hne. unfold Repository.deleteTask, Repository.findTaskById.
    cbn [fst Repository.tasks].
    now rewrite (find_filter_other TaskRow.id id other _ Hne).
Qed.

Lemma deleteTask_then_gone_witness :
  TaskController.getTaskById
    (fst (TaskController.deleteTask Sample.db Sample.alice "t2"))
    Sample.alice "t2"
  = Sent 404 (ApiResponse.mk false None (Some "Task not found.") None).
Proof.
  apply (deleteTask_then_gone Sample.db Sample.alice "t2"
           (Task.mk "t2" "Buy milk" "foo bar" "done" "high"
                    (Some Sample.jan15) 400 400 "u-alice"));
    reflexivity.
Defined.

(** X11.  Every task handler and task route either answers 200 or 201
    or leaves the database exactly as it was: a 404 or 422 reply, or a
    rejected promise, never comes with a write.  With a [JWT_SECRET]
    set and the default token life time the same holds of [register]
    and its route.  Without [JWT_SECRET] it does not: [register] stores
    the new account and only then fails to sign the token, so the
    request is not answered and the address is taken. *)
Theorem writes_only_on_success
        (isEmail isISO8601 : string -> bool) (parseOther : string -> option Z)
        (bcrypt_hash : string -> Z -> string)
        (jwt_sign : JwtPayload.t -> string -> string -> string)
        (env : ProcessEnv.t) (db : Repository.Db) (now dbNow : Z)
        (uuid id : string) (user : JwtPayload.t)
        (body : TaskBody.t) (rbody : RegisterBody.t) :
  failsCleanly db (TaskController.createTask db now dbNow uuid user body)
  /\ failsCleanly db (TaskController.updateTask db now dbNow user id body)
  /\ failsCleanly db (TaskController.deleteTask db user id)
  /\ failsCleanly db
       (Routes.postTask isISO8601 parseOther env db now dbNow uuid user body)
  /\ failsCleanly db
       (Routes.patchTask isISO8601 parseOther env db now dbNow user id body)
  /\ ((exists secret, ProcessEnv.JWT_SECRET env = Some secret
                      /\ secret <> EmptyString) ->
      ProcessEnv.JWT_EXPIRES_IN env = None ->
      failsCleanly db
        (AuthController.register bcrypt_hash jwt_sign env db now dbNow uuid rbody)
      /\ failsCleanly db
           (Routes.postRegister isEmail bcrypt_hash jwt_sign env db now dbNow
                                uuid rbody))
  /\ (nullish (ProcessEnv.JWT_SECRET env) "" = EmptyString ->
      forall db',
        Repository.findUserByEmail db (RegisterBody.email rbody) = None ->
        Repository.saveUser db dbNow
          (User.mk uuid (Js.trim (Js.toLowerCase (RegisterBody.email rbody)))
                   (Js.trim (RegisterBody.name rbody))
                   (bcrypt_hash (RegisterBody.password rbody)
                                AuthController.SALT_ROUNDS) now)
        = inl db' ->
        AuthController.register bcrypt_hash jwt_sign env db now dbNow uuid rbody
        = (db', Rejected "secretOrPrivateKey must have a value")
        /\ db' <> db).
Proof.
  assert (Hcreate : forall b,
             failsCleanly db (TaskController.createTask db now dbNow uuid user b)).
  { intros b. unfold failsCleanly, TaskController.createTask.
    destruct (TaskBody.title b); reflexivity. }
  assert (Hupdate : forall b,
             failsCleanly db (TaskController.updateTask db now dbNow user id b)).
  { intros b. unfold failsCleanly, TaskController.updateTask.
    destruct (Repository.findTaskById db id) as [t|]; [|reflexivity].
    destruct (negb _); reflexivity. }
  assert (Hregister :
            Js.truthy (nullish (ProcessEnv.JWT_SECRET env) "") = true ->
            forall b,
              failsCleanly db
                (AuthController.register bcrypt_hash jwt_sign env db now dbNow
                                         uuid b)).
  { intros Hsecret b.
    unfold failsCleanly, AuthController.register, AuthController.sign.
    rewrite Hsecret.
    destruct (Repository.findUserByEmail db _); [reflexivity|].
    destruct (Repository.saveUser db dbNow _); reflexivity. }
  split; [apply Hcreate|]. split; [apply Hupdate|]. split; [|split; [|split; [|split]]].
  - unfold failsCleanly, TaskController.deleteTask.
    destruct (Repository.findTaskById db id) as [t|]; [|reflexivity].
    destruct (negb _); reflexivity.
  - unfold Routes.postTask.
    destruct (Middleware.validate _) as [reply|] eqn:E; [|apply Hcreate].
    unfold Middleware.validate in E.
    destruct (_ ++ _); inversion E. reflexivity.
  - unfold Routes.patchTask.
    destruct (Middleware.validate _) as [reply|] eqn:E; [|apply Hupdate].
    unfold Middleware.validate in E.
    destruct (_ ++ _); inversion E. reflexivity.
  - intros [secret [Hsecret Hne]] _.
    assert (Ht : Js.truthy (nullish (ProcessEnv.JWT_SECRET env) "") = true).
    { rewrite Hsecret. now apply truthy_true_iff. }
    split; [now apply Hregister|].
    unfold Routes.postRegister.
    destruct (Middleware.validate _) as [reply|] eqn:E; [|now apply Hregister].
    unfold Middleware.validate in E.
    destruct (_ ++ _); inversion E. reflexivity.
  - intros Hsecret db' Hnone Hsave.
    unfold AuthController.register, AuthController.sign.
    rewrite Hnone, Hsave, Hsecret. split; [reflexivity|].
    unfold Repository.saveUser in Hsave.
    destruct (existsb _ _); [discriminate Hsave|].
    injection Hsave as <-. intros E.
    apply (f_equal (fun d => List.length (Repository.users d))) in E.
    cbn [Repository.users] in E. rewrite length_app in E. cbn in E. lia.
Qed.

Lemma writes_only_on_success_witness :
  AuthController.register Sample.bcrypt_hash Sample.jwt_sign Sample.envNoSecret
    Sample.db 900 901 "u-carol"
    (RegisterBody.mk "carol@x.com" "correct horse" "Carol")
  = (Repository.mkDb
       (Repository.dateColumn Sample.db)
       (Repository.users Sample.db
        ++ [UserRow.mk "u-carol" "carol@x.com" "$2b$12$correct horse" "Carol" 901])
       (Repository.tasks Sample.db),
     Rejected "secretOrPrivateKey must have a value").
Proof.
  destruct (writes_only_on_success Sample.isEmail Sample.isISO8601
              Sample.parseOther Sample.bcrypt_hash Sample.jwt_sign
              Sample.envNoSecret Sample.db 900 901 "u-carol" "t2" Sample.alice
              Spec.statusDone
              (RegisterBody.mk "carol@x.com" "correct horse" "Carol"))
    as [_ [_ [_ [_ [_ [_ Hstored]]]]]].
  exact (proj1 (Hstored eq_refl _ eq_refl eq_refl)).
Defined.

(** ** Registration and login *)

Section AuthFlow.
Variable bcrypt_hash : string -> Z -> string.
Variable bcrypt_compare : string -> string -> bool.
Variable jwt_sign : JwtPayload.t -> string -> string -> string.

Let register := AuthController.register bcrypt_hash jwt_sign.
Let login := AuthController.login bcrypt_compare jwt_sign.

(** X12.  Login answers 401 ['Invalid email or password.'] exactly when
    the address is unknown or the password does not match, with one and
    the same reply for both, so that the reply does not tell whether the
    address has an account. *)
Theorem login_failure_is_generic
        (env : ProcessEnv.t) (db : Repository.Db) (body : LoginBody.t) :
  login env db body
  = Sent 401 (ApiResponse.mk false None (Some "Invalid email or password.") None)
  <->
  (Repository.findUserByEmail db (LoginBody.email body) = None \/
   exists u, Repository.findUserByEmail db (LoginBody.email body) = Some u /\
             bcrypt_compare (LoginBody.password body) (User.passwordHash u) = false).
Proof.
  unfold login, AuthController.login.
  destruct (Repository.findUserByEmail db (LoginBody.email body)) as [u|].
  - destruct (bcrypt_compare _ _) eqn:E; cbn [negb]; split.
    + destruct (AuthController.sign _ _ _); discriminate.
    + intros [H | [u' [Hu Hc]]]; [discriminate | congruence].
    + intros _. right. now exists u.
    + reflexivity.
  - split; [now left | reflexivity].
Qed.

(** X13.  After a registration that succeeded with an address without
    surrounding white space, a login with that address in any letter
    case and the same password answers 200 with a token signed for the
    new user's id and normalised address, and the same public user
    object, given that bcrypt accepts the password against its own
    hash; with a password bcrypt refuses it answers 401. *)
Theorem register_then_login
        (env : ProcessEnv.t) (db db' : Repository.Db) (now dbNow : Z)
        (uuid : string) (body : RegisterBody.t)
        (reply : ApiResponse.t AuthResponseData.t) (email password : string) :
  register env db now dbNow uuid body = (db', Sent 201 reply) ->
  Js.trim (Js.toLowerCase (RegisterBody.email body))
  = Js.toLowerCase (RegisterBody.email body) ->
  Js.toLowerCase email = Js.toLowerCase (RegisterBody.email body) ->
  let hash := bcrypt_hash (RegisterBody.password body) AuthController.SALT_ROUNDS in
  let user := User.mk uuid (Js.toLowerCase (RegisterBody.email body))
                      (Js.trim (RegisterBody.name body)) hash dbNow in
  (bcrypt_compare password hash = true ->
   login env db' (LoginBody.mk email password)
   = Sent 200 (ApiResponse.mk true
        (Some (AuthResponseData.mk
                 (AuthController.signFor jwt_sign env
                    (JwtPayload.mk uuid (Js.toLowerCase (RegisterBody.email body))
                                   None None))
                 (Js.rest (User.toObject user) "passwordHash")))
        (Some "Login successful.") None))
  /\ (bcrypt_compare password hash = false ->
      login env db' (LoginBody.mk email password)
      = Sent 401 (ApiResponse.mk false None
                    (Some "Invalid email or password.") None)).
Proof.
  intros Hreg Hpad Hcase. cbv zeta.
  destruct (register_success _ _ _ _ _ _ _ _ _ _ Hreg)
    as [Hnone [_ [Husers [_ Hsecret]]]].
  cbn [User.email User.passwordHash User.name] in Husers.
  assert (Hfound :
            Repository.findUserByEmail db' email
            = Some (User.mk uuid (Js.toLowerCase (RegisterBody.email body))
                      (Js.trim (RegisterBody.name body))
                      (bcrypt_hash (RegisterBody.password body)
                                   AuthController.SALT_ROUNDS) dbNow)).
  { unfold Repository.findUserByEmail in *. rewrite Husers, Hcase.
    destruct (find _ (Repository.users db)) eqn:Hf; [discriminate|].
    rewrite (find_app_none _ _ _ Hf). cbn [UserRow.email].
    rewrite Hpad, toLowerCase_idempotent, String.eqb_refl.
    cbn [option_map Repository.mapUserFromDb UserRow.id UserRow.email
         UserRow.name UserRow.password UserRow.created_at].
    reflexivity. }
  unfold login, AuthController.login, AuthController.sign.
  cbn [LoginBody.email LoginBody.password].
  rewrite Hfound, Hsecret. cbn [User.passwordHash User.id User.email].
  split; intros Hc; rewrite Hc; reflexivity.
Qed.

End AuthFlow.

Lemma register_then_login_witness :
  let body := RegisterBody.mk "Carol@X.com" "correct horse" " Carol " in
  let db' := fst (AuthController.register Sample.bcrypt_hash Sample.jwt_sign
                    Sample.env Sample.db 900 901 "u-carol" body) in
  AuthController.login Sample.bcrypt_compare Sample.jwt_sign Sample.env db'
    (LoginBody.mk "CAROL@x.com" "correct horse")
  = Sent 200 (ApiResponse.mk true
       (Some (AuthResponseData.mk "jwt.u-carol"
                [("id", Js.VStr "u-carol"); ("email", Js.VStr "carol@x.com");
                 ("name", Js.VStr "Carol"); ("createdAt", Js.VTime 901)]))
       (Some "Login successful.") None).
Proof.
  intros body db'.
  refine (proj1 (register_then_login Sample.bcrypt_hash Sample.bcrypt_compare
                   Sample.jwt_sign Sample.env Sample.db db' 900 901 "u-carol"
                   body _ "CAROL@x.com" "correct horse" eq_refl eq_refl eq_refl)
                eq_refl).
Defined.

Lemma existsb_or_false {A} (f g : A -> string) (a b : string) (l : list A) :
  existsb (fun r => String.eqb (f r) a || String.eqb (g r) b) l = false ->
  ~ In a (map f l) /\ ~ In b (map g l).
Proof.
  induction l as [|r l IH]; cbn [existsb map]; [intros _; split; intros []|].
  intros H. apply orb_false_iff in H. destruct H as [Hr Hl].
  apply orb_false_iff in Hr. destruct Hr as [Hf Hg].
  apply String.eqb_neq in Hf, Hg. destruct (IH Hl) as [Ha Hb].
  split; intros [E|Hin]; auto.
Qed.

Lemma NoDup_snoc {A} (l : list A) (x : A) :
  NoDup l -> ~ In x l -> NoDup (l ++ [x]).
Proof.
  intros Hl Hx. apply Permutation_NoDup with (l := x :: l).
  - apply Permutation_cons_append.
  - now constructor.
Qed.

(** X14.  [register] keeps the users table well formed: ids distinct,
    addresses distinct, every address lowercase and trimmed.  So no two
    accounts ever have the same address up to letter case, whatever
    addresses are submitted. *)
Theorem register_keeps_users_well_formed
        (bcrypt_hash : string -> Z -> string)
        (jwt_sign : JwtPayload.t -> string -> string -> string)
        (env : ProcessEnv.t) (db : Repository.Db) (now dbNow : Z)
        (uuid : string) (body : RegisterBody.t) :
  usersWellFormed db ->
  let db' := fst (AuthController.register bcrypt_hash jwt_sign env db now dbNow
                    uuid body) in
  usersWellFormed db'
  /\ NoDup (map (fun r => Js.toLowerCase (UserRow.email r)) (Repository.users db')).
Proof.
  intros Hwf. cbv zeta.
  assert (Hlower : forall d, usersWellFormed d ->
            NoDup (map (fun r => Js.toLowerCase (UserRow.email r))
                       (Repository.users d))).
  { intros d [[_ Hemails] Hnorm].
    rewrite (map_ext_in _ UserRow.email); [exact Hemails|].
    intros r Hin. now destruct (Hnorm r Hin). }
  assert (Hkeep : usersWellFormed
                    (fst (AuthController.register bcrypt_hash jwt_sign env db
                            now dbNow uuid body))).
  { unfold AuthController.register.
    destruct (Repository.findUserByEmail db _); [exact Hwf|].
    unfold Repository.saveUser. cbn [User.id User.email User.name User.passwordHash].
    destruct (existsb _ _) eqn:E; [exact Hwf|].
    destruct (existsb_or_false _ _ _ _ _ E) as [Hid Hemail].
    destruct Hwf as [[Hids Hemails] Hnorm].
    assert (Hfst : forall (A : Type) (d : Repository.Db) (x : string + string)
                          (f : string -> A) (g : string -> A),
               fst match x with inl t => (d, f t) | inr e => (d, g e) end = d)
      by (intros A d [t|e] f g; reflexivity).
    rewrite Hfst. split; [split|]; cbn [Repository.users].
    - rewrite map_app. now apply NoDup_snoc.
    - rewrite map_app. now apply NoDup_snoc.
    - intros r Hin. apply in_app_or in Hin. destruct Hin as [Hin|[<-|[]]].
      + now apply Hnorm.
      + cbn [UserRow.email]. apply stored_address_normalised. }
  split; [exact Hkeep | now apply Hlower].
Qed.

Lemma register_keeps_users_well_formed_witness :
  usersWellFormed
    (fst (AuthController.register Sample.bcrypt_hash Sample.jwt_sign Sample.env
            Sample.db 900 901 "u-carol"
            (RegisterBody.mk " Carol@X.com " "correct horse" "Carol"))).
Proof.
  apply (register_keeps_users_well_formed Sample.bcrypt_hash Sample.jwt_sign
           Sample.env Sample.db 900 901 "u-carol"
           (RegisterBody.mk " Carol@X.com " "correct horse" "Carol")).
  split; [split|].
  - cbn. repeat (constructor; [cbn; intuition discriminate|]). constructor.
  - cbn. repeat (constructor; [cbn; intuition discriminate|]). constructor.
  - intros r [<-|[<-|[]]]; split; reflexivity.
Defined.

(** ** The gate, the routers and the client's token *)

Lemma tokenOf_bearer (rest : string) :
  Middleware.tokenOf ("Bearer " ++ rest)
  = Some (hd EmptyString (Js.split rest " ")).
Proof.
  unfold Middleware.tokenOf. cbn [append Js.split Ascii.eqb Bool.eqb].
  destruct (Js.split rest " ") as [|h t] eqn:E; [|reflexivity].
  destruct rest as [|c r]; cbn [Js.split] in E; [discriminate|].
  destruct (Ascii.eqb c " "); [discriminate|].
  destruct (Js.split r " "); discriminate.
Qed.

Lemma mapGet_after_delete {V} (m : list (string * V)) (k : string) :
  Store.mapGet (fst (Store.mapDelete m k)) k = None.
Proof.
  unfold Store.mapGet, Store.mapDelete. cbn [fst].
  now rewrite (find_filter_out fst k m).
Qed.

Lemma mapGet_after_set {V} (m : list (string * V)) (k : string) (v : V) :
  Store.mapGet (Store.mapSet m k v) k = Some v.
Proof.
  unfold Store.mapGet. induction m as [|[k' v'] m IH]; cbn [Store.mapSet].
  - cbn. now rewrite String.eqb_refl.
  - destruct (String.eqb k' k) eqn:E; cbn [find fst].
    + now rewrite String.eqb_refl.
    + now rewrite E.
Qed.

Section GateAndClient.
Variable jwt_verify : option string -> string -> Middleware.VerifyResult.
Variable bcrypt_compare : string -> string -> bool.
Variable jwt_sign : JwtPayload.t -> string -> string -> string.

Let authenticate := Middleware.authenticate jwt_verify.


(** X15.  The gate calls [next()] only for a header that starts with
    ['Bearer '], whose token [jwt.verify] decoded, and whose subject is
    a stored user; the identity it attaches is the decoded payload. *)
Theorem authenticate_next_is_sound
        (env : ProcessEnv.t) (db : Repository.Db)
        (authorization : option string) (user : JwtPayload.t) :
  authenticate env db authorization = Middleware.Next user ->
  exists header,
    authorization = Some header
    /\ Js.startsWith header "Bearer " = true
    /\ jwt_verify (Middleware.tokenOf header)
                  (nullish (ProcessEnv.JWT_SECRET env) "")
       = Middleware.Decoded user
    /\ exists stored,
         Repository.findUserById db (JwtPayload.userId user) = Some stored.
Proof.
  unfold authenticate, Middleware.authenticate.
  destruct authorization as [h|]; [|discriminate].
  destruct (Js.truthy h); cbn [negb orb]; [|discriminate].
  destruct (Js.startsWith h "Bearer ") eqn:Hs; cbn [negb]; [|discriminate].
  destruct (jwt_verify _ _) as [decoded| |] eqn:Hv; try discriminate.
  destruct (Repository.findUserById db _) as [stored|] eqn:Hu; [|discriminate].
  intros H. inversion H; subst decoded.
  exists h. repeat split; try assumption. now exists stored.
Qed.

(** X16.  The header the client's request interceptor builds from a
    stored token and the token the gate cuts out of it: the interceptor
    sends [Bearer <token>] exactly when a non-empty token is stored, and
    the gate recovers that token if it holds no space -- otherwise only
    its part before the first space. *)
Theorem bearer_header_round_trip (b : Client.Browser) (token : string) :
  Store.mapGet (Client.localStorage b) "token" = Some token ->
  token <> EmptyString ->
  exists header,
    Client.authorizationHeader b = Some header
    /\ Js.startsWith header "Bearer " = true
    /\ Middleware.tokenOf header = Some (hd EmptyString (Js.split token " "))
    /\ (Js.includes token " " = false -> Middleware.tokenOf header = Some token).
Proof.
  intros Hget Hne. unfold Client.authorizationHeader. rewrite Hget.
  apply truthy_true_iff in Hne. rewrite Hne.
  eexists. split; [reflexivity|].
  split; [apply prefix_iff; now exists token|].
  rewrite tokenOf_bearer. split; [reflexivity|].
  intros Hclean. now rewrite (split_without_separator _ _ Hclean).
Qed.

(** X17.  Behind the gate, [getMe] always finds its user: the route
    [GET /auth/me] answers with the gate's 401 or with 200 and the
    public projection of the stored user; the handler's 404 is never
    sent. *)
Theorem getMe_route_never_404
        (env : ProcessEnv.t) (db : Repository.Db) (authorization : option string) :
  (exists body, Router.getMe jwt_verify env db authorization = Router.Refused 401 body)
  \/ (exists stored,
        Router.getMe jwt_verify env db authorization
        = Router.Handled
            (Sent 200 (ApiResponse.mk true
               (Some (Js.rest (User.toObject stored) "passwordHash")) None None))).
Proof.
  unfold Router.getMe.
  destruct (Middleware.authenticate jwt_verify env db authorization)
    as [user|status body] eqn:Hgate.
  - right. unfold Middleware.authenticate in Hgate.
    destruct authorization as [h|]; [|discriminate Hgate].
    destruct (_ || _); [discriminate Hgate|].
    destruct (jwt_verify _ _) as [decoded| |]; try discriminate Hgate.
    destruct (Repository.findUserById db (JwtPayload.userId decoded))
      as [stored|] eqn:Hstored; [|discriminate Hgate].
    inversion Hgate; subst decoded.
    exists stored. unfold AuthController.getMe. now rewrite Hstored.
  - left. exists body. f_equal.
    unfold Middleware.authenticate in Hgate.
    destruct authorization as [h|]; [|now inversion Hgate].
    destruct (_ || _); [now inversion Hgate|].
    destruct (jwt_verify _ _); [|now inversion Hgate|now inversion Hgate].
    destruct (Repository.findUserById db _); [discriminate | now inversion Hgate].
Qed.

End GateAndClient.

Lemma authenticate_next_is_sound_witness :
  exists header,
    Some "Bearer jwt.u-alice" = Some header
    /\ Js.startsWith header "Bearer " = true
    /\ Sample.jwt_verify (Middleware.tokenOf header)
                         (nullish (ProcessEnv.JWT_SECRET Sample.env) "")
       = Middleware.Decoded Sample.alice
    /\ exists stored,
         Repository.findUserById Sample.db (JwtPayload.userId Sample.alice)
         = Some stored.
Proof.
  apply (authenticate_next_is_sound Sample.jwt_verify Sample.env Sample.db
           (Some "Bearer jwt.u-alice") Sample.alice).
  reflexivity.
Defined.

Lemma bearer_header_round_trip_witness :
  exists header,
    Client.authorizationHeader
      (Client.mkBrowser None None false [("token", "jwt.u-alice")]) = Some header
    /\ Js.startsWith header "Bearer " = true
    /\ Middleware.tokenOf header
       = Some (hd EmptyString (Js.split "jwt.u-alice" " "))
    /\ (Js.includes "jwt.u-alice" " " = false ->
        Middleware.tokenOf header = Some "jwt.u-alice").
Proof.
  apply (bearer_header_round_trip
           (Client.mkBrowser None None false [("token", "jwt.u-alice")])
           "jwt.u-alice"); [reflexivity | discriminate].
Defined.

Section SignIn.
Variable jwt_verify : option string -> string -> Middleware.VerifyResult.
Variable bcrypt_compare : string -> string -> bool.
Variable jwt_sign : JwtPayload.t -> string -> string -> string.

Lemma findUserByEmail_has_id (db : Repository.Db) (email : string) (u : User.t) :
  Repository.findUserByEmail db email = Some u ->
  exists stored, Repository.findUserById db (User.id u) = Some stored.
Proof.
  unfold Repository.findUserByEmail, Repository.findUserById.
  destruct (find _ _) as [r|] eqn:Hf; [|discriminate].
  intros H. inversion H; subst u. apply find_some in Hf. destruct Hf as [Hin _].
  cbn [Repository.mapUserFromDb User.id].
  destruct (find (fun x => String.eqb (UserRow.id x) (UserRow.id r))
                 (Repository.users db)) as [r'|] eqn:Hf'.
  - now eexists.
  - exfalso. apply (find_none _ _ Hf') in Hin.
    now rewrite String.eqb_refl in Hin.
Qed.

(** X18.  Signing in, end to end: when Login answered 200, the client
    keeps the token of the reply, its next request carries
    [Bearer <token>], and the gate lets that request through with the
    identity [jwt.verify] decodes -- given that the token is non-empty,
    holds no space, and decodes to the id of the user who logged in.
    The protected route is shown. *)
Theorem login_then_request_passes_gate
        (env : ProcessEnv.t) (db : Repository.Db) (body : LoginBody.t)
        (res : ApiResponse.t AuthResponseData.t) (data : AuthResponseData.t)
        (u : User.t) (decoded : JwtPayload.t) (b : Client.Browser) :
  AuthController.login bcrypt_compare jwt_sign env db body = Sent 200 res ->
  ApiResponse.data res = Some data ->
  Repository.findUserByEmail db (LoginBody.email body) = Some u ->
  AuthResponseData.token data <> EmptyString ->
  Js.includes (AuthResponseData.token data) " " = false ->
  jwt_verify (Some (AuthResponseData.token data))
             (nullish (ProcessEnv.JWT_SECRET env) "")
  = Middleware.Decoded decoded ->
  JwtPayload.userId decoded = User.id u ->
  let b' := Client.signedIn b res in
  Client.token b' = Some (AuthResponseData.token data)
  /\ Client.authorizationHeader b'
     = Some ("Bearer " ++ AuthResponseData.token data)%string
  /\ Middleware.authenticate jwt_verify env db (Client.authorizationHeader b')
     = Middleware.Next decoded
  /\ Client.protectedRouteShows b' = true.
Proof.
  intros Hlogin Hdata Hfound Hne Hclean Hverify Hid. cbv zeta.
  assert (Hsuccess : ApiResponse.success res = true).
  { unfold AuthController.login in Hlogin. rewrite Hfound in Hlogin.
    destruct (negb _); [inversion Hlogin|].
    destruct (AuthController.sign _ _ _); inversion Hlogin; reflexivity. }
  unfold Client.signedIn. rewrite Hsuccess, Hdata.
  assert (Hheader :
            Client.authorizationHeader
              (Client.mkBrowser (Some (AuthResponseData.user data))
                 (Some (AuthResponseData.token data)) false
                 (Store.mapSet (Client.localStorage b) "token"
                               (AuthResponseData.token data)))
            = Some ("Bearer " ++ AuthResponseData.token data)%string).
  { unfold Client.authorizationHeader. cbn [Client.localStorage].
    rewrite mapGet_after_set.
    apply truthy_true_iff in Hne. now rewrite Hne. }
  split; [reflexivity|]. split; [exact Hheader|]. split.
  - rewrite Hheader.
    rewrite authenticate_after_format_check
      by (apply prefix_iff; now eexists).
    rewrite tokenOf_bearer, (split_without_separator _ _ Hclean). cbn [hd].
    rewrite Hverify, Hid.
    destruct (findUserByEmail_has_id _ _ _ Hfound) as [stored ->]. reflexivity.
  - unfold Client.protectedRouteShows. cbn [Client.token].
    now apply truthy_true_iff.
Qed.

(** X19.  Signing out, and a 401 handled by the response interceptor:
    afterwards the client's requests carry no [Authorization] header and
    the gate answers them with 401 ['Access denied. No token provided.'].
    After a sign-out the protected route is hidden; the interceptor
    leaves the store's token, and with it the protected route, as they
    were. *)
Theorem signed_out_requests_are_refused
        (env : ProcessEnv.t) (db : Repository.Db) (b : Client.Browser) :
  Client.authorizationHeader (Client.logout b) = None
  /\ Client.authorizationHeader (Client.onErrorStatus b 401) = None
  /\ Middleware.authenticate jwt_verify env db
       (Client.authorizationHeader (Client.logout b))
     = deny "Access denied. No token provided."
  /\ Middleware.authenticate jwt_verify env db
       (Client.authorizationHeader (Client.onErrorStatus b 401))
     = deny "Access denied. No token provided."
  /\ Client.protectedRouteShows (Client.logout b) = false
  /\ Client.protectedRouteShows (Client.onErrorStatus b 401)
     = Client.protectedRouteShows b.
Proof.
  assert (H1 : Client.authorizationHeader (Client.logout b) = None).
  { unfold Client.authorizationHeader, Client.logout. cbn [Client.localStorage].
    now rewrite mapGet_after_delete. }
  assert (H2 : Client.authorizationHeader (Client.onErrorStatus b 401) = None).
  { unfold Client.authorizationHeader, Client.onErrorStatus.
    cbn [Z.eqb Pos.eqb Client.localStorage].
    unfold Store.mapGet, Store.mapDelete. cbn [fst].
    rewrite (find_filter_other fst "user" "token") by discriminate.
    now rewrite (find_filter_out fst "token"). }
  rewrite H1, H2. repeat split.
Qed.

End SignIn.

Lemma login_then_request_passes_gate_witness :
  Middleware.authenticate Sample.jwt_verify Sample.env Sample.db
    (Client.authorizationHeader
       (Client.signedIn (Client.mkBrowser None None false [])
          (ApiResponse.mk true
             (Some (AuthResponseData.mk "jwt.u-alice"
                      [("id", Js.VStr "u-alice"); ("email", Js.VStr "alice@x.com");
                       ("name", Js.VStr "Alice"); ("createdAt", Js.VTime 100)]))
             (Some "Login successful.") None)))
  = Middleware.Next Sample.alice.
Proof.
  refine (proj1 (proj2 (proj2
    (login_then_request_passes_gate Sample.jwt_verify Sample.bcrypt_compare
       Sample.jwt_sign Sample.env Sample.db
       (LoginBody.mk "Alice@X.com" "password123") _ _
       (User.mk "u-alice" "alice@x.com" "Alice" "$2b$12$password123" 100)
       Sample.alice (Client.mkBrowser None None false [])
       eq_refl eq_refl eq_refl _ eq_refl eq_refl eq_refl)))).
  discriminate.
Defined.

(** ** The client's requests against the handlers *)

Lemma isIn_iff (v : string) (values : list string) :
  Routes.isIn v values = true <-> In v values.
Proof.
  unfold Routes.isIn. rewrite existsb_exists. split.
  - intros [x [Hin E]]. apply String.eqb_eq in E. now subst.
  - intros Hin. exists v. split; [exact Hin | apply String.eqb_refl].
Qed.

Lemma sort_In (t : Task.t) (l : list Task.t) :
  In t (Js.sort TaskController.byCreatedAtDesc l) <-> In t l.
Proof.
  pose proof (sort_perm Task.createdAt l) as Hperm.
  split; intros H.
  - exact (Permutation_in t Hperm H).
  - exact (Permutation_in t (Permutation_sym Hperm) H).
Qed.

(** X20.  What the dashboard's hook asks for: a filter left at ['all']
    and an empty search box are not sent, and the tasks listed are
    exactly the requester's tasks with the chosen status (any status
    for ['all']), the chosen priority (likewise) and the search text in
    the title or the description. *)
Theorem useTasks_lists_what_the_filters_say
        (db : Repository.Db) (user : JwtPayload.t) (filters : Client.TaskFilters) :
  Client.status filters <> EmptyString ->
  Client.priority filters <> EmptyString ->
  exists out,
    TaskController.getTasks db user (Spec.queryOf (Client.useTasksParams filters))
    = Sent 200 (ApiResponse.mk true (Some out) None None)
    /\ forall t,
         In t out <->
         In t (Repository.getTasksByUser db (JwtPayload.userId user))
         /\ (Client.status filters = "all" \/ Task.status t = Client.status filters)
         /\ (Client.priority filters = "all"
             \/ Task.priority t = Client.priority filters)
         /\ (Spec.containsIgnoringCase (Task.title t) (Client.search filters)
             \/ Spec.containsIgnoringCase (Task.description t)
                                          (Client.search filters)).
Proof.
  intros Hs Hp.
  assert (Hs' : Spec.status (Client.useTasksParams filters) <> Some EmptyString).
  { cbn. destruct (negb _); congruence. }
  assert (Hp' : Spec.priority (Client.useTasksParams filters) <> Some EmptyString).
  { cbn. destruct (negb _); congruence. }
  eexists. split; [now apply getTasks_eq|].
  intros t.
  rewrite sort_In.
  rewrite filter_In, getTasksByUser_filter, filter_In.
  unfold Spec.wantedb, Spec.satisfiesb, Client.useTasksParams.
  cbn [Spec.status Spec.priority Spec.search].
  rewrite !andb_true_iff, String.eqb_eq.
  assert (Hst : (if negb (String.eqb (Client.status filters) "all")
                 then Some (Client.status filters) else None) = None
                /\ Client.status filters = "all"
                \/ (if negb (String.eqb (Client.status filters) "all")
                    then Some (Client.status filters) else None)
                   = Some (Client.status filters)
                   /\ Client.status filters <> "all").
  { destruct (String.eqb_spec (Client.status filters) "all"); cbn; tauto. }
  assert (Hpr : (if negb (String.eqb (Client.priority filters) "all")
                 then Some (Client.priority filters) else None) = None
                /\ Client.priority filters = "all"
                \/ (if negb (String.eqb (Client.priority filters) "all")
                    then Some (Client.priority filters) else None)
                   = Some (Client.priority filters)
                   /\ Client.priority filters <> "all").
  { destruct (String.eqb_spec (Client.priority filters) "all"); cbn; tauto. }
  assert (Hse : (match (if Js.truthy (Client.search filters)
                        then Some (Client.search filters) else None) with
                 | Some q =>
                     Js.includes (Js.toLowerCase (Task.title t)) (Js.toLowerCase q)
                     || Js.includes (Js.toLowerCase (Task.description t))
                                    (Js.toLowerCase q)
                 | None => true
                 end = true)
                <-> (Spec.containsIgnoringCase (Task.title t) (Client.search filters)
                     \/ Spec.containsIgnoringCase (Task.description t)
                                                  (Client.search filters))).
  { destruct (Js.truthy (Client.search filters)) eqn:E.
    - now rewrite orb_true_iff, !containsIgnoringCase_iff.
    - apply truthy_false_iff in E. rewrite E. split; [|reflexivity].
      intros _. left. apply containsIgnoringCase_iff. apply includes_empty. }
  rewrite Hse.
  destruct Hst as [[-> Es] | [-> Es]]; destruct Hpr as [[-> Ep] | [-> Ep]];
    rewrite ?String.eqb_eq; intuition congruence.
Qed.

Lemma useTasks_lists_what_the_filters_say_witness :
  exists out,
    TaskController.getTasks Sample.db Sample.alice
      (Spec.queryOf (Client.useTasksParams Client.DEFAULT_FILTERS))
    = Sent 200 (ApiResponse.mk true (Some out) None None)
    /\ forall t,
         In t out <->
         In t (Repository.getTasksByUser Sample.db (JwtPayload.userId Sample.alice))
         /\ (Client.status Client.DEFAULT_FILTERS = "all"
             \/ Task.status t = Client.status Client.DEFAULT_FILTERS)
         /\ (Client.priority Client.DEFAULT_FILTERS = "all"
             \/ Task.priority t = Client.priority Client.DEFAULT_FILTERS)
         /\ (Spec.containsIgnoringCase (Task.title t)
                                       (Client.search Client.DEFAULT_FILTERS)
             \/ Spec.containsIgnoringCase (Task.description t)
                                          (Client.search Client.DEFAULT_FILTERS)).
Proof.
  apply (useTasks_lists_what_the_filters_say Sample.db Sample.alice
           Client.DEFAULT_FILTERS); discriminate.
Defined.



(** X22.  The quick toggle of a task card: its request always passes
    the status validation, and on a task of the requester it is
    answered with the task, the status and [updatedAt] changed and
    nothing else.  Toggling twice gives
    the status back exactly for [todo] and [done]; a task that was
    [in-progress] ends as [todo]. *)
Theorem quick_toggle
        (isISO8601 : string -> bool) (parseOther : string -> option Z)
        (env : ProcessEnv.t) (db : Repository.Db) (now dbNow : Z)
        (user : JwtPayload.t) (id : string) (task : Task.t) :
  Repository.findTaskById db id = Some task ->
  Task.userId task = JwtPayload.userId user ->
  snd (Routes.patchTask isISO8601 parseOther env db now dbNow user id
                        (Client.toggleBody task))
  = Sent 200 (ApiResponse.mk true
       (Some (Task.mk (Task.id task) (Task.title task) (Task.description task)
                      (Client.nextStatus (Task.status task)) (Task.priority task)
                      (Task.dueDate task) (Task.createdAt task) now
                      (Task.userId task)))
       (Some "Task updated successfully.") None)
  /\ (Client.nextStatus (Client.nextStatus (Task.status task)) = Task.status task
      <-> Task.status task = "todo" \/ Task.status task = "done")
  /\ (Task.status task = "in-progress" ->
      Client.nextStatus (Client.nextStatus (Task.status task)) = "todo").
Proof.
  intros Hfind Hown. split; [|split].
  - unfold Routes.patchTask, Client.toggleBody.
    cbn [TaskBody.title TaskBody.status TaskBody.priority TaskBody.dueDate
         TaskBody.description TaskBody.extra option_map
         Routes.statusErrors Routes.priorityErrors Routes.dueDateErrors app].
    assert (Hin : Routes.isIn (Client.nextStatus (Task.status task))
                              ["todo"; "in-progress"; "done"] = true).
    { unfold Client.nextStatus. destruct (String.eqb _ _); reflexivity. }
    rewrite Hin. cbn [Routes.check app Middleware.validate].
    now rewrite (updateTask_owned _ _ _ _ _ _ _ Hfind Hown).
  - unfold Client.nextStatus.
    destruct (String.eqb_spec (Task.status task) "done") as [E|NE].
    + rewrite E. cbn. tauto.
    + cbn. split; [intros H; left; now symmetry | intros [H|H]; congruence].
  - intros E. rewrite E. reflexivity.
Qed.

Lemma quick_toggle_witness :
  snd (Routes.patchTask Sample.isISO8601 Sample.parseOther Sample.env Sample.db
         900 901 Sample.alice "t4"
         (Client.toggleBody
            (Task.mk "t4" "Call mum" "" "todo" "low" None 400 450 "u-alice")))
  = Sent 200 (ApiResponse.mk true
       (Some (Task.mk "t4" "Call mum" "" "done" "low" None 400 900 "u-alice"))
       (Some "Task updated successfully.") None).
Proof.
  refine (proj1 (quick_toggle Sample.isISO8601 Sample.parseOther Sample.env
                   Sample.db 900 901 Sample.alice "t4"
                   (Task.mk "t4" "Call mum" "" "todo" "low" None 400 450 "u-alice")
                   eq_refl eq_refl)).
Defined.

Lemma count_partition (l : list Task.t) :
  (forall t, In t l -> In (Task.status t) Schema.statusValues) ->
  (List.length l
   = List.length (filter (fun t => String.eqb (Task.status t) "todo") l)
     + List.length (filter (fun t => String.eqb (Task.status t) "in-progress") l)
     + List.length (filter (fun t => String.eqb (Task.status t) "done") l))%nat.
Proof.
  induction l as [|t l IH]; intros H; [reflexivity|].
  cbn [filter List.length].
  rewrite IH by (intros x Hx; apply H; now right).
  destruct (H t (or_introl eq_refl)) as [E|[E|[E|[]]]]; rewrite <- E; cbn; lia.
Qed.

(** X23.  The dashboard's counters: when every task has one of the
    three statuses -- as every task that passed the routes has -- the
    to-do, in-progress and done counts add up to the total; in any case
    they never exceed it. *)
Theorem dashboard_stats_add_up (allTasks : list Task.t) :
  let s := Client.stats allTasks in
  (Client.todo s + Client.inProgress s + Client.done s <= Client.total s)%nat
  /\ ((forall t, In t allTasks -> In (Task.status t) Schema.statusValues) ->
      (Client.total s = Client.todo s + Client.inProgress s + Client.done s)%nat).
Proof.
  cbv zeta. unfold Client.stats.
  cbn [Client.total Client.todo Client.inProgress Client.done].
  split; [|apply count_partition].
  induction allTasks as [|t l IH]; [cbn; lia|].
  cbn [filter List.length].
  destruct (String.eqb_spec (Task.status t) "todo") as [E|_];
    [rewrite E; cbn; lia|].
  destruct (String.eqb_spec (Task.status t) "in-progress") as [E|_];
    [rewrite E; cbn; lia|].
  destruct (String.eqb (Task.status t) "done"); cbn; lia.
Qed.

Lemma dashboard_stats_add_up_witness :
  (Client.total (Client.stats (Repository.getTasksByUser Sample.db "u-alice"))
   = Client.todo (Client.stats (Repository.getTasksByUser Sample.db "u-alice"))
     + Client.inProgress (Client.stats (Repository.getTasksByUser Sample.db "u-alice"))
     + Client.done (Client.stats (Repository.getTasksByUser Sample.db "u-alice")))%nat.
Proof.
  apply (dashboard_stats_add_up (Repository.getTasksByUser Sample.db "u-alice")).
  intros t Hin. cbn in Hin. unfold Schema.statusValues.
  repeat (destruct Hin as [<-|Hin]; [cbn; tauto|]). destruct Hin.
Defined.

(** ** What the task routes keep and what they show *)

Lemma saveTask_rows (db : Repository.Db) (dbNow : Z) (task : Task.t) (r : TaskRow.t) :
  In r (Repository.tasks (Repository.saveTask db dbNow task)) ->
  In r (Repository.tasks db)
  \/ (TaskRow.title r = Task.title task
      /\ TaskRow.status r = Task.status task
      /\ TaskRow.priority r = Task.priority task
      /\ TaskRow.user_id r = Task.userId task
      /\ TaskRow.id r = Task.id task).
Proof.
  unfold Repository.saveTask.
  destruct (Repository.findTaskById db (Task.id task)); cbn [Repository.tasks].
  - intros Hin. apply in_map_iff in Hin. destruct Hin as [x [<- Hx]].
    unfold Repository.updateRow. destruct (String.eqb _ _); [right | now left].
    repeat split.
  - intros Hin. apply in_app_or in Hin. destruct Hin as [Hin|[<-|[]]];
      [now left | right]. repeat split.
Qed.

Section TaskRoutes.
Variable isISO8601 : string -> bool.
Variable parseOther : string -> option Z.

Lemma statusErrors_nil (status : option string) (default : string) :
  Routes.statusErrors status = [] ->
  In default Schema.statusValues ->
  In (nullish status default) Schema.statusValues.
Proof.
  destruct status as [v|]; cbn [Routes.statusErrors nullish]; [|tauto].
  intros H _. apply isIn_iff. unfold Routes.check in H.
  destruct (Routes.isIn v _) eqn:E; [reflexivity | discriminate].
Qed.

Lemma priorityErrors_nil (priority : option string) (default : string) :
  Routes.priorityErrors priority = [] ->
  In default Schema.priorityValues ->
  In (nullish priority default) Schema.priorityValues.
Proof.
  destruct priority as [v|]; cbn [Routes.priorityErrors nullish]; [|tauto].
  intros H _. apply isIn_iff. unfold Routes.check in H.
  destruct (Routes.isIn v _) eqn:E; [reflexivity | discriminate].
Qed.

Lemma validate_none {T} (errors : list string) :
  @Middleware.validate T errors = None -> errors = [].
Proof. destruct errors; [reflexivity | discriminate]. Qed.

Lemma trim_truthy (s : string) :
  Js.truthy (Js.trim s) = true ->
  Js.trim (Js.trim s) <> EmptyString /\ Js.trim (Js.trim (Js.trim s)) = Js.trim (Js.trim s).
Proof.
  intros H. rewrite !trim_idempotent. split; [now apply truthy_true_iff | reflexivity].
Qed.

(** X24.  The task routes keep the tasks table valid: if every row has
    a non-empty trimmed title, a status among [todo], [in-progress],
    [done] and a priority among [low], [medium], [high], then so it is
    after any POST /tasks and any PATCH /tasks/:id, whatever the
    body. *)
Theorem task_routes_keep_rows_valid
        (env : ProcessEnv.t) (db : Repository.Db) (now dbNow : Z)
        (uuid id : string) (user : JwtPayload.t) (body : TaskBody.t) :
  (forall r, In r (Repository.tasks db) -> Schema.validRow r) ->
  (forall r,
      In r (Repository.tasks
              (fst (Routes.postTask isISO8601 parseOther env db now dbNow
                                    uuid user body))) ->
      Schema.validRow r)
  /\ (forall r,
        In r (Repository.tasks
                (fst (Routes.patchTask isISO8601 parseOther env db now dbNow
                                       user id body))) ->
        Schema.validRow r).
Proof.
  intros Hvalid. split.
  - unfold Routes.postTask.
    destruct (Middleware.validate _) as [reply|] eqn:E; [exact Hvalid|].
    apply validate_none in E.
    apply app_eq_nil in E. destruct E as [Et E].
    apply app_eq_nil in E. destruct E as [Es E].
    apply app_eq_nil in E. destruct E as [Ep _].
    unfold Routes.check in Et.
    destruct (Js.truthy (Js.trim (nullish (TaskBody.title body) ""))) eqn:Ht;
      [|discriminate Et].
    unfold TaskController.createTask.
    cbn [TaskBody.title TaskBody.description TaskBody.status TaskBody.priority
         TaskBody.dueDate fst].
    intros r Hin. apply saveTask_rows in Hin.
    destruct Hin as [Hin | [H1 [H2 [H3 _]]]]; [now apply Hvalid|].
    cbn [Task.title Task.status Task.priority] in H1, H2, H3.
    destruct (trim_truthy _ Ht) as [Hne Htrim].
    unfold Schema.validRow. rewrite H1, H2, H3.
    repeat split; try assumption.
    + apply statusErrors_nil; [exact Es | cbn; tauto].
    + apply priorityErrors_nil; [exact Ep | cbn; tauto].
  - unfold Routes.patchTask.
    destruct (Middleware.validate _) as [reply|] eqn:E; [exact Hvalid|].
    apply validate_none in E.
    apply app_eq_nil in E. destruct E as [Et E].
    apply app_eq_nil in E. destruct E as [Es E].
    apply app_eq_nil in E. destruct E as [Ep _].
    unfold TaskController.updateTask.
    destruct (Repository.findTaskById db id) as [task|] eqn:Hfind; [|exact Hvalid].
    destruct (negb _); [exact Hvalid|].
    destruct (findTaskById_row _ _ _ Hfind) as [r0 [Hr0 Htask]].
    apply find_some in Hr0. destruct Hr0 as [Hin0 _].
    destruct (Hvalid r0 Hin0) as [V1 [V2 [V3 V4]]].
    cbn [fst]. intros r Hin. apply saveTask_rows in Hin.
    destruct Hin as [Hin | [H1 [H2 [H3 _]]]]; [now apply Hvalid|].
    unfold TaskController.mergeTask in H1, H2, H3.
    cbn [Task.title Task.status Task.priority TaskBody.title TaskBody.status
         TaskBody.priority] in H1, H2, H3.
    subst task. cbn [Repository.mapTaskFromDb Task.title Task.status Task.priority]
      in H1, H2, H3.
    unfold Schema.validRow. rewrite H1, H2, H3.
    assert (Htitle :
              match option_map Js.trim (TaskBody.title body) with
              | Some title => Js.trim title
              | None => TaskRow.title r0
              end <> EmptyString
              /\ Js.trim match option_map Js.trim (TaskBody.title body) with
                         | Some title => Js.trim title
                         | None => TaskRow.title r0
                         end
                 = match option_map Js.trim (TaskBody.title body) with
                   | Some title => Js.trim title
                   | None => TaskRow.title r0
                   end).
    { destruct (TaskBody.title body) as [v|]; cbn [option_map] in *; [|tauto].
      unfold Routes.check in Et.
      destruct (Js.truthy (Js.trim v)) eqn:Ht; [|discriminate Et].
      now apply trim_truthy. }
    destruct Htitle as [T1 T2].
    repeat split; try assumption.
    + pose proof (statusErrors_nil (TaskBody.status body) (TaskRow.status r0) Es V3)
        as H. destruct (TaskBody.status body); exact H.
    + pose proof (priorityErrors_nil (TaskBody.priority body)
                    (TaskRow.priority r0) Ep V4) as H.
      destruct (TaskBody.priority body); exact H.
Qed.

End TaskRoutes.

Lemma task_routes_keep_rows_valid_witness :
  Schema.validRow (TaskRow.mk "t9" "u-alice" "Buy milk" "" "done" "medium"
                              None 901 901).
Proof.
  refine (proj1 (task_routes_keep_rows_valid Sample.isISO8601 Sample.parseOther
                   Sample.env Sample.db 900 901 "t9" "t2" Sample.alice
                   (TaskBody.mk (Some " Buy milk ") None (Some "done") None None [])
                   _) _ _).
  - intros r Hin. cbn in Hin. unfold Schema.validRow, Schema.statusValues,
      Schema.priorityValues.
    repeat (destruct Hin as [<-|Hin];
            [cbn; repeat split; try discriminate; tauto|]).
    destruct Hin.
  - vm_compute. tauto.
Defined.

Section TasksRouter.
Variable isISO8601 : string -> bool.
Variable parseOther : string -> option Z.
Variable jwt_verify : option string -> string -> Middleware.VerifyResult.

Let router := Router.tasks isISO8601 parseOther jwt_verify.

Lemma guarded_step_subset (g : option string) (p : string -> Task.t -> bool)
      (l : list Task.t) (t : Task.t) :
  In t (match g with Some v => filter (p v) l | None => l end) -> In t l.
Proof.
  destruct g; [|tauto]. intros H. now apply filter_In in H.
Qed.

Lemma getTasks_sends_owned (db : Repository.Db) (user : JwtPayload.t)
      (query : Query.t) (t : Task.t) :
  In t (Router.tasksSent
          (Router.Handled (Router.ListReply (TaskController.getTasks db user query)))) ->
  Task.userId t = JwtPayload.userId user.
Proof.
  unfold TaskController.getTasks.
  cbn [Router.tasksSent ApiResponse.data nullish].
  rewrite sort_In. intros H.
  apply guarded_step_subset in H. apply guarded_step_subset in H.
  apply guarded_step_subset in H.
  rewrite getTasksByUser_filter in H. apply filter_In in H.
  destruct H as [_ H]. now apply String.eqb_eq.
Qed.

Lemma validate_some_no_data {T} (errors : list string) (reply : HttpResult T) :
  Middleware.validate errors = Some reply ->
  exists body, reply = Sent 422 body /\ ApiResponse.data body = None.
Proof.
  destruct errors; [discriminate|]. intros H. inversion H. now eexists.
Qed.

(** X25.  Whatever the header and the request, every task a reply of
    the tasks router carries belongs to the user the gate
    authenticated; a refused request carries none. *)
Theorem tasks_router_shows_own_tasks_only
        (env : ProcessEnv.t) (db : Repository.Db) (now dbNow : Z) (uuid : string)
        (authorization : option string) (req : Router.TaskRequest) (t : Task.t) :
  In t (Router.tasksSent (snd (router env db now dbNow uuid authorization req))) ->
  exists subject,
    Middleware.authenticate jwt_verify env db authorization
    = Middleware.Next subject
    /\ Task.userId t = JwtPayload.userId subject.
Proof.
  unfold router, Router.tasks.
  destruct (Middleware.authenticate jwt_verify env db authorization)
    as [user|status body]; [|intros []].
  intros Hin. exists user. split; [reflexivity|].
  destruct req as [query|id|body|id body|id]; cbn [snd] in Hin.
  - now apply getTasks_sends_owned in Hin.
  - unfold TaskController.getTaskById in Hin.
    destruct (Repository.findTaskById db id) as [task|]; [|destruct Hin].
    destruct (String.eqb_spec (Task.userId task) (JwtPayload.userId user))
      as [E|_]; cbn in Hin; [|destruct Hin].
    destruct Hin as [<-|[]]. exact E.
  - unfold Routes.postTask in Hin.
    destruct (Middleware.validate _) as [reply|] eqn:E.
    + destruct (validate_some_no_data _ _ E) as [b [-> Hb]].
      cbn in Hin. rewrite Hb in Hin. destruct Hin.
    + unfold TaskController.createTask in Hin. cbn in Hin.
      destruct Hin as [<-|[]]. reflexivity.
  - unfold Routes.patchTask in Hin.
    destruct (Middleware.validate _) as [reply|] eqn:E.
    + destruct (validate_some_no_data _ _ E) as [b [-> Hb]].
      cbn in Hin. rewrite Hb in Hin. destruct Hin.
    + unfold TaskController.updateTask in Hin.
      destruct (Repository.findTaskById db id) as [task|]; [|destruct Hin].
      destruct (String.eqb_spec (Task.userId task) (JwtPayload.userId user))
        as [E'|_]; cbn in Hin; [|destruct Hin].
      destruct Hin as [<-|[]]. exact E'.
  - unfold TaskController.deleteTask in Hin.
    destruct (Repository.findTaskById db id) as [task|]; [|destruct Hin].
    destruct (negb _); destruct Hin.
Qed.

(** X26.  With distinct task ids and a fresh id for a created task, no
    request to the tasks router changes the tasks of anybody but the
    user the gate authenticated; a refused request changes nothing. *)
Theorem tasks_router_writes_own_tasks_only
        (env : ProcessEnv.t) (db : Repository.Db) (now dbNow : Z) (uuid : string)
        (authorization : option string) (req : Router.TaskRequest) (u : string) :
  Schema.uniqueTaskIds db ->
  Repository.findTaskById db uuid = None ->
  (forall subject,
      Middleware.authenticate jwt_verify env db authorization
      = Middleware.Next subject ->
      u <> JwtPayload.userId subject) ->
  Repository.getTasksByUser
    (fst (router env db now dbNow uuid authorization req)) u
  = Repository.getTasksByUser db u.
Proof.
  intros Hu Hfresh Hother. unfold router, Router.tasks.
  destruct (Middleware.authenticate jwt_verify env db authorization)
    as [user|status body]; [|reflexivity].
  specialize (Hother user eq_refl).
  destruct req as [query|id|body|id body|id]; cbn [fst]; try reflexivity.
  - unfold Routes.postTask.
    destruct (Middleware.validate _); [reflexivity|].
    unfold TaskController.createTask. cbn [TaskBody.title fst].
    unfold Repository.saveTask. cbn [Task.id]. rewrite Hfresh.
    rewrite getTasksByUser_app. cbn [TaskRow.user_id Task.userId].
    apply not_eq_sym in Hother. apply String.eqb_neq in Hother.
    now rewrite Hother, app_nil_r.
  - unfold Routes.patchTask.
    destruct (Middleware.validate _); [reflexivity|].
    unfold TaskController.updateTask.
    destruct (Repository.findTaskById db id) as [task|] eqn:Hfind; [|reflexivity].
    destruct (String.eqb_spec (Task.userId task) (JwtPayload.userId user))
      as [Hown|_]; cbn [negb fst]; [|reflexivity].
    pose proof (findTaskById_id _ _ _ Hfind) as Hid.
    refine (proj1 (owner_write_isolated db dbNow id (JwtPayload.userId user) u
                     task _ Hu Hfind Hown Hother _ _));
      [exact Hid | exact Hown].
  - unfold TaskController.deleteTask.
    destruct (Repository.findTaskById db id) as [task|] eqn:Hfind; [|reflexivity].
    destruct (String.eqb_spec (Task.userId task) (JwtPayload.userId user))
      as [Hown|_]; cbn [negb fst]; [|reflexivity].
    pose proof (findTaskById_id _ _ _ Hfind) as Hid. rewrite Hid.
    exact (proj2 (owner_write_isolated db dbNow id (JwtPayload.userId user) u
                    task task Hu Hfind Hown Hother Hid Hown)).
Qed.

End TasksRouter.

Lemma tasks_router_shows_own_tasks_only_witness :
  exists subject,
    Middleware.authenticate Sample.jwt_verify Sample.env Sample.db
      (Some "Bearer jwt.u-alice") = Middleware.Next subject
    /\ Task.userId (Task.mk "t3" "Read FOO report" "" "done" "high" None 500 500
                            "u-alice")
       = JwtPayload.userId subject.
Proof.
  apply (tasks_router_shows_own_tasks_only Sample.isISO8601 Sample.parseOther
           Sample.jwt_verify Sample.env Sample.db 900 901 "t9"
           (Some "Bearer jwt.u-alice")
           (Router.ListTasks (Query.mk None None None))).
  vm_compute. tauto.
Defined.

Lemma tasks_router_writes_own_tasks_only_witness :
  Repository.getTasksByUser
    (fst (Router.tasks Sample.isISO8601 Sample.parseOther Sample.jwt_verify
            Sample.env Sample.db 900 901 "t9" (Some "Bearer jwt.u-alice")
            (Router.DeleteTask "t1"))) "u-bob"
  = Repository.getTasksByUser Sample.db "u-bob".
Proof.
  apply (tasks_router_writes_own_tasks_only Sample.isISO8601 Sample.parseOther
           Sample.jwt_verify Sample.env Sample.db 900 901 "t9"
           (Some "Bearer jwt.u-alice") (Router.DeleteTask "t1") "u-bob").
  - unfold Schema.uniqueTaskIds. cbn.
    repeat (constructor; [cbn; intuition discriminate|]). constructor.
  - reflexivity.
  - intros subject H. cbn in H. inversion H. discriminate.
Defined.

(** ** The in-memory store *)

Section MapLaws.
Context {V : Type}.

Lemma mapSet_keys (m : list (string * V)) (k : string) (v : V) :
  map fst (Store.mapSet m k v)
  = if existsb (fun kv => String.eqb (fst kv) k) m
    then map fst m else map fst m ++ [k].
Proof.
  induction m as [|[k' v'] m IH]; [reflexivity|].
  cbn [Store.mapSet existsb fst].
  destruct (String.eqb_spec k' k) as [->|NE]; cbn [orb map fst]; [reflexivity|].
  rewrite IH. destruct (existsb _ m); reflexivity.
Qed.

Lemma mapGet_set_other (m : list (string * V)) (k other : string) (v : V) :
  other <> k -> Store.mapGet (Store.mapSet m k v) other = Store.mapGet m other.
Proof.
  intros Hne. unfold Store.mapGet. f_equal.
  induction m as [|[k' v'] m IH]; cbn [Store.mapSet find fst].
  - destruct (String.eqb_spec k other) as [E|_]; [now elim Hne | reflexivity].
  - destruct (String.eqb_spec k' k) as [->|NE]; cbn [find fst].
    + destruct (String.eqb_spec k other) as [E|_]; [now elim Hne | reflexivity].
    + destruct (String.eqb k' other); [reflexivity | exact IH].
Qed.

Lemma existsb_in_keys (m : list (string * V)) (k : string) :
  existsb (fun kv => String.eqb (fst kv) k) m = false -> ~ In k (map fst m).
Proof.
  intros H. apply (find_none_not_in fst k m).
  destruct (find _ m) eqn:E; [|reflexivity].
  assert (existsb (fun kv => String.eqb (fst kv) k) m = true)
    by (apply existsb_find; congruence).
  congruence.
Qed.

End MapLaws.

(** X27.  The in-memory store behaves as a map from ids to tasks:
    a saved task is found again as it was given, saving touches no
    other id and keeps the ids distinct and an existing task in its
    place, and after a delete the id is not found, the flag telling
    whether it was there. *)
Theorem store_task_laws (s : Store.t) (task : Task.t) (id : string) :
  Store.findTaskById (Store.saveTask s task) (Task.id task) = Some task
  /\ (id <> Task.id task ->
      Store.findTaskById (Store.saveTask s task) id = Store.findTaskById s id)
  /\ (NoDup (map fst (Store.tasks s)) ->
      NoDup (map fst (Store.tasks (Store.saveTask s task))))
  /\ (Store.findTaskById s (Task.id task) <> None ->
      map fst (Store.tasks (Store.saveTask s task)) = map fst (Store.tasks s))
  /\ Store.findTaskById (fst (Store.deleteTask s id)) id = None
  /\ (snd (Store.deleteTask s id) = true <-> Store.findTaskById s id <> None).
Proof.
  unfold Store.findTaskById, Store.saveTask, Store.deleteTask.
  cbn [Store.tasks fst snd].
  split; [apply mapGet_after_set|].
  split; [intros Hne; now apply mapGet_set_other|].
  split; [|split; [|split]].
  - intros Hu. rewrite mapSet_keys.
    destruct (existsb _ _) eqn:E; [exact Hu|].
    apply NoDup_snoc; [exact Hu | now apply existsb_in_keys].
  - intros Hsome. rewrite mapSet_keys.
    destruct (existsb _ _) eqn:E; [reflexivity|].
    exfalso. apply Hsome. unfold Store.mapGet.
    destruct (find _ _) eqn:Hf; [|reflexivity].
    assert (existsb (fun kv : string * Task.t => String.eqb (fst kv) (Task.id task))
                    (Store.tasks s) = true)
      by (apply existsb_find; congruence).
    congruence.
  - apply mapGet_after_delete.
  - unfold Store.mapDelete, Store.mapGet. cbn [snd].
    rewrite existsb_find. destruct (find _ _); cbn; split; congruence.
Qed.

Lemma store_task_laws_witness :
  let t := Task.mk "t1" "Buy milk" "" "todo" "medium" None 1 1 "u-alice" in
  Store.findTaskById (Store.saveTask (Store.saveTask Store.empty t) t) "t1" = Some t
  /\ map fst (Store.tasks (Store.saveTask (Store.saveTask Store.empty t) t))
     = ["t1"].
Proof.
  intros t.
  destruct (store_task_laws (Store.saveTask Store.empty t) t "t1")
    as [Hfound [_ [_ [Hplace _]]]].
  split; [exact Hfound|].
  rewrite Hplace; [reflexivity | discriminate].
Defined.

(** ** The login route *)

(** X29.  POST /auth/login answers 200 only for a well-formed address,
    a non-empty password and a stored user whose hash bcrypt accepted
    for that password; the token is then signed for that user's id and
    address, and the user object sent is that user's without
    [passwordHash]. *)
Theorem login_route_success_is_sound
        (isEmail : string -> bool)
        (bcrypt_compare : string -> string -> bool)
        (jwt_sign : JwtPayload.t -> string -> string -> string)
        (env : ProcessEnv.t) (db : Repository.Db) (body : LoginBody.t)
        (res : ApiResponse.t AuthResponseData.t) :
  Router.postLogin isEmail bcrypt_compare jwt_sign env db body = Sent 200 res ->
  isEmail (LoginBody.email body) = true
  /\ LoginBody.password body <> EmptyString
  /\ exists u,
       Repository.findUserByEmail db (LoginBody.email body) = Some u
       /\ bcrypt_compare (LoginBody.password body) (User.passwordHash u) = true
       /\ res = ApiResponse.mk true
                  (Some (AuthResponseData.mk
                           (AuthController.signFor jwt_sign env
                              (JwtPayload.mk (User.id u) (User.email u) None None))
                           (Js.rest (User.toObject u) "passwordHash")))
                  (Some "Login successful.") None.
Proof.
  unfold Router.postLogin, Routes.check.
  destruct (isEmail (LoginBody.email body)) eqn:Ee;
    [|cbn; intros H; inversion H].
  destruct (Js.truthy (LoginBody.password body)) eqn:Ep;
    [|cbn; intros H; inversion H].
  cbn [app Middleware.validate]. unfold AuthController.login.
  destruct (Repository.findUserByEmail db (LoginBody.email body)) as [u|];
    [|intros H; inversion H].
  destruct (bcrypt_compare _ _) eqn:Ec; cbn [negb]; [|intros H; inversion H].
  unfold AuthController.sign.
  destruct (Js.truthy (nullish _ _)); intros H; inversion H.
  split; [reflexivity|]. split; [now apply truthy_true_iff|].
  exists u. repeat split. exact Ec.
Qed.

Lemma login_route_success_is_sound_witness :
  Sample.isEmail "Alice@X.com" = true
  /\ "password123" <> EmptyString
  /\ exists u,
       Repository.findUserByEmail Sample.db "Alice@X.com" = Some u
       /\ Sample.bcrypt_compare "password123" (User.passwordHash u) = true.
Proof.
  destruct (login_route_success_is_sound Sample.isEmail Sample.bcrypt_compare
              Sample.jwt_sign Sample.env Sample.db
              (LoginBody.mk "Alice@X.com" "password123") _ eq_refl)
    as [He [Hp [u [Hu [Hc _]]]]].
  split; [exact He|]. split; [exact Hp|]. exists u. now split.
Defined.
